(** * The leave-management approval engine (dapphari007/LMS)

    A shallow embedding of the approval-workflow service (the functions
    [createApprovalWorkflow], [updateApprovalWorkflow], ...) and of the
    leave-request controller (the handlers [createLeaveRequest],
    [updateLeaveRequestStatus], [cancelLeaveRequest], [deleteLeaveRequest],
    [approveDeleteLeaveRequest] and [rejectDeleteLeaveRequest]), with the
    properties of the engine stated over them.

    Conventions of the embedding.
    - The tables of the backing store are finite maps keyed by primary key;
      the workflow table is a list of rows, because the controller depends on
      the order in which the rows of a query are returned.
    - Day quantities are [Z] numbers of tenths of a day: [numberOfDays],
      [balance], [used] and [carryForward] are DECIMAL(5,1) columns, and on
      tenths the JavaScript additions and comparisons of the source are
      exact; [minDays] and [maxDays] are held in the same unit.
    - A [Date] is its number of milliseconds since the epoch, read in UTC.
    - The [jsonb] column [approvalLevels] is taken at its declared type, an
      array of levels; a level whose [roleIds] is missing has [roleIds = []]
      (every read of the source treats the two alike).
    - E-mail notifications do not touch the store and are left out; the
      notifier is taken not to throw. *)

From stdpp Require Import gmap strings list fin_maps pretty sorting.
From Stdlib Require Import ZArith Lia Ascii.

#[local] Open Scope string_scope.
#[local] Open Scope Z_scope.

(** ** Dates *)

Module DateUtils.

Definition Date := Z.

Definition msPerDay : Z := 86400000.

(** [Date.prototype.getFullYear]: the civil year of an instant. *)
Definition getFullYear (t : Date) : Z :=
  let z := t / msPerDay + 719468 in
  let era := z / 146097 in
  let doe := z - era * 146097 in
  let yoe := (doe - doe / 1460 + doe / 36524 - doe / 146096) / 365 in
  let doy := doe - (365 * yoe + yoe / 4 - yoe / 100) in
  let mp := (5 * doy + 2) / 153 in
  let m := if mp <? 10 then mp + 3 else mp - 9 in
  let y := yoe + era * 400 in
  if m <=? 2 then y + 1 else y.

(** [d.setHours(0, 0, 0, 0)]: the start of the day of [d]. *)
Definition setHoursZero (t : Date) : Date := t - t mod msPerDay.

(** Modelled from the spec: [getCurrentYear] of utils/dateUtils, which is
    not among the sources; it is the calendar year of the wall clock. *)
Definition getCurrentYear (now : Date) : Z := getFullYear now.

End DateUtils.
Export DateUtils.

(** ** Entities *)

Inductive UserRole := SUPER_ADMIN | HR | MANAGER | TEAM_LEAD | EMPLOYEE.

Inductive LeaveRequestStatus :=
  | PENDING | APPROVED | REJECTED | CANCELLED
  | PARTIALLY_APPROVED | PENDING_DELETION.

Inductive LeaveRequestType := FULL_DAY | FIRST_HALF | SECOND_HALF.

Inductive Gender := MALE | FEMALE | OTHER.

#[global] Instance UserRole_eq_dec : EqDecision UserRole.
Proof. solve_decision. Defined.
#[global] Instance LeaveRequestStatus_eq_dec : EqDecision LeaveRequestStatus.
Proof. solve_decision. Defined.
#[global] Instance LeaveRequestType_eq_dec : EqDecision LeaveRequestType.
Proof. solve_decision. Defined.
#[global] Instance Gender_eq_dec : EqDecision Gender.
Proof. solve_decision. Defined.

(** The string value of each member of the [UserRole] enum. *)
Definition roleName (r : UserRole) : string :=
  match r with
  | SUPER_ADMIN => "super_admin"
  | HR => "hr"
  | MANAGER => "manager"
  | TEAM_LEAD => "team_lead"
  | EMPLOYEE => "employee"
  end.

Definition statusName (s : LeaveRequestStatus) : string :=
  match s with
  | PENDING => "pending"
  | APPROVED => "approved"
  | REJECTED => "rejected"
  | CANCELLED => "cancelled"
  | PARTIALLY_APPROVED => "partially_approved"
  | PENDING_DELETION => "pending_deletion"
  end.

(** [Array.prototype.includes]. *)
Definition includes {A} `{EqDecision A} (l : list A) (x : A) : bool :=
  bool_decide (x ∈ l).

(** One approval step of a workflow. [roles] is the legacy format, read
    only when [roleIds] is empty. *)
Record Level := {
  level : Z;
  roleIds : list string;
  roles : list string;
  departmentSpecific : bool;
  required : bool
}.

Record ApprovalWorkflow := {
  wfId : string;
  wfName : string;
  minDays : Z;
  maxDays : Z;
  approvalLevels : list Level;
  isActive : bool;
  categoryId : option string
}.

(** A row of [users], held in the store under its [id]. *)
Record User := {
  firstName : string;
  lastName : string;
  email : string;
  role : UserRole;
  roleId : option string;
  managerId : option string;
  teamLeadId : option string;
  department : option string;
  gender : option Gender
}.

Record LeaveType := {
  ltName : string;
  ltIsActive : bool;
  applicableGender : option Gender;
  isHalfDayAllowed : bool
}.

Record LeaveBalance := {
  balance : Z;
  used : Z;
  carryForward : Z
}.

Record ApprovalHistoryEntry := {
  hLevel : Z;
  hApproverId : string;
  hApproverName : string;
  hApprovedAt : Date;
  hComments : option string
}.

Record WorkflowMetadata := {
  requestUserRole : option UserRole;
  workflowId : option string;
  currentApprovalLevel : option Z;
  requiredApprovalLevels : option (list Z);
  approvalHistory : option (list ApprovalHistoryEntry);
  isFullyApproved : bool;
  deletionRequestedBy : option string;
  deletionRequestedAt : option Date;
  originalStatus : option LeaveRequestStatus;
  deletionRejectedBy : option string;
  deletionRejectedAt : option Date;
  deletionRejectionComments : option string
}.

(** A row of [leave_requests]; its primary key [id] is the key under which
    the store holds it. *)
Record LeaveRequest := {
  userId : string;
  leaveTypeId : string;
  startDate : Date;
  endDate : Date;
  requestType : LeaveRequestType;
  numberOfDays : Z;
  reason : string;
  status : LeaveRequestStatus;
  approverId : option string;
  approverComments : option string;
  approvedAt : option Date;
  metadata : option WorkflowMetadata
}.

(** The key of the unique index of [leave_balances]:
    [(userId, leaveTypeId, year)]. *)
Definition BalanceKey : Type := string * string * Z.

Record Store := {
  leaveRequests : gmap string LeaveRequest;
  leaveBalances : gmap BalanceKey LeaveBalance;
  users : gmap string User;
  leaveTypes : gmap string LeaveType;
  approvalWorkflows : list ApprovalWorkflow
}.

(** ** The approval-workflow service *)

Module ApprovalWorkflowService.

Inductive ServiceError :=
  | NameExists          (* "Approval workflow with this name already exists" *)
  | Overlaps            (* "This workflow overlaps with an existing workflow" *)
  | NotFound            (* "Approval workflow not found" *)
  | NameInUse           (* "Approval workflow name is already in use" *)
  | WouldOverlap        (* "This workflow would overlap with an existing workflow" *)
  | NoWorkflowForDuration.

Inductive Result (A : Type) :=
  | Ok (a : A)
  | Throw (e : ServiceError).
Arguments Ok {A} a.
Arguments Throw {A} e.

(** The columns a caller supplies on creation. *)
Record NewWorkflow := {
  nName : string;
  nMinDays : Z;
  nMaxDays : Z;
  nApprovalLevels : list Level;
  nIsActive : option bool;
  nCategoryId : option string
}.

(** [Partial<ApprovalWorkflow>] as passed to an update. *)
Record WorkflowData := {
  dName : option string;
  dMinDays : option Z;
  dMaxDays : option Z;
  dApprovalLevels : option (list Level);
  dIsActive : option bool;
  dCategoryId : option string
}.

Definition findByName (n : string) (ws : list ApprovalWorkflow) :=
  List.find (fun w => bool_decide (wfName w = n)) ws.

Definition findById (i : string) (ws : list ApprovalWorkflow) :=
  List.find (fun w => bool_decide (wfId w = i)) ws.

(** [where: { minDays: LessThanOrEqual(hi), maxDays: MoreThanOrEqual(lo) }] *)
Definition rangeQuery (lo hi : Z) (w : ApprovalWorkflow) : bool :=
  (minDays w <=? hi) && (maxDays w >=? lo).

(** [repository.create] followed by [save]: the row gets the identifier
    [newId] generated by the database. *)
Definition createRow (newId : string) (d : NewWorkflow) : ApprovalWorkflow :=
  {| wfId := newId;
     wfName := nName d;
     minDays := nMinDays d;
     maxDays := nMaxDays d;
     approvalLevels := nApprovalLevels d;
     isActive := default true (nIsActive d);
     categoryId := nCategoryId d |}.

Definition createApprovalWorkflow (newId : string) (d : NewWorkflow)
    (ws : list ApprovalWorkflow)
    : Result (ApprovalWorkflow * list ApprovalWorkflow) :=
  match findByName (nName d) ws with
  | Some _ => Throw NameExists
  | None =>
      let overlappingWorkflows :=
        List.filter (rangeQuery (nMinDays d) (nMaxDays d)) ws in
      if (0 <? Z.of_nat (length overlappingWorkflows))
      then Throw Overlaps
      else
        let approvalWorkflow := createRow newId d in
        Ok (approvalWorkflow, (ws ++ [approvalWorkflow])%list)
  end.

(** [repository.merge]: the supplied columns overwrite the row's. *)
Definition merge (w : ApprovalWorkflow) (d : WorkflowData) : ApprovalWorkflow :=
  {| wfId := wfId w;
     wfName := default (wfName w) (dName d);
     minDays := default (minDays w) (dMinDays d);
     maxDays := default (maxDays w) (dMaxDays d);
     approvalLevels := default (approvalLevels w) (dApprovalLevels d);
     isActive := default (isActive w) (dIsActive d);
     categoryId := match dCategoryId d with
                   | Some c => Some c
                   | None => categoryId w
                   end |}.

(** [save] of a loaded row: the row with that identifier is replaced. *)
Definition saveRow (w : ApprovalWorkflow) (ws : list ApprovalWorkflow) :=
  List.map (fun x => if bool_decide (wfId x = wfId w) then w else x) ws.

Definition changes (new : option Z) (old : Z) : bool :=
  match new with
  | Some v => negb (bool_decide (v = old))
  | None => false
  end.

Definition nameTaken (d : WorkflowData) (w : ApprovalWorkflow)
    (ws : list ApprovalWorkflow) : bool :=
  match dName d with
  | Some n =>
      negb (bool_decide (n = "")) && negb (bool_decide (n = wfName w))
      && bool_decide (is_Some (findByName n ws))
  | None => false
  end.

Definition updateApprovalWorkflow (workflowId : string) (d : WorkflowData)
    (ws : list ApprovalWorkflow)
    : Result (ApprovalWorkflow * list ApprovalWorkflow) :=
  match findById workflowId ws with
  | None => Throw NotFound
  | Some approvalWorkflow =>
      if nameTaken d approvalWorkflow ws then Throw NameInUse
      else
        let rangeChanged :=
          changes (dMinDays d) (minDays approvalWorkflow)
          || changes (dMaxDays d) (maxDays approvalWorkflow) in
        let newMinDays := default (minDays approvalWorkflow) (dMinDays d) in
        let newMaxDays := default (maxDays approvalWorkflow) (dMaxDays d) in
        let overlappingWorkflows :=
          List.filter
            (fun w => negb (bool_decide (wfId w = workflowId))
                      && rangeQuery newMinDays newMaxDays w) ws in
        if rangeChanged && (0 <? Z.of_nat (length overlappingWorkflows))
        then Throw WouldOverlap
        else
          let merged := merge approvalWorkflow d in
          Ok (merged, saveRow merged ws)
  end.

Definition deleteApprovalWorkflow (workflowId : string)
    (ws : list ApprovalWorkflow) : Result (list ApprovalWorkflow) :=
  match findById workflowId ws with
  | None => Throw NotFound
  | Some w =>
      Ok (List.filter (fun x => negb (bool_decide (wfId x = wfId w))) ws)
  end.

Definition getApprovalWorkflowForDuration (days : Z)
    (ws : list ApprovalWorkflow) : Result ApprovalWorkflow :=
  match List.find (fun w => rangeQuery days days w && isActive w) ws with
  | Some w => Ok w
  | None => Throw NoWorkflowForDuration
  end.

End ApprovalWorkflowService.

(** ** The leave-request controller *)

Module LeaveRequestController.

(** *** Collaborators that are not part of the controller *)

Record AuthorizationCheck := {
  isAuthorized : bool;
  authReason : option string
}.

Record HolidayCheck := {
  hasHolidays : bool;
  holidays : list string
}.

(** The services and date utilities the controller imports. A result of
    [None] stands for a call that throws. *)
Record Collaborators := {
  isApproverAuthorized : Store -> string -> string -> AuthorizationCheck;
  findApproversByRoleIds :
    Store -> list string -> option string -> option (list (string * User));
  getApprovalWorkflow : Store -> Z -> option ApprovalWorkflow;
  calculateBusinessDays : Date -> Date -> Z;
  calculateHalfDayValue : bool -> Z;
  checkForHolidaysInRange : Date -> Date -> HolidayCheck
}.

(** *** Responses *)

Record OverlapInfo := {
  oId : string;
  oStartDate : Date;
  oEndDate : Date;
  oLeaveTypeId : string
}.

(** The body of a response: one constructor per message of the source,
    with the data the response carries. *)
Inductive Body :=
  | FieldsRequired | StartAfterEnd | StartInPast
  | OnHolidays (names : list string)
  | LeaveTypeNotFound | LeaveTypeInactive
  | GenderNotApplicable | HalfDayNotAllowed | HalfDaySingleDay
  | AlreadyHaveRequest (conflictingRequest : OverlapInfo)
  | NoBalanceFound
  | InsufficientBalance (availableBalance requestedDays pendingDays : Z)
  | NoWorkflowFound
  | NoApproversFound
  | Created (leaveRequest : string * LeaveRequest)
  | StatusRequired | InvalidStatus
  | LeaveRequestNotFound
  | AlreadyInStatus (s : LeaveRequestStatus)
  | OnlyPendingOrPartial
  | ApproverNotFound | UserNotFound
  | NotAuthorized (reason : option string)
  | RoleNotAllowed
  | OverlapsApproved (overlappingRequests : list OverlapInfo)
  | ApprovedAtLevel (l : Z) (leaveRequest : LeaveRequest)
  | StatusUpdated (s : LeaveRequestStatus) (leaveRequest : LeaveRequest)
  | InternalError
  | OnlyOwnCancel | AlreadyCancelled | AlreadyStarted
  | CancelledOk (leaveRequest : LeaveRequest)
  | NotPendingDeletion
  | NotAuthorizedRejectDeletion | NotAuthorizedApproveDeletion
  | DeletionRejected (leaveRequest : LeaveRequest)
  | DeletionApproved
  | OnlyOwnDelete
  | DeletionPending (leaveRequest : LeaveRequest)
  | DeletedOk.

Record Response := {
  code : Z;
  body : Body
}.

Definition respond (c : Z) (b : Body) (st : Store) : Response * Store :=
  ({| code := c; body := b |}, st).

(** *** Field updates of the mutable entities *)

Definition emptyMetadata : WorkflowMetadata :=
  {| requestUserRole := None; workflowId := None;
     currentApprovalLevel := None; requiredApprovalLevels := None;
     approvalHistory := None; isFullyApproved := false;
     deletionRequestedBy := None; deletionRequestedAt := None;
     originalStatus := None; deletionRejectedBy := None;
     deletionRejectedAt := None; deletionRejectionComments := None |}.

Definition setLevels (cur : option Z) (req : option (list Z))
    (m : WorkflowMetadata) : WorkflowMetadata :=
  {| requestUserRole := requestUserRole m; workflowId := workflowId m;
     currentApprovalLevel := cur; requiredApprovalLevels := req;
     approvalHistory := approvalHistory m;
     isFullyApproved := isFullyApproved m;
     deletionRequestedBy := deletionRequestedBy m;
     deletionRequestedAt := deletionRequestedAt m;
     originalStatus := originalStatus m;
     deletionRejectedBy := deletionRejectedBy m;
     deletionRejectedAt := deletionRejectedAt m;
     deletionRejectionComments := deletionRejectionComments m |}.

Definition setRequestUserRole (r : option UserRole)
    (m : WorkflowMetadata) : WorkflowMetadata :=
  {| requestUserRole := r; workflowId := workflowId m;
     currentApprovalLevel := currentApprovalLevel m;
     requiredApprovalLevels := requiredApprovalLevels m;
     approvalHistory := approvalHistory m;
     isFullyApproved := isFullyApproved m;
     deletionRequestedBy := deletionRequestedBy m;
     deletionRequestedAt := deletionRequestedAt m;
     originalStatus := originalStatus m;
     deletionRejectedBy := deletionRejectedBy m;
     deletionRejectedAt := deletionRejectedAt m;
     deletionRejectionComments := deletionRejectionComments m |}.

Definition setHistory (h : option (list ApprovalHistoryEntry)) (full : bool)
    (m : WorkflowMetadata) : WorkflowMetadata :=
  {| requestUserRole := requestUserRole m; workflowId := workflowId m;
     currentApprovalLevel := currentApprovalLevel m;
     requiredApprovalLevels := requiredApprovalLevels m;
     approvalHistory := h;
     isFullyApproved := full;
     deletionRequestedBy := deletionRequestedBy m;
     deletionRequestedAt := deletionRequestedAt m;
     originalStatus := originalStatus m;
     deletionRejectedBy := deletionRejectedBy m;
     deletionRejectedAt := deletionRejectedAt m;
     deletionRejectionComments := deletionRejectionComments m |}.

Definition setDeletionRequested (by_ : string) (at_ : Date)
    (orig : LeaveRequestStatus) (m : WorkflowMetadata) : WorkflowMetadata :=
  {| requestUserRole := requestUserRole m; workflowId := workflowId m;
     currentApprovalLevel := currentApprovalLevel m;
     requiredApprovalLevels := requiredApprovalLevels m;
     approvalHistory := approvalHistory m;
     isFullyApproved := isFullyApproved m;
     deletionRequestedBy := Some by_;
     deletionRequestedAt := Some at_;
     originalStatus := Some orig;
     deletionRejectedBy := deletionRejectedBy m;
     deletionRejectedAt := deletionRejectedAt m;
     deletionRejectionComments := deletionRejectionComments m |}.

Definition setDeletionRejected (by_ : string) (at_ : Date)
    (comments : option string) (m : WorkflowMetadata) : WorkflowMetadata :=
  {| requestUserRole := requestUserRole m; workflowId := workflowId m;
     currentApprovalLevel := currentApprovalLevel m;
     requiredApprovalLevels := requiredApprovalLevels m;
     approvalHistory := approvalHistory m;
     isFullyApproved := isFullyApproved m;
     deletionRequestedBy := deletionRequestedBy m;
     deletionRequestedAt := deletionRequestedAt m;
     originalStatus := originalStatus m;
     deletionRejectedBy := Some by_;
     deletionRejectedAt := Some at_;
     deletionRejectionComments := comments |}.

(** The fields of a request an action may assign: [status],
    [approverId], [approverComments], [approvedAt] and [metadata]. *)
Definition assign (s : LeaveRequestStatus) (aid : option string)
    (c : option string) (at_ : option Date) (m : option WorkflowMetadata)
    (r : LeaveRequest) : LeaveRequest :=
  {| userId := userId r; leaveTypeId := leaveTypeId r;
     startDate := startDate r; endDate := endDate r;
     requestType := requestType r; numberOfDays := numberOfDays r;
     reason := reason r;
     status := s; approverId := aid; approverComments := c;
     approvedAt := at_; metadata := m |}.

Definition setStatus (s : LeaveRequestStatus) (r : LeaveRequest) :=
  assign s (approverId r) (approverComments r) (approvedAt r) (metadata r) r.

Definition setMetadata (m : WorkflowMetadata) (r : LeaveRequest) :=
  assign (status r) (approverId r) (approverComments r) (approvedAt r)
    (Some m) r.

Definition setComments (c : option string) (r : LeaveRequest) :=
  assign (status r) (approverId r) c (approvedAt r) (metadata r) r.

Definition setUsed (u : Z) (b : LeaveBalance) : LeaveBalance :=
  {| balance := balance b; used := u; carryForward := carryForward b |}.

(** *** Repository operations *)

Definition saveLeaveRequest (k : string) (r : LeaveRequest) (st : Store) :=
  {| leaveRequests := <[k := r]> (leaveRequests st);
     leaveBalances := leaveBalances st;
     users := users st; leaveTypes := leaveTypes st;
     approvalWorkflows := approvalWorkflows st |}.

Definition removeLeaveRequest (k : string) (st : Store) :=
  {| leaveRequests := delete k (leaveRequests st);
     leaveBalances := leaveBalances st;
     users := users st; leaveTypes := leaveTypes st;
     approvalWorkflows := approvalWorkflows st |}.

Definition saveLeaveBalance (k : BalanceKey) (b : LeaveBalance) (st : Store) :=
  {| leaveRequests := leaveRequests st;
     leaveBalances := <[k := b]> (leaveBalances st);
     users := users st; leaveTypes := leaveTypes st;
     approvalWorkflows := approvalWorkflows st |}.

(** [leaveRequestRepository.find({ where })]: the rows, with their
    primary keys, that satisfy the condition. *)
Definition findWhere (P : string -> LeaveRequest -> bool)
    (m : gmap string LeaveRequest) : list (string * LeaveRequest) :=
  List.filter (fun kr => P kr.1 kr.2) (map_to_list m).

(** *** Helpers of the approval action *)

(** JavaScript truthiness of an optional string: [""] is falsy. *)
Definition truthy (o : option string) : option string :=
  match o with
  | Some s => if bool_decide (s = "") then None else Some s
  | None => None
  end.

Definition newline : string := String (ascii_of_nat 10) EmptyString.

(** [[...approvalLevels].sort((a, b) => a.level - b.level)], a stable
    sort by ascending level number. *)
Fixpoint insertLevel (x : Level) (l : list Level) : list Level :=
  match l with
  | [] => [x]
  | y :: t =>
      if level x <=? level y then x :: y :: t else y :: insertLevel x t
  end.

Definition sortLevels (l : list Level) : list Level :=
  foldr insertLevel [] l.

(** [Array.prototype.sort()] without a comparator: the elements are
    ordered by their string forms. *)
Fixpoint insertByString (x : Z) (l : list Z) : list Z :=
  match l with
  | [] => [x]
  | y :: t =>
      if String.leb (pretty x) (pretty y) then x :: y :: t
      else y :: insertByString x t
  end.

Definition defaultSort (l : list Z) : list Z := foldr insertByString [] l.

(** [find({ where: { isActive: true }, order: { minDays: "DESC" } })];
    rows with equal [minDays] stay in table order. *)
Fixpoint insertDesc (w : ApprovalWorkflow) (l : list ApprovalWorkflow) :=
  match l with
  | [] => [w]
  | y :: t =>
      if minDays y <=? minDays w then w :: y :: t else y :: insertDesc w t
  end.

Definition activeWorkflows (st : Store) : list ApprovalWorkflow :=
  foldr insertDesc [] (List.filter isActive (approvalWorkflows st)).

(** Whether the workflow has the same level numbers as the request's
    [requiredApprovalLevels]. *)
Definition sameLevels (md : WorkflowMetadata) (w : ApprovalWorkflow) : bool :=
  match requiredApprovalLevels md with
  | Some req =>
      bool_decide (defaultSort (level <$> approvalLevels w) = defaultSort req)
  | None => false
  end.

Definition coversDays (n : Z) (w : ApprovalWorkflow) : bool :=
  (minDays w <=? n) && (n <=? maxDays w).

Definition findApplicableWorkflow (lr : LeaveRequest)
    (ws : list ApprovalWorkflow) : option ApprovalWorkflow :=
  match status lr, metadata lr with
  | PARTIALLY_APPROVED, Some md => List.find (sameLevels md) ws
  | _, _ => List.find (coversDays (numberOfDays lr)) ws
  end.

(** Whether the approver holds one of the roles of a level: by [roleId]
    for a level with [roleIds], by role name for the legacy format. *)
Definition levelMatches (approver : User) (l : Level) : bool :=
  if (0 <? Z.of_nat (length (roleIds l))) then
    match truthy (roleId approver) with
    | Some rid => includes (roleIds l) rid
    | None => false
    end
  else includes (roles l) (roleName (role approver)).

Definition findApproverLevel (lr : LeaveRequest) (approver : User)
    (sortedLevels : list Level) : option Z :=
  match status lr, metadata lr with
  | PARTIALLY_APPROVED, Some md =>
      match currentApprovalLevel md with
      | Some c =>
          let nextLevel := c + 1 in
          match List.find (fun l => bool_decide (level l = nextLevel))
                  sortedLevels with
          | Some nextLevelDefinition =>
              if levelMatches approver nextLevelDefinition
              then Some nextLevel else None
          | None => None
          end
      | None => None
      end
  | _, _ => level <$> List.find (levelMatches approver) sortedLevels
  end.

(** The [approved] requests of the same user whose dates meet those of
    the request, the request itself excluded. *)
Definition overlappingApproved (k : string) (lr : LeaveRequest) (st : Store)
    : list (string * LeaveRequest) :=
  findWhere
    (fun k' r =>
       bool_decide (userId r = userId lr)
       && bool_decide (status r = APPROVED)
       && (startDate r <=? endDate lr)
       && (endDate r >=? startDate lr)
       && negb (bool_decide (k' = k)))
    (leaveRequests st).

Definition overlapInfo (kr : string * LeaveRequest) : OverlapInfo :=
  {| oId := kr.1; oStartDate := startDate kr.2; oEndDate := endDate kr.2;
     oLeaveTypeId := leaveTypeId kr.2 |}.

Definition fullName (u : User) : string :=
  (firstName u ++ " " ++ lastName u)%string.

Definition historyEntry (lvl : Z) (approverId : string) (approver : User)
    (now : Date) (comments : option string) : ApprovalHistoryEntry :=
  {| hLevel := lvl; hApproverId := approverId;
     hApproverName := fullName approver; hApprovedAt := now;
     hComments := truthy comments |}.

(** [metadata.approvalHistory.push(e)], after [approvalHistory] has been
    defaulted to the empty array. *)
Definition pushHistory (e : ApprovalHistoryEntry) (full : bool)
    (m : WorkflowMetadata) : WorkflowMetadata :=
  setHistory (Some (default [] (approvalHistory m) ++ [e])%list) full m.

(** The comment trail written by a partial approval. *)
Definition partialComments (lr : LeaveRequest) (lvl : Z) (approver : User)
    (comments : option string) : string :=
  let currentApprovalComment :=
    ("Approved at level " ++ pretty lvl ++ " by " ++ fullName approver)%string in
  let trail :=
    match truthy (approverComments lr) with
    | Some existingComments =>
        (existingComments ++ newline ++ currentApprovalComment)%string
    | None => currentApprovalComment
    end in
  match truthy comments with
  | Some c => (trail ++ newline ++ "Comments: " ++ c)%string
  | None => trail
  end.

(** [String.prototype.toLowerCase], on the ASCII letters. *)
Definition lowerAscii (c : ascii) : ascii :=
  let n := nat_of_ascii c in
  if ((65 <=? n)%nat && (n <=? 90)%nat)%bool then ascii_of_nat (n + 32) else c.

Fixpoint toLowerCase (s : string) : string :=
  match s with
  | EmptyString => EmptyString
  | String c t => String (lowerAscii c) (toLowerCase t)
  end.

(** [Object.values(LeaveRequestStatus)] *)
Definition allStatuses : list LeaveRequestStatus :=
  [PENDING; APPROVED; REJECTED; CANCELLED; PARTIALLY_APPROVED;
   PENDING_DELETION].

Definition parseStatus (s : string) : option LeaveRequestStatus :=
  List.find (fun x => bool_decide (statusName x = s)) allStatuses.

(** [metadata.currentApprovalLevel ? metadata.currentApprovalLevel + 1 : 1] *)
Definition nextOrFirst (c : option Z) : Z :=
  match c with
  | Some n => if n =? 0 then 1 else n + 1
  | None => 1
  end.

Definition nonEmpty {A} (l : list A) : bool := (0 <? length l)%nat.

(** *** updateLeaveRequestStatus *)

Record StatusPayload := {
  pStatus : option string;
  pComments : option string
}.

(** Either the handler has answered, or it goes on with the request as
    modified in memory. *)
Inductive Flow :=
  | Respond (r : Response * Store)
  | Proceed (leaveRequest : LeaveRequest).

Section Handlers.

Variable env : Collaborators.
(** The reading of the clock, [new Date()]. *)
Variable now : Date.

(** The branch [currentApproverLevel < highestRequiredLevel]. *)
Definition partialApproval (id : string) (comments : option string)
    (approverId : string) (approver requestUser : User)
    (leaveRequest : LeaveRequest) (sortedLevels : list Level)
    (currentApproverLevel : Z) (st : Store) : Response * Store :=
  let commented :=
    setComments
      (Some (partialComments leaveRequest currentApproverLevel approver comments))
      leaveRequest in
  let overlappingLeaveRequests := overlappingApproved id commented st in
  if nonEmpty overlappingLeaveRequests then
    respond 409 (OverlapsApproved (overlapInfo <$> overlappingLeaveRequests)) st
  else
    let md0 := default emptyMetadata (metadata commented) in
    let md1 :=
      setLevels (Some currentApproverLevel) (Some (level <$> sortedLevels)) md0 in
    let md2 :=
      match requestUserRole md1 with
      | Some _ => md1
      | None => setRequestUserRole (Some (role requestUser)) md1
      end in
    let md3 :=
      pushHistory
        (historyEntry currentApproverLevel approverId approver now comments)
        (isFullyApproved md2) md2 in
    let updatedLeaveRequest :=
      assign PARTIALLY_APPROVED (Some approverId) (approverComments commented)
        (approvedAt commented) (Some md3) commented in
    let st' := saveLeaveRequest id updatedLeaveRequest st in
    let answer :=
      respond 200 (ApprovedAtLevel currentApproverLevel updatedLeaveRequest) st' in
    match List.find (fun l => bool_decide (level l = currentApproverLevel + 1))
            sortedLevels with
    | Some nextLevel =>
        if nonEmpty (roleIds nextLevel) then
          match findApproversByRoleIds env st' (roleIds nextLevel)
                  (if departmentSpecific nextLevel
                   then department requestUser else None) with
          | Some _ => answer
          | None => respond 500 InternalError st'
          end
        else answer
    | None => answer
    end.

(** The block guarded by [normalizedStatus === APPROVED]: find the
    workflow and the approver's level, and approve partially or go on to
    the final approval. *)
Definition approveAtLevel (id : string) (comments : option string)
    (approverId : string) (approver requestUser : User)
    (leaveRequest : LeaveRequest) (st : Store) : Flow :=
  match findApplicableWorkflow leaveRequest (activeWorkflows st) with
  | None => Proceed leaveRequest
  | Some applicableWorkflow =>
      let sortedLevels := sortLevels (approvalLevels applicableWorkflow) in
      match findApproverLevel leaveRequest approver sortedLevels with
      | None => Respond (respond 403 RoleNotAllowed st)
      | Some currentApproverLevel =>
          match last sortedLevels with
          | None => Respond (respond 500 InternalError st)
          | Some top =>
              let highestRequiredLevel := level top in
              if currentApproverLevel <? highestRequiredLevel then
                Respond
                  (partialApproval id comments approverId approver requestUser
                     leaveRequest sortedLevels currentApproverLevel st)
              else
                let md := default emptyMetadata (metadata leaveRequest) in
                Proceed
                  (setMetadata
                     (pushHistory
                        (historyEntry currentApproverLevel approverId approver
                           now comments) true md)
                     leaveRequest)
          end
      end
  end.

(** From "Update leave request status" to the end of the handler. *)
Definition finalizeStatus (id : string)
    (normalizedStatus : LeaveRequestStatus) (comments : option string)
    (approverId : string) (approver : User) (leaveRequest : LeaveRequest)
    (st : Store) : Response * Store :=
  let approverComments' :=
    match truthy comments with
    | Some c => Some c
    | None => approverComments leaveRequest
    end in
  let metadata' :=
    match normalizedStatus, metadata leaveRequest with
    | APPROVED, Some md =>
        match approvalHistory md with
        | Some _ =>
            Some (pushHistory
                    (historyEntry (nextOrFirst (currentApprovalLevel md))
                       approverId approver now comments) true md)
        | None => Some md
        end
    | _, m => m
    end in
  let updatedLeaveRequest :=
    assign normalizedStatus (Some approverId) approverComments' (Some now)
      metadata' leaveRequest in
  let st1 := saveLeaveRequest id updatedLeaveRequest st in
  if bool_decide (normalizedStatus = APPROVED) then
    let overlappingLeaveRequests :=
      overlappingApproved id updatedLeaveRequest st1 in
    if nonEmpty overlappingLeaveRequests then
      respond 409
        (OverlapsApproved (overlapInfo <$> overlappingLeaveRequests)) st1
    else
      let key : BalanceKey :=
        (userId updatedLeaveRequest, leaveTypeId updatedLeaveRequest,
         getCurrentYear now) in
      let st2 :=
        match leaveBalances st1 !! key with
        | Some leaveBalance =>
            saveLeaveBalance key
              (setUsed (used leaveBalance + numberOfDays updatedLeaveRequest)
                 leaveBalance) st1
        | None => st1
        end in
      respond 200 (StatusUpdated normalizedStatus updatedLeaveRequest) st2
  else
    respond 200 (StatusUpdated normalizedStatus updatedLeaveRequest) st1.

Definition updateLeaveRequestStatus (id : string) (payload : StatusPayload)
    (approverId : string) (st : Store) : Response * Store :=
  match truthy (pStatus payload) with
  | None => respond 400 StatusRequired st
  | Some status_ =>
  match parseStatus (toLowerCase status_) with
  | None => respond 400 InvalidStatus st
  | Some normalizedStatus =>
  match leaveRequests st !! id with
  | None => respond 404 LeaveRequestNotFound st
  | Some leaveRequest =>
  if bool_decide (status leaveRequest = normalizedStatus) then
    respond 400 (AlreadyInStatus normalizedStatus) st
  else if negb (bool_decide (status leaveRequest = PENDING))
          && negb (bool_decide (status leaveRequest = PARTIALLY_APPROVED))
          && negb (bool_decide (normalizedStatus = CANCELLED)) then
    respond 400 OnlyPendingOrPartial st
  else
  match users st !! approverId with
  | None => respond 404 ApproverNotFound st
  | Some approver =>
  match users st !! userId leaveRequest with
  | None => respond 404 UserNotFound st
  | Some requestUser =>
  let isSelfCancellation :=
    bool_decide (userId leaveRequest = approverId)
    && bool_decide (normalizedStatus = CANCELLED) in
  let authorizationCheck :=
    isApproverAuthorized env st approverId (userId leaveRequest) in
  if negb (isAuthorized authorizationCheck) && negb isSelfCancellation then
    respond 403 (NotAuthorized (authReason authorizationCheck)) st
  else
  let flow :=
    if bool_decide (normalizedStatus = APPROVED) then
      approveAtLevel id (pComments payload) approverId approver requestUser
        leaveRequest st
    else Proceed leaveRequest in
  match flow with
  | Respond r => r
  | Proceed leaveRequest' =>
      finalizeStatus id normalizedStatus (pComments payload) approverId
        approver leaveRequest' st
  end
  end end end end end.

(** *** cancelLeaveRequest *)

Definition cancelLeaveRequest (id : string) (userId_ : string) (st : Store)
    : Response * Store :=
  match leaveRequests st !! id with
  | None => respond 404 LeaveRequestNotFound st
  | Some leaveRequest =>
  if negb (bool_decide (userId leaveRequest = userId_)) then
    respond 403 OnlyOwnCancel st
  else if bool_decide (status leaveRequest = CANCELLED) then
    respond 400 AlreadyCancelled st
  else
  let finish (st1 : Store) :=
    let updatedLeaveRequest := setStatus CANCELLED leaveRequest in
    respond 200 (CancelledOk updatedLeaveRequest)
      (saveLeaveRequest id updatedLeaveRequest st1) in
  if bool_decide (status leaveRequest = APPROVED) then
    let today := setHoursZero now in
    if startDate leaveRequest <? today then respond 400 AlreadyStarted st
    else
      let key : BalanceKey :=
        (userId leaveRequest, leaveTypeId leaveRequest, getCurrentYear now) in
      match leaveBalances st !! key with
      | Some leaveBalance =>
          finish
            (saveLeaveBalance key
               (setUsed (used leaveBalance - numberOfDays leaveRequest)
                  leaveBalance) st)
      | None => finish st
      end
  else finish st
  end.

(** *** rejectDeleteLeaveRequest and approveDeleteLeaveRequest *)

(** [requestUser.managerId === approverId], or the approver is a super
    administrator or HR. *)
Definition mayDecideDeletion (approverId : string) (approver requestUser : User)
    : bool :=
  bool_decide (managerId requestUser = Some approverId)
  || bool_decide (role approver = SUPER_ADMIN)
  || bool_decide (role approver = HR).

Definition rejectDeleteLeaveRequest (id : string) (comments : option string)
    (approverId : string) (st : Store) : Response * Store :=
  match leaveRequests st !! id with
  | None => respond 404 LeaveRequestNotFound st
  | Some leaveRequest =>
  if negb (bool_decide (status leaveRequest = PENDING_DELETION)) then
    respond 400 NotPendingDeletion st
  else
  match users st !! approverId with
  | None => respond 404 ApproverNotFound st
  | Some approver =>
  match users st !! userId leaveRequest with
  | None => respond 404 UserNotFound st
  | Some requestUser =>
  if negb (mayDecideDeletion approverId approver requestUser) then
    respond 403 NotAuthorizedRejectDeletion st
  else
    let restored :=
      default APPROVED (metadata leaveRequest ≫= originalStatus) in
    let md :=
      setDeletionRejected approverId now comments
        (default emptyMetadata (metadata leaveRequest)) in
    let updatedLeaveRequest :=
      setMetadata md (setStatus restored leaveRequest) in
    respond 200 (DeletionRejected updatedLeaveRequest)
      (saveLeaveRequest id updatedLeaveRequest st)
  end end end.

(** "Revert the used days" and "Ensure used days doesn't go below 0", on
    the balance row of the year of the request's start date. *)
Definition revertBalance (leaveRequest : LeaveRequest) (st : Store) : Store :=
  let key : BalanceKey :=
    (userId leaveRequest, leaveTypeId leaveRequest,
     getFullYear (startDate leaveRequest)) in
  match leaveBalances st !! key with
  | Some leaveBalance =>
      let reverted := used leaveBalance - numberOfDays leaveRequest in
      saveLeaveBalance key
        (setUsed (if reverted <? 0 then 0 else reverted) leaveBalance) st
  | None => st
  end.

Definition wasApproved (s : option LeaveRequestStatus) : bool :=
  bool_decide (s = Some APPROVED) || bool_decide (s = Some PARTIALLY_APPROVED).

Definition approveDeleteLeaveRequest (id : string) (comments : option string)
    (approverId : string) (st : Store) : Response * Store :=
  match leaveRequests st !! id with
  | None => respond 404 LeaveRequestNotFound st
  | Some leaveRequest =>
  if negb (bool_decide (status leaveRequest = PENDING_DELETION)) then
    respond 400 NotPendingDeletion st
  else
  match users st !! approverId with
  | None => respond 404 ApproverNotFound st
  | Some approver =>
  match users st !! userId leaveRequest with
  | None => respond 404 UserNotFound st
  | Some requestUser =>
  if negb (mayDecideDeletion approverId approver requestUser) then
    respond 403 NotAuthorizedApproveDeletion st
  else
    let st1 :=
      if wasApproved (metadata leaveRequest ≫= originalStatus)
      then revertBalance leaveRequest st else st in
    respond 200 DeletionApproved (removeLeaveRequest id st1)
  end end end.

(** *** deleteLeaveRequest *)

Definition deleteLeaveRequest (id : string) (userId_ : string)
    (userRole : UserRole) (st : Store) : Response * Store :=
  match leaveRequests st !! id with
  | None => respond 404 LeaveRequestNotFound st
  | Some leaveRequest =>
  let isOwner := bool_decide (userId leaveRequest = userId_) in
  let isAdminOrHR :=
    bool_decide (userRole = SUPER_ADMIN) || bool_decide (userRole = HR) in
  if negb isOwner && negb isAdminOrHR then respond 403 OnlyOwnDelete st
  else
  let approvedOrPartial :=
    bool_decide (status leaveRequest = APPROVED)
    || bool_decide (status leaveRequest = PARTIALLY_APPROVED) in
  let needsApproval :=
    approvedOrPartial && isOwner && negb isAdminOrHR
    && match List.find (coversDays (numberOfDays leaveRequest))
               (activeWorkflows st) with
       | Some applicableWorkflow =>
           (1 <? length (approvalLevels applicableWorkflow))%nat
       | None => false
       end in
  if needsApproval then
    let md :=
      setDeletionRequested userId_ now (status leaveRequest)
        (default emptyMetadata (metadata leaveRequest)) in
    let updated := setMetadata md (setStatus PENDING_DELETION leaveRequest) in
    respond 200 (DeletionPending updated) (saveLeaveRequest id updated st)
  else
    let st1 :=
      if approvedOrPartial then revertBalance leaveRequest st else st in
    respond 200 DeletedOk (removeLeaveRequest id st1)
  end.

(** *** createLeaveRequest *)

Record CreatePayload := {
  cLeaveTypeId : option string;
  cStartDate : option Date;
  cEndDate : option Date;
  cRequestType : option LeaveRequestType;
  cReason : option string
}.

(** The loop over the days of the new request: whether one of the
    instants [currentDate], [currentDate] + 1 day, ... up to [end_] lies
    between [requestStart] and [requestEnd]. *)
Fixpoint anyDayWithin (fuel : nat) (currentDate end_ requestStart requestEnd : Date)
    : bool :=
  match fuel with
  | O => false
  | S fuel' =>
      if currentDate <=? end_ then
        if (requestStart <=? currentDate) && (currentDate <=? requestEnd)
        then true
        else anyDayWithin fuel' (currentDate + msPerDay) end_
               requestStart requestEnd
      else false
  end.

(** The number of turns the loop can take from [start] to [end_]. *)
Definition daysSpanned (start end_ : Date) : nat :=
  Z.to_nat ((end_ - start) / msPerDay + 1).

Definition conflictsWith (start end_ : Date) (r : LeaveRequest) : bool :=
  anyDayWithin (daysSpanned start end_) start end_
    (setHoursZero (startDate r)) (setHoursZero (endDate r)).

(** "Apply dynamic role-based skipping logic - skip levels where the
    requester's role matches the approver role". *)
Definition requiredLevelsFor (user : User) (approvalLevels : list Level)
    : list Z :=
  let sortedLevels := sortLevels approvalLevels in
  let requiredLevels := level <$> sortedLevels in
  List.filter
    (fun lvl =>
       negb match List.find (fun l => bool_decide (level l = lvl))
                    sortedLevels with
            | Some levelDef => includes (roleIds levelDef) (roleName (role user))
            | None => false
            end)
    requiredLevels.

Definition createLeaveRequest (newId : string) (userId_ : string)
    (payload : CreatePayload) (st : Store) : Response * Store :=
  match truthy (cLeaveTypeId payload), cStartDate payload, cEndDate payload,
        truthy (cReason payload) with
  | Some leaveTypeId_, Some start, Some end_, Some reason_ =>
  if end_ <? start then respond 400 StartAfterEnd st else
  let today := setHoursZero now in
  if start <? today then respond 400 StartInPast st else
  let holidayCheck := checkForHolidaysInRange env start end_ in
  if hasHolidays holidayCheck then
    respond 400 (OnHolidays (holidays holidayCheck)) st
  else
  match leaveTypes st !! leaveTypeId_ with
  | None => respond 404 LeaveTypeNotFound st
  | Some leaveType =>
  if negb (ltIsActive leaveType) then respond 400 LeaveTypeInactive st else
  match users st !! userId_ with
  | None => respond 404 UserNotFound st
  | Some user =>
  if match applicableGender leaveType with
     | Some g => negb (bool_decide (gender user = Some g))
     | None => false
     end
  then respond 400 GenderNotApplicable st else
  let halfDay :=
    match cRequestType payload with
    | Some t => negb (bool_decide (t = FULL_DAY))
    | None => false
    end in
  if halfDay && negb (isHalfDayAllowed leaveType) then
    respond 400 HalfDayNotAllowed st
  else
  if halfDay && negb (bool_decide (start = end_)) then
    respond 400 HalfDaySingleDay st
  else
  let numberOfDays_ :=
    if halfDay then calculateHalfDayValue env true
    else calculateBusinessDays env start end_ in
  let overlappingLeaveRequests :=
    findWhere
      (fun _ r =>
         bool_decide (userId r = userId_)
         && (bool_decide (status r = PENDING) || bool_decide (status r = APPROVED))
         && (startDate r <=? end_) && (endDate r >=? start))
      (leaveRequests st) in
  match List.find (fun kr => conflictsWith start end_ kr.2)
          overlappingLeaveRequests with
  | Some conflictingRequest =>
      respond 409 (AlreadyHaveRequest (overlapInfo conflictingRequest)) st
  | None =>
  match leaveBalances st !! (userId_, leaveTypeId_, getCurrentYear now) with
  | None => respond 404 NoBalanceFound st
  | Some leaveBalance =>
  let pendingLeaveRequests :=
    findWhere
      (fun _ r =>
         bool_decide (userId r = userId_)
         && bool_decide (leaveTypeId r = leaveTypeId_)
         && bool_decide (status r = PENDING))
      (leaveRequests st) in
  let pendingDays :=
    foldl (fun total kr => total + numberOfDays kr.2) 0 pendingLeaveRequests in
  let availableBalance :=
    balance leaveBalance + carryForward leaveBalance - used leaveBalance
    - pendingDays in
  if availableBalance <? numberOfDays_ then
    respond 400 (InsufficientBalance availableBalance numberOfDays_ pendingDays) st
  else
  match getApprovalWorkflow env st numberOfDays_ with
  | None => respond 400 NoWorkflowFound st
  | Some approvalWorkflow =>
  let requiredLevels := requiredLevelsFor user (approvalLevels approvalWorkflow) in
  let metadata_ :=
    {| requestUserRole := Some (role user);
       workflowId := Some (wfId approvalWorkflow);
       currentApprovalLevel := Some 0;
       requiredApprovalLevels := Some requiredLevels;
       approvalHistory := Some [];
       isFullyApproved := false;
       deletionRequestedBy := None; deletionRequestedAt := None;
       originalStatus := None; deletionRejectedBy := None;
       deletionRejectedAt := None; deletionRejectionComments := None |} in
  let leaveRequest :=
    {| userId := userId_; leaveTypeId := leaveTypeId_;
       startDate := start; endDate := end_;
       requestType := default FULL_DAY (cRequestType payload);
       numberOfDays := numberOfDays_; reason := reason_;
       status := PENDING; approverId := None; approverComments := None;
       approvedAt := None; metadata := Some metadata_ |} in
  let st' := saveLeaveRequest newId leaveRequest st in
  let created := respond 201 (Created (newId, leaveRequest)) st' in
  match requiredLevels with
  | [] => created
  | firstApprovalLevel :: _ =>
      let workflow :=
        match truthy (Some (wfId approvalWorkflow)) with
        | Some wid => ApprovalWorkflowService.findById wid (approvalWorkflows st')
        | None => None
        end in
      let levelDefinition :=
        workflow ≫= fun w =>
          List.find (fun l => bool_decide (level l = firstApprovalLevel))
            (approvalLevels w) in
      let approversToNotify :=
        match levelDefinition with
        | Some l =>
            if nonEmpty (roleIds l)
            then findApproversByRoleIds env st' (roleIds l) (department user)
            else Some []
        | None => Some []
        end in
      match approversToNotify with
      | None => created
      | Some approvers =>
          if nonEmpty approvers then created
          else respond 400 NoApproversFound st'
      end
  end
  end end end end end
  | _, _, _, _ => respond 400 FieldsRequired st
  end.

End Handlers.

End LeaveRequestController.

(** ** The read side of the approval-workflow service *)

Module ApprovalWorkflowQueries.
Import ApprovalWorkflowService LeaveRequestController.

(** [order: { minDays: "ASC" }]; rows with equal [minDays] stay in table
    order. *)
Fixpoint insertAsc (w : ApprovalWorkflow) (l : list ApprovalWorkflow) :=
  match l with
  | [] => [w]
  | y :: t =>
      if minDays w <=? minDays y then w :: y :: t else y :: insertAsc w t
  end.

(** [filters.isActive], when defined, is a condition on the rows. *)
Definition matchesFilter (filterActive : option bool) (w : ApprovalWorkflow)
    : bool :=
  match filterActive with
  | Some b => bool_decide (isActive w = b)
  | None => true
  end.

Definition getAllApprovalWorkflows (filterActive : option bool)
    (ws : list ApprovalWorkflow) : list ApprovalWorkflow :=
  foldr insertAsc [] (List.filter (matchesFilter filterActive) ws).

Definition getApprovalWorkflowById (workflowId : string)
    (ws : list ApprovalWorkflow) : Result ApprovalWorkflow :=
  match findById workflowId ws with
  | Some approvalWorkflow => Ok approvalWorkflow
  | None => Throw NotFound
  end.

(** The columns of [users] that the service reads. *)
Record UserRow := {
  uId : string;
  uRoleId : option string;
  uDepartmentId : option string;
  uIsActive : bool
}.

(** [self.findIndex(u => u.id === user.id)] *)
Definition findIndexById (i : string) (self : list UserRow) : option nat :=
  fst <$> list_find (λ u, uId u = i) self.

(** "Remove duplicates based on user ID": an element stays when it is the
    first of the array with its id. *)
Definition uniqueById (self : list UserRow) : list UserRow :=
  snd <$> List.filter
            (λ iu : nat * UserRow,
               bool_decide (findIndexById (uId iu.2) self = Some iu.1))
            (imap pair self).

Definition getApproversForWorkflowLevel (l : Level)
    (requesterId departmentId : option string) (us : list UserRow)
    : list UserRow :=
  let roleUsers :=
    if nonEmpty (roleIds l)
    then List.filter
           (λ u, match uRoleId u with
                 | Some r => includes (roleIds l) r
                 | None => false
                 end && uIsActive u) us
    else [] in
  let inDepartment :=
    match departmentSpecific l, truthy departmentId with
    | true, Some d =>
        List.filter (λ u, bool_decide (uDepartmentId u = Some d)) roleUsers
    | _, _ => roleUsers
    end in
  let withoutRequester :=
    match truthy requesterId with
    | Some r => List.filter (λ u, negb (bool_decide (uId u = r))) inDepartment
    | None => inDepartment
    end in
  uniqueById withoutRequester.

(** [Promise.all(workflow.approvalLevels.map(...))] *)
Definition getApproversForWorkflow (workflowId : string)
    (requesterId departmentId : option string)
    (ws : list ApprovalWorkflow) (us : list UserRow)
    : Result (list (Z * list UserRow)) :=
  match getApprovalWorkflowById workflowId ws with
  | Ok workflow =>
      Ok ((λ l, (level l,
                 getApproversForWorkflowLevel l requesterId departmentId us))
            <$> approvalLevels workflow)
  | Throw e => Throw e
  end.

End ApprovalWorkflowQueries.

(** ** The start-up refresh of the standard workflows *)

Module InitApprovalWorkflows.
Import ApprovalWorkflowService LeaveRequestController.

(** The first three levels become department-specific and required, with
    an empty [roleIds]; the other fields of a level are kept. *)
Definition updatedLevels (ls : list Level) : list Level :=
  imap (λ index l,
          if (index <? 3)%nat
          then {| level := level l; roleIds := []; roles := roles l;
                  departmentSpecific := true; required := true |}
          else l) ls.

(** "Check if the first level has roleIds". *)
Definition needsUpdate (w : ApprovalWorkflow) : bool :=
  match approvalLevels w with
  | first :: _ => negb (nonEmpty (roleIds first))
  | [] => false
  end.

Definition withLevels (ls : list Level) (w : ApprovalWorkflow) : ApprovalWorkflow :=
  {| wfId := wfId w; wfName := wfName w; minDays := minDays w;
     maxDays := maxDays w; approvalLevels := ls; isActive := isActive w;
     categoryId := categoryId w |}.

Definition refreshNamed (name : string) (ws : list ApprovalWorkflow)
    : list ApprovalWorkflow :=
  match findByName name ws with
  | Some w =>
      if needsUpdate w
      then saveRow (withLevels (updatedLevels (approvalLevels w)) w) ws
      else ws
  | None => ws
  end.

Definition initApprovalWorkflows (ws : list ApprovalWorkflow)
    : list ApprovalWorkflow :=
  if (length ws =? 0)%nat then ws
  else refreshNamed "Extended Approval Workflow"
         (refreshNamed "Standard Approval Workflow" ws).

End InitApprovalWorkflows.
(** * Specification predicates *)

Module WorkflowCatalog.
Import ApprovalWorkflowService.

(** The closed ranges [[lo, hi]] and [[minDays w, maxDays w]] share a
    point. *)
Definition intersectsRange (lo hi : Z) (w : ApprovalWorkflow) : Prop :=
  ∃ x, (lo <= x <= hi) ∧ (minDays w <= x <= maxDays w).

Definition intersects (w1 w2 : ApprovalWorkflow) : Prop :=
  intersectsRange (minDays w1) (maxDays w1) w2.

(** The catalogs that the service can build from the table [init]; the
    database hands every new row an unused identifier. *)
Inductive reachable (init : list ApprovalWorkflow)
    : list ApprovalWorkflow → Prop :=
  | reach_init : reachable init init
  | reach_create ws newId d w ws' :
      reachable init ws →
      newId ∉ (wfId <$> ws) →
      createApprovalWorkflow newId d ws = Ok (w, ws') →
      reachable init ws'
  | reach_update ws i d w ws' :
      reachable init ws →
      updateApprovalWorkflow i d ws = Ok (w, ws') →
      reachable init ws'
  | reach_delete ws i ws' :
      reachable init ws →
      deleteApprovalWorkflow i ws = Ok ws' →
      reachable init ws'.

(** Rows have distinct identifiers, and rows with distinct identifiers
    have disjoint ranges. *)
Definition catalogInvariant (ws : list ApprovalWorkflow) : Prop :=
  NoDup (wfId <$> ws) ∧
  ∀ w1 w2, w1 ∈ ws → w2 ∈ ws → wfId w1 ≠ wfId w2 → ¬ intersects w1 w2.

End WorkflowCatalog.

Module LeaveSpec.
Import LeaveRequestController.

(** Another request of the same user is [approved] and its dates meet
    those of the request [lr] stored under [id]. *)
Definition hasOverlap (id : string) (lr : LeaveRequest) (st : Store) : Prop :=
  ∃ k r, leaveRequests st !! k = Some r ∧ k ≠ id
         ∧ userId r = userId lr ∧ status r = APPROVED
         ∧ startDate r <= endDate lr ∧ endDate r >= startDate lr.

(** The balance row of the year of the request's start date. *)
Definition startYearKey (lr : LeaveRequest) : BalanceKey :=
  (userId lr, leaveTypeId lr, getFullYear (startDate lr)).

(** The balance row of the calendar year of an instant. *)
Definition currentYearKey (now : Date) (lr : LeaveRequest) : BalanceKey :=
  (userId lr, leaveTypeId lr, getCurrentYear now).

(** A payload that asks for the status [s]. *)
Definition asksFor (payload : StatusPayload) (s : LeaveRequestStatus) : Prop :=
  ∃ text, truthy (pStatus payload) = Some text
          ∧ parseStatus (toLowerCase text) = Some s.

(** What the store holds about the request [id]. *)
Definition statusOf (id : string) (st : Store) : option LeaveRequestStatus :=
  status <$> leaveRequests st !! id.

Definition metadataOf (id : string) (st : Store) : option WorkflowMetadata :=
  leaveRequests st !! id ≫= metadata.

Definition usedAt (k : BalanceKey) (st : Store) : option Z :=
  used <$> leaveBalances st !! k.

(** The largest of the request's [requiredApprovalLevels]. *)
Definition highestRequired (lr : LeaveRequest) : option Z :=
  match metadata lr ≫= requiredApprovalLevels with
  | Some (x :: t) => Some (foldr Z.max x t)
  | _ => None
  end.

(** The highest level of a workflow, [highestRequiredLevel] of the
    source. *)
Definition highestLevel (w : ApprovalWorkflow) : option Z :=
  level <$> last (sortLevels (approvalLevels w)).

(** The columns of a request that no action of the engine assigns. *)
Definition sameRequest (lr' lr : LeaveRequest) : Prop :=
  userId lr' = userId lr ∧ leaveTypeId lr' = leaveTypeId lr
  ∧ startDate lr' = startDate lr ∧ endDate lr' = endDate lr
  ∧ numberOfDays lr' = numberOfDays lr.

(** Ascending order of level number. *)
Definition levelLe (a b : Level) : Prop := level a <= level b.

End LeaveSpec.

Module ServiceSpec.
Import ApprovalWorkflowService ApprovalWorkflowQueries LeaveRequestController
       InitApprovalWorkflows.

(** A user may approve at the level: an active user of the table with one
    of the level's roles, other than the requester, and of the given
    department when the level is department-specific and a department is
    given. *)
Definition eligible (l : Level) (requesterId departmentId : option string)
    (us : list UserRow) (u : UserRow) : Prop :=
  u ∈ us
  ∧ uIsActive u = true
  ∧ (∃ r, uRoleId u = Some r ∧ r ∈ roleIds l)
  ∧ (∀ r, truthy requesterId = Some r → uId u ≠ r)
  ∧ (∀ d, departmentSpecific l = true → truthy departmentId = Some d →
          uDepartmentId u = Some d).

(** The columns of a workflow that the start-up refresh must not touch,
    with the numbers of its levels. *)
Definition outline (w : ApprovalWorkflow)
    : string * string * Z * Z * bool * option string * list Z :=
  (wfId w, wfName w, minDays w, maxDays w, isActive w, categoryId w,
   level <$> approvalLevels w).

(** A workflow after the refresh of its levels. *)
Definition touch (w : ApprovalWorkflow) : ApprovalWorkflow :=
  withLevels (updatedLevels (approvalLevels w)) w.

(** The refresh of one named workflow has nothing left to do. *)
Definition settled (name : string) (ws : list ApprovalWorkflow) : Prop :=
  ∀ w, findByName name ws = Some w → needsUpdate w = true → touch w = w.

End ServiceSpec.

Module LeaveSpecMore.
Import LeaveRequestController LeaveSpec.

(** The parts of the store that no action on the request [id] may
    alter: the other requests, the users, the leave types and the
    workflows. *)
Definition sameElsewhere (id : string) (st' st : Store) : Prop :=
  (∀ k, k ≠ id → leaveRequests st' !! k = leaveRequests st !! k)
  ∧ users st' = users st
  ∧ leaveTypes st' = leaveTypes st
  ∧ approvalWorkflows st' = approvalWorkflows st.

(** A refusal of the caller's request: 400, 403 or 404. *)
Definition refused (r : Response) : Prop :=
  code r = 400 ∨ code r = 403 ∨ code r = 404.

(** The approval history the store holds for a request. *)
Definition historyOf (id : string) (st : Store) : list ApprovalHistoryEntry :=
  default [] (metadataOf id st ≫= approvalHistory).

(** The history [h'] is [h] with at most [n] entries added at its end,
    each of them recording the approver [actor] and the instant [now]. *)
Definition appended (actor : string) (now : Date) (n : nat)
    (h h' : list ApprovalHistoryEntry) : Prop :=
  ∃ added, h' = (h ++ added)%list
           ∧ (length added ≤ n)%nat
           ∧ ∀ e, e ∈ added → hApproverId e = actor ∧ hApprovedAt e = now.

(** The condition under which [deleteLeaveRequest] does not delete but
    asks for approval: the caller owns the request and is neither super
    administrator nor HR, the request is approved or partially approved,
    and the active workflow that covers its duration has more than one
    level. *)
Definition awaitsDeletionApproval (actor : string) (actorRole : UserRole)
    (lr : LeaveRequest) (st : Store) : Prop :=
  (status lr = APPROVED ∨ status lr = PARTIALLY_APPROVED)
  ∧ userId lr = actor
  ∧ actorRole ≠ SUPER_ADMIN ∧ actorRole ≠ HR
  ∧ ∃ w, List.find (coversDays (numberOfDays lr)) (activeWorkflows st) = Some w
         ∧ (1 < length (approvalLevels w))%nat.

(** The days left to the user for the leave type on the balance row:
    [balance + carryForward - used], less the days of the pending
    requests of that type. *)
Definition availableBalance (user leaveType : string) (b : LeaveBalance)
    (st : Store) : Z :=
  balance b + carryForward b - used b
  - foldl (λ total kr, total + numberOfDays kr.2) 0
      (findWhere
         (λ _ r, bool_decide (userId r = user)
                 && bool_decide (leaveTypeId r = leaveType)
                 && bool_decide (status r = PENDING))
         (leaveRequests st)).

End LeaveSpecMore.
(** * Example data *)

Module Examples.
Import ApprovalWorkflowService LeaveRequestController.

Definition roleLevel (n : Z) (ids : list string) : Level :=
  {| level := n; roleIds := ids; roles := []; departmentSpecific := false;
     required := true |}.

(** Half a day to two days: team lead only. *)
Definition shortLeave : NewWorkflow :=
  {| nName := "Short leave"; nMinDays := 5; nMaxDays := 20;
     nApprovalLevels := [roleLevel 1 ["role-team-lead"]];
     nIsActive := None; nCategoryId := None |}.

(** Two and a half days to five days: team lead, then manager. *)
Definition longLeave : NewWorkflow :=
  {| nName := "Long leave"; nMinDays := 25; nMaxDays := 50;
     nApprovalLevels :=
       [roleLevel 1 ["role-team-lead"]; roleLevel 2 ["role-manager"]];
     nIsActive := None; nCategoryId := None |}.

Definition demoCatalog : list ApprovalWorkflow :=
  [createRow "wf-1" shortLeave; createRow "wf-2" longLeave].

(** Five and a half to ten days: HR, then manager, then administrator.
    The second level lists the role name [manager] among its roles. *)
Definition extendedLeave : NewWorkflow :=
  {| nName := "Extended leave"; nMinDays := 55; nMaxDays := 100;
     nApprovalLevels :=
       [roleLevel 1 ["role-hr"]; roleLevel 2 ["role-manager"; "manager"];
        roleLevel 3 ["role-admin"]];
     nIsActive := None; nCategoryId := None |}.

(** Ten and a half to fifteen days: manager, then HR. The second level
    lists the role name [hr] among its roles. *)
Definition sabbatical : NewWorkflow :=
  {| nName := "Sabbatical"; nMinDays := 105; nMaxDays := 150;
     nApprovalLevels :=
       [roleLevel 1 ["role-manager"]; roleLevel 2 ["role-hr"; "hr"]];
     nIsActive := None; nCategoryId := None |}.

Definition fullCatalog : list ApprovalWorkflow :=
  (demoCatalog
   ++ [createRow "wf-3" extendedLeave; createRow "wf-4" sabbatical])%list.

(** Midnight of the [n]-th day after the epoch. *)
Definition day (n : Z) : Date := n * msPerDay.

(** Stand-ins for the collaborators. The actor is authorised over the
    requester when they are the requester's manager or team lead, or hold
    the HR or super-administrator role, and never over themselves;
    approvers are the users that hold one of the roles; the workflow is
    the one the service finds for the duration; every day is a working
    day and none is a holiday. *)
Definition demoEnv : Collaborators :=
  {| isApproverAuthorized := λ st actor requester,
       match users st !! actor, users st !! requester with
       | Some a, Some r =>
           {| isAuthorized :=
                negb (bool_decide (actor = requester))
                && (bool_decide (managerId r = Some actor)
                    || bool_decide (teamLeadId r = Some actor)
                    || bool_decide (role a = HR)
                    || bool_decide (role a = SUPER_ADMIN));
              authReason := None |}
       | _, _ => {| isAuthorized := false; authReason := None |}
       end;
     findApproversByRoleIds := λ st ids _,
       Some (List.filter
               (λ ku : string * User,
                  match roleId ku.2 with
                  | Some r => includes ids r
                  | None => false
                  end)
               (map_to_list (users st)));
     getApprovalWorkflow := λ st days,
       match getApprovalWorkflowForDuration days (approvalWorkflows st) with
       | Ok w => Some w
       | Throw _ => None
       end;
     calculateBusinessDays := λ s e, ((e - s) / msPerDay + 1) * 10;
     calculateHalfDayValue := λ _, 5;
     checkForHolidaysInRange := λ _ _,
       {| hasHolidays := false; holidays := [] |} |}.

Definition person (first : string) (r : UserRole) (rid : string)
    (manager lead : option string) : User :=
  {| firstName := first; lastName := "Doe";
     email := (first ++ "@example.org")%string;
     role := r; roleId := Some rid; managerId := manager;
     teamLeadId := lead; department := Some "Engineering";
     gender := None |}.

Definition demoUsers : gmap string User :=
  <["u-emp" := person "Eve" EMPLOYEE "role-employee" (Some "u-mgr") (Some "u-tl")]>
  (<["u-tl" := person "Tom" TEAM_LEAD "role-team-lead" (Some "u-mgr") None]>
  (<["u-mgr" := person "Mia" MANAGER "role-manager" (Some "u-hr") None]>
  (<["u-hr" := person "Hal" HR "role-hr" (Some "u-mgr") None]> ∅))).

Definition annual : LeaveType :=
  {| ltName := "Annual leave"; ltIsActive := true; applicableGender := None;
     isHalfDayAllowed := true |}.

Definition freshBalance : LeaveBalance :=
  {| balance := 300; used := 0; carryForward := 0 |}.

Definition balancesFor (u : string) : gmap BalanceKey LeaveBalance :=
  <[(u, "lt-annual", 2025) := freshBalance]>
  (<[(u, "lt-annual", 2026) := freshBalance]> ∅).

Definition demoStore : Store :=
  {| leaveRequests := ∅;
     leaveBalances :=
       balancesFor "u-emp" ∪ balancesFor "u-mgr" ∪ balancesFor "u-hr";
     users := demoUsers;
     leaveTypes := <["lt-annual" := annual]> ∅;
     approvalWorkflows := demoCatalog |}.

(** The same store with the four workflows. *)
Definition extendedStore : Store :=
  {| leaveRequests := ∅;
     leaveBalances := leaveBalances demoStore;
     users := demoUsers;
     leaveTypes := leaveTypes demoStore;
     approvalWorkflows := fullCatalog |}.

Definition ask (from to : Z) : CreatePayload :=
  {| cLeaveTypeId := Some "lt-annual"; cStartDate := Some (day from);
     cEndDate := Some (day to); cRequestType := None;
     cReason := Some "Family visit" |}.

Definition approve : StatusPayload :=
  {| pStatus := Some "approved"; pComments := None |}.

Definition cancel : StatusPayload :=
  {| pStatus := Some "cancelled"; pComments := None |}.

(** *** Two overlapping requests of the same employee

    On 2 February 2026 the employee asks for 2 to 4 March; the team lead
    approves at level 1. The employee then asks for 4 to 6 March, which
    the team lead and the manager approve. Finally the manager approves
    the first request at level 2. *)
Definition feb2 : Date := day 20486.

Definition overlapTrace : list (Response * Store) :=
  let t1 := createLeaveRequest demoEnv feb2 "lr-A" "u-emp" (ask 20514 20516)
              demoStore in
  let t2 := updateLeaveRequestStatus demoEnv feb2 "lr-A" approve "u-tl" t1.2 in
  let t3 := createLeaveRequest demoEnv feb2 "lr-B" "u-emp" (ask 20516 20518)
              t2.2 in
  let t4 := updateLeaveRequestStatus demoEnv feb2 "lr-B" approve "u-tl" t3.2 in
  let t5 := updateLeaveRequestStatus demoEnv feb2 "lr-B" approve "u-mgr" t4.2 in
  let t6 := updateLeaveRequestStatus demoEnv feb2 "lr-A" approve "u-mgr" t5.2 in
  [t1; t2; t3; t4; t5; t6].

(** The store before and the outcome of the last approval. *)
Definition beforeLastApproval : Store :=
  default demoStore (snd <$> overlapTrace !! 4%nat).

Definition lastApproval : Response * Store :=
  updateLeaveRequestStatus demoEnv feb2 "lr-A" approve "u-mgr"
    beforeLastApproval.

(** *** A manager's request under the extended workflow

    The manager asks for 2 to 7 March (six days); HR approves at
    level 1. *)
Definition managerTrace : list (Response * Store) :=
  let t1 := createLeaveRequest demoEnv feb2 "lr-M" "u-mgr" (ask 20514 20519)
              extendedStore in
  let t2 := updateLeaveRequestStatus demoEnv feb2 "lr-M" approve "u-hr" t1.2 in
  [t1; t2].

(** *** An HR officer's request under the sabbatical workflow

    The HR officer asks for 2 to 12 March (eleven days); their manager
    approves. *)
Definition hrTrace : list (Response * Store) :=
  let t1 := createLeaveRequest demoEnv feb2 "lr-H" "u-hr" (ask 20514 20524)
              extendedStore in
  let t2 := updateLeaveRequestStatus demoEnv feb2 "lr-H" approve "u-mgr" t1.2 in
  [t1; t2].

(** *** A request with nobody to approve it

    The same store without the team lead. *)
Definition storeWithoutLead : Store :=
  {| leaveRequests := ∅;
     leaveBalances := leaveBalances demoStore;
     users := delete "u-tl" demoUsers;
     leaveTypes := leaveTypes demoStore;
     approvalWorkflows := demoCatalog |}.

Definition orphanRequest : Response * Store :=
  createLeaveRequest demoEnv feb2 "lr-O" "u-emp" (ask 20514 20514)
    storeWithoutLead.

(** *** Approval in December, cancellation in January

    On 15 December 2025 the employee asks for 5 and 6 January 2026; the
    team lead approves the next day; on 2 January 2026 the employee
    cancels. *)
Definition newYearTrace : list (Response * Store) :=
  let t1 := createLeaveRequest demoEnv (day 20437) "lr-N" "u-emp"
              (ask 20458 20459) demoStore in
  let t2 := updateLeaveRequestStatus demoEnv (day 20438) "lr-N" approve "u-tl"
              t1.2 in
  let t3 := cancelLeaveRequest (day 20455) "lr-N" "u-emp" t2.2 in
  [t1; t2; t3].

(** *** A request that no workflow covers

    The employee's two-day request in a store whose catalog has lost its
    workflows; the manager approves. *)
Definition uncoveredStore : Store :=
  let created := createLeaveRequest demoEnv feb2 "lr-U" "u-emp"
                   (ask 20514 20515) demoStore in
  {| leaveRequests := leaveRequests created.2;
     leaveBalances := leaveBalances created.2;
     users := users created.2;
     leaveTypes := leaveTypes created.2;
     approvalWorkflows := [] |}.

Definition uncoveredApproval : Response * Store :=
  updateLeaveRequestStatus demoEnv feb2 "lr-U" approve "u-mgr" uncoveredStore.

(** *** A deletion that awaits approval

    After the second of the overlapping requests has been approved, the
    employee asks to delete it. *)
Definition deletionRequested : Store :=
  (deleteLeaveRequest feb2 "lr-B" "u-emp" EMPLOYEE beforeLastApproval).2.

(** *** Reading the example stores *)

Definition blankRequest : LeaveRequest :=
  {| userId := ""; leaveTypeId := ""; startDate := 0; endDate := 0;
     requestType := FULL_DAY; numberOfDays := 0; reason := "";
     status := PENDING; approverId := None; approverComments := None;
     approvedAt := None; metadata := None |}.

Definition blankUser : User := person "" EMPLOYEE "" None None.

(** The store reached after the first [n] steps of a trace. *)
Definition after (n : nat) (trace : list (Response * Store)) : Store :=
  default demoStore (snd <$> trace !! (n - 1)%nat).

Definition stored (id : string) (st : Store) : LeaveRequest :=
  default blankRequest (leaveRequests st !! id).

Definition userOf (id : string) : User :=
  default blankUser (demoUsers !! id).

End Examples.

(** * Further example data *)

Module MoreExamples.
Import ApprovalWorkflowService LeaveRequestController Examples.

(** A level in the legacy format: role names and no [roleIds]. *)
Definition legacyLevel (n : Z) (names : list string) : Level :=
  {| level := n; roleIds := []; roles := names; departmentSpecific := false;
     required := false |}.

(** The two workflows that the start-up refresh looks for, as an older
    installation has them. *)
Definition standardWorkflow : NewWorkflow :=
  {| nName := "Standard Approval Workflow"; nMinDays := 5; nMaxDays := 50;
     nApprovalLevels :=
       [legacyLevel 1 ["team_lead"]; legacyLevel 2 ["manager"]];
     nIsActive := None; nCategoryId := None |}.

Definition extendedWorkflow : NewWorkflow :=
  {| nName := "Extended Approval Workflow"; nMinDays := 55; nMaxDays := 300;
     nApprovalLevels :=
       [legacyLevel 1 ["team_lead"]; legacyLevel 2 ["manager"];
        legacyLevel 3 ["hr"]; legacyLevel 4 ["super_admin"]];
     nIsActive := None; nCategoryId := None |}.

Definition legacyCatalog : list ApprovalWorkflow :=
  [createRow "wf-s" standardWorkflow; createRow "wf-e" extendedWorkflow].

(** An update that supplies no column. *)
Definition noChange : WorkflowData :=
  {| dName := None; dMinDays := None; dMaxDays := None;
     dApprovalLevels := None; dIsActive := None; dCategoryId := None |}.

Definition reject : StatusPayload :=
  {| pStatus := Some "rejected"; pComments := Some "Release week" |}.

End MoreExamples.
(** * Properties of the workflow catalog *)

Module WorkflowCatalogFacts.
Import ApprovalWorkflowService WorkflowCatalog.

Lemma rangeQuery_complete lo hi w :
  intersectsRange lo hi w → rangeQuery lo hi w = true.
Proof.
  intros (x & Hx & Hw). unfold rangeQuery.
  apply andb_true_iff. split; [apply Z.leb_le | apply Z.geb_le]; lia.
Qed.

Lemma intersects_sym w1 w2 : intersects w1 w2 → intersects w2 w1.
Proof. intros (x & H1 & H2). exists x. split; assumption. Qed.

Lemma none_selected {A} (f : A → bool) (l : list A) :
  (0 <? Z.of_nat (length (List.filter f l))) = false →
  ∀ x, x ∈ l → f x = false.
Proof.
  intros Hlen x Hx. destruct (f x) eqn:Hfx; [| reflexivity].
  assert (Hin : In x (List.filter f l)).
  { apply filter_In. split; [by apply list_elem_of_In | done]. }
  destruct (List.filter f l); [destruct Hin |].
  simpl in Hlen. apply Z.ltb_ge in Hlen. lia.
Qed.

Lemma findById_spec i ws w :
  findById i ws = Some w → w ∈ ws ∧ wfId w = i.
Proof.
  intros H. apply find_some in H as [Hin Hid].
  split; [by apply list_elem_of_In | by apply bool_decide_eq_true in Hid].
Qed.

Lemma same_id_same_row (ws : list ApprovalWorkflow) w1 w2 :
  NoDup (wfId <$> ws) → w1 ∈ ws → w2 ∈ ws → wfId w1 = wfId w2 → w1 = w2.
Proof.
  induction ws as [| a ws IH]; intros Hnd H1 H2 Heq.
  - by apply elem_of_nil in H1.
  - rewrite fmap_cons in Hnd. apply NoDup_cons in Hnd as [Hfresh Hnd].
    apply elem_of_cons in H1 as [-> | H1]; apply elem_of_cons in H2 as [-> | H2].
    + reflexivity.
    + exfalso. apply Hfresh. rewrite Heq. by apply list_elem_of_fmap_2.
    + exfalso. apply Hfresh. rewrite <- Heq. by apply list_elem_of_fmap_2.
    + by apply IH.
Qed.

Lemma changes_false new old : changes new old = false → default old new = old.
Proof.
  destruct new as [v |]; simpl; [| done].
  intros H. apply negb_false_iff, bool_decide_eq_true in H. done.
Qed.

Lemma create_preserves newId d ws w ws' :
  catalogInvariant ws →
  newId ∉ (wfId <$> ws) →
  createApprovalWorkflow newId d ws = Ok (w, ws') →
  catalogInvariant ws'.
Proof.
  intros [Hnd Hdis] Hfresh Hc. unfold createApprovalWorkflow in Hc.
  destruct (findByName _ _); [discriminate |].
  destruct (0 <? _) eqn:Hlen; [discriminate |].
  injection Hc as <- <-.
  pose proof (none_selected _ _ Hlen) as Hnone.
  assert (Hnew : ∀ x, x ∈ ws → ¬ intersects (createRow newId d) x).
  { intros x Hx Hi. apply rangeQuery_complete in Hi.
    simpl in Hi. rewrite (Hnone x Hx) in Hi. discriminate. }
  split.
  - rewrite fmap_app. apply NoDup_app. split; [done |]. split.
    + intros i Hi Hi'. simpl in Hi'. apply list_elem_of_singleton in Hi'.
      subst i. by apply Hfresh.
    + simpl. apply NoDup_singleton.
  - intros w1 w2 H1 H2 Hne.
    apply elem_of_app in H1 as [H1 | H1]; apply elem_of_app in H2 as [H2 | H2].
    + by apply Hdis.
    + apply list_elem_of_singleton in H2. subst w2.
      intros Hi. apply intersects_sym in Hi. by apply (Hnew w1).
    + apply list_elem_of_singleton in H1. subst w1. by apply Hnew.
    + apply list_elem_of_singleton in H1. apply list_elem_of_singleton in H2.
      subst. done.
Qed.

Lemma saveRow_ids w ws :
  wfId <$> saveRow w ws = wfId <$> ws.
Proof.
  unfold saveRow. induction ws as [| a ws IH]; [done |].
  cbn [List.map]. rewrite !fmap_cons. f_equal; [| exact IH].
  case_bool_decide; congruence.
Qed.

Lemma elem_of_saveRow w ws x :
  x ∈ saveRow w ws →
  (x = w ∧ wfId w ∈ (wfId <$> ws)) ∨ (x ∈ ws ∧ wfId x ≠ wfId w).
Proof.
  unfold saveRow. intros H. apply list_elem_of_In, in_map_iff in H as (y & Hy & Hin).
  apply list_elem_of_In in Hin. case_bool_decide as Hid; subst x.
  - left. split; [done |]. rewrite <- Hid. by apply list_elem_of_fmap_2.
  - right. done.
Qed.

Lemma update_preserves i d ws w ws' :
  catalogInvariant ws →
  updateApprovalWorkflow i d ws = Ok (w, ws') →
  catalogInvariant ws'.
Proof.
  intros [Hnd Hdis] Hu. unfold updateApprovalWorkflow in Hu.
  destruct (findById i ws) as [w0 |] eqn:Hfind; [| discriminate].
  apply findById_spec in Hfind as [Hw0 Hid0].
  destruct (nameTaken d w0 ws); [discriminate |].
  destruct (_ && _) eqn:Hcheck; [discriminate |].
  injection Hu as <- <-.
  set (merged := merge w0 d).
  assert (Hidm : wfId merged = i) by done.
  assert (Hother : ∀ x, x ∈ ws → wfId x ≠ i → ¬ intersects merged x).
  { intros x Hx Hxi. apply andb_false_iff in Hcheck as [Hsame | Hlen].
    - apply orb_false_iff in Hsame as [Hmin Hmax].
      apply changes_false in Hmin, Hmax.
      intros (y & Hy & Hyx). apply (Hdis w0 x Hw0 Hx); [congruence |].
      exists y. unfold merged in Hy. simpl in Hy.
      rewrite Hmin, Hmax in Hy. done.
    - pose proof (none_selected _ _ Hlen x Hx) as Hnone. simpl in Hnone.
      intros Hi. apply rangeQuery_complete in Hi.
      unfold merged in Hi. simpl in Hi. rewrite Hi in Hnone.
      rewrite andb_true_r in Hnone.
      apply negb_false_iff, bool_decide_eq_true in Hnone. done. }
  split.
  - by rewrite saveRow_ids.
  - intros w1 w2 H1 H2 Hne.
    apply elem_of_saveRow in H1 as [[-> _] | [H1 Hn1]];
      apply elem_of_saveRow in H2 as [[-> _] | [H2 Hn2]].
    + done.
    + apply Hother; [done | congruence].
    + intros Hi. apply intersects_sym in Hi. revert Hi.
      apply Hother; [done | congruence].
    + by apply Hdis.
Qed.

Lemma delete_preserves i ws ws' :
  catalogInvariant ws →
  deleteApprovalWorkflow i ws = Ok ws' →
  catalogInvariant ws'.
Proof.
  intros [Hnd Hdis] Hd. unfold deleteApprovalWorkflow in Hd.
  destruct (findById i ws); [| discriminate]. injection Hd as <-.
  assert (Hsub : ∀ x, x ∈ List.filter
                   (λ x, negb (bool_decide (wfId x = wfId a))) ws → x ∈ ws).
  { intros x Hx. apply list_elem_of_In, filter_In in Hx as [Hx _].
    by apply list_elem_of_In. }
  split.
  - clear Hdis Hsub. induction ws as [| b ws IH]; [done |].
    rewrite fmap_cons in Hnd. apply NoDup_cons in Hnd as [Hb Hnd].
    simpl. destruct (negb _); [| by apply IH].
    rewrite fmap_cons. apply NoDup_cons. split; [| by apply IH].
    intros Hin. apply Hb.
    apply list_elem_of_fmap in Hin as (y & -> & Hy).
    apply list_elem_of_fmap_2.
    apply list_elem_of_In, filter_In in Hy as [Hy _]. by apply list_elem_of_In.
  - intros w1 w2 H1 H2. apply Hdis; by apply Hsub.
Qed.

Lemma empty_catalog_invariant : catalogInvariant [].
Proof.
  split; [constructor | intros w1 w2 H1; by apply elem_of_nil in H1].
Qed.

Lemma reachable_invariant init ws :
  catalogInvariant init → reachable init ws → catalogInvariant ws.
Proof.
  intros Hinit.
  induction 1 as [| ws newId d w ws' _ IH Hfresh Hc
                  | ws i d w ws' _ IH Hu
                  | ws i ws' _ IH Hd].
  - exact Hinit.
  - eapply create_preserves; eauto.
  - eapply update_preserves; eauto.
  - eapply delete_preserves; eauto.
Qed.

Lemma create_rejects_overlap newId d ws w :
  w ∈ ws → intersectsRange (nMinDays d) (nMaxDays d) w →
  createApprovalWorkflow newId d ws = Throw NameExists
  ∨ createApprovalWorkflow newId d ws = Throw Overlaps.
Proof.
  intros Hw Hi. unfold createApprovalWorkflow.
  destruct (findByName _ _); [by left | right].
  destruct (0 <? _) eqn:Hlen; [done |].
  apply rangeQuery_complete in Hi.
  by rewrite (none_selected _ _ Hlen w Hw) in Hi.
Qed.

Lemma update_rejects_overlap i d ws w0 w :
  findById i ws = Some w0 →
  nameTaken d w0 ws = false →
  changes (dMinDays d) (minDays w0) || changes (dMaxDays d) (maxDays w0) = true →
  w ∈ ws → wfId w ≠ i →
  intersects (merge w0 d) w →
  updateApprovalWorkflow i d ws = Throw WouldOverlap.
Proof.
  intros Hfind Hname Hch Hw Hne Hi. unfold updateApprovalWorkflow.
  rewrite Hfind, Hname, Hch. simpl.
  destruct (0 <? _) eqn:Hlen; [done |].
  pose proof (none_selected _ _ Hlen w Hw) as Hnone. simpl in Hnone.
  apply rangeQuery_complete in Hi. simpl in Hi. rewrite Hi in Hnone.
  rewrite andb_true_r in Hnone.
  apply negb_false_iff, bool_decide_eq_true in Hnone. done.
Qed.

(** C7. In every catalog reachable through [createApprovalWorkflow] and
    [updateApprovalWorkflow] (and [deleteApprovalWorkflow]), from the empty
    table or from any table whose rows have distinct identifiers and
    pairwise disjoint ranges, two distinct workflows, active or not, never
    have intersecting [[minDays, maxDays]] ranges; a creation whose range
    intersects that of an existing workflow throws the overlap error, and
    an update that changes the range throws when the new range intersects
    that of any other workflow. *)
Theorem workflow_ranges_never_intersect init ws :
  catalogInvariant init →
  reachable init ws →
  (∀ w1 w2, w1 ∈ ws → w2 ∈ ws → w1 ≠ w2 → ¬ intersects w1 w2)
  ∧ (∀ newId d w,
       w ∈ ws → intersectsRange (nMinDays d) (nMaxDays d) w →
       findByName (nName d) ws = None →
       createApprovalWorkflow newId d ws = Throw Overlaps)
  ∧ (∀ i d w0 w,
       findById i ws = Some w0 → nameTaken d w0 ws = false →
       changes (dMinDays d) (minDays w0)
       || changes (dMaxDays d) (maxDays w0) = true →
       w ∈ ws → wfId w ≠ i → intersects (merge w0 d) w →
       updateApprovalWorkflow i d ws = Throw WouldOverlap).
Proof.
  intros Hinit Hreach.
  destruct (reachable_invariant init ws Hinit Hreach) as [Hnd Hdis].
  split; [| split].
  - intros w1 w2 H1 H2 Hne. apply Hdis; [done | done |].
    intros Heq. apply Hne. by eapply same_id_same_row.
  - intros newId d w Hw Hi Hname.
    destruct (create_rejects_overlap newId d ws w Hw Hi) as [H | H]; [| done].
    unfold createApprovalWorkflow in H. rewrite Hname in H.
    by destruct (0 <? _).
  - intros i d w0 w. apply update_rejects_overlap.
Qed.

End WorkflowCatalogFacts.

Module WorkflowCatalogWitness.
Import ApprovalWorkflowService WorkflowCatalog WorkflowCatalogFacts Examples.

Lemma demoCatalog_reachable : reachable [] demoCatalog.
Proof.
  eapply (reach_create [] _ "wf-2" longLeave).
  - eapply (reach_create [] [] "wf-1" shortLeave).
    + apply reach_init.
    + apply not_elem_of_nil.
    + reflexivity.
  - apply (bool_decide_unpack _). vm_compute. exact I.
  - reflexivity.
Defined.

(** C7, at an example: the catalog made by creating the short-leave and
    the long-leave workflows. *)
Lemma workflow_ranges_never_intersect_witness :
  (catalogInvariant [] ∧ reachable [] demoCatalog)
  ∧ (∀ w1 w2, w1 ∈ demoCatalog → w2 ∈ demoCatalog → w1 ≠ w2 →
              ¬ intersects w1 w2)
  ∧ (∀ newId d w,
       w ∈ demoCatalog → intersectsRange (nMinDays d) (nMaxDays d) w →
       findByName (nName d) demoCatalog = None →
       createApprovalWorkflow newId d demoCatalog = Throw Overlaps)
  ∧ (∀ i d w0 w,
       findById i demoCatalog = Some w0 → nameTaken d w0 demoCatalog = false →
       changes (dMinDays d) (minDays w0)
       || changes (dMaxDays d) (maxDays w0) = true →
       w ∈ demoCatalog → wfId w ≠ i → intersects (merge w0 d) w →
       updateApprovalWorkflow i d demoCatalog = Throw WouldOverlap).
Proof.
  split; [split; [exact empty_catalog_invariant | exact demoCatalog_reachable] |].
  exact (workflow_ranges_never_intersect [] demoCatalog
           empty_catalog_invariant demoCatalog_reachable).
Defined.

End WorkflowCatalogWitness.

(** * Properties of the leave-request controller *)

Module LeaveRequestFacts.
Import LeaveRequestController LeaveSpec.

(** ** Queries *)

Lemma elem_of_findWhere P (m : gmap string LeaveRequest) k r :
  (k, r) ∈ findWhere P m ↔ m !! k = Some r ∧ P k r = true.
Proof.
  unfold findWhere. rewrite list_elem_of_In, filter_In, <- list_elem_of_In.
  by rewrite elem_of_map_to_list.
Qed.

Lemma nonEmpty_true {A} (l : list A) : nonEmpty l = true ↔ ∃ x, x ∈ l.
Proof.
  destruct l as [| a l]; simpl.
  - split; [done | intros [x Hx]; by apply elem_of_nil in Hx].
  - split; [intros _; exists a; apply elem_of_cons; by left | done].
Qed.

Lemma nonEmpty_false {A} (l : list A) : nonEmpty l = false ↔ l = [].
Proof. destruct l; simpl; split; done. Qed.

Lemma overlapping_hasOverlap id lr st :
  nonEmpty (overlappingApproved id lr st) = true ↔ hasOverlap id lr st.
Proof.
  rewrite nonEmpty_true. unfold hasOverlap, overlappingApproved. split.
  - intros [[k r] H]. apply elem_of_findWhere in H as [Hlook HP].
    repeat (apply andb_true_iff in HP as [HP ?]).
    exists k, r. repeat split.
    + done.
    + intros ->. by rewrite bool_decide_eq_true_2 in *.
    + by apply bool_decide_eq_true in HP.
    + by eapply bool_decide_eq_true.
    + by apply Z.leb_le.
    + by apply Z.le_ge, Z.geb_le.
  - intros (k & r & Hlook & Hne & Hu & Hs & Hstart & Hend).
    exists (k, r). apply elem_of_findWhere. split; [done |].
    repeat (apply andb_true_iff; split).
    + by apply bool_decide_eq_true.
    + by apply bool_decide_eq_true.
    + by apply Z.leb_le.
    + apply Z.geb_le. lia.
    + apply negb_true_iff. by apply bool_decide_eq_false.
Qed.

(** The overlap query reads only the user and the dates of the request,
    and no row but those of other requests. *)
Lemma overlapping_after_save id lr lr' saved st :
  userId lr' = userId lr → startDate lr' = startDate lr →
  endDate lr' = endDate lr →
  nonEmpty (overlappingApproved id lr' (saveLeaveRequest id saved st))
  = nonEmpty (overlappingApproved id lr st).
Proof.
  intros Hu Hs He.
  assert (Hiff : hasOverlap id lr' (saveLeaveRequest id saved st)
                 ↔ hasOverlap id lr st).
  { unfold hasOverlap. simpl. rewrite Hu, Hs, He.
    split; intros (k & r & Hlook & Hne & Hrest); exists k, r.
    - rewrite lookup_insert_ne in Hlook by done. done.
    - rewrite lookup_insert_ne by done. done. }
  rewrite <- !overlapping_hasOverlap in Hiff.
  destruct (nonEmpty _), (nonEmpty _); try done.
  - symmetry. by apply Hiff.
  - by apply Hiff.
Qed.

Lemma overlapping_same_fields id lr lr' st :
  userId lr' = userId lr → startDate lr' = startDate lr →
  endDate lr' = endDate lr →
  overlappingApproved id lr' st = overlappingApproved id lr st.
Proof. intros Hu Hs He. unfold overlappingApproved. by rewrite Hu, Hs, He. Qed.

(** ** The balance ledger *)

Lemma clamp_max n : (if n <? 0 then 0 else n) = Z.max 0 n.
Proof. destruct (Z.ltb_spec n 0); lia. Qed.

Lemma revertBalance_requests lr st :
  leaveRequests (revertBalance lr st) = leaveRequests st.
Proof. unfold revertBalance. by destruct (_ !! _). Qed.

Lemma revertBalance_at lr st :
  leaveBalances (revertBalance lr st) !! startYearKey lr
  = (λ b, setUsed (Z.max 0 (used b - numberOfDays lr)) b)
      <$> leaveBalances st !! startYearKey lr.
Proof.
  unfold revertBalance, startYearKey.
  destruct (leaveBalances st !! _) as [b |] eqn:Hb; simpl.
  - rewrite lookup_insert_eq, clamp_max. done.
  - by rewrite Hb.
Qed.

Lemma revertBalance_other lr st k :
  k ≠ startYearKey lr →
  leaveBalances (revertBalance lr st) !! k = leaveBalances st !! k.
Proof.
  intros Hne. unfold revertBalance. fold (startYearKey lr).
  destruct (leaveBalances st !! _); simpl; [| done].
  by rewrite lookup_insert_ne.
Qed.

(** ** Deletion decisions *)


(** ** Which balance row an action touches *)

Lemma sameRequest_refl lr : sameRequest lr lr.
Proof. by repeat split. Qed.

Lemma partialApproval_balances env now id comments approverId approver
    requestUser lr sorted lvl st :
  leaveBalances
    (partialApproval env now id comments approverId approver requestUser lr
       sorted lvl st).2
  = leaveBalances st.
Proof.
  unfold partialApproval. repeat case_match; done.
Qed.

Lemma approveAtLevel_flow env now id comments approverId approver
    requestUser lr st :
  match approveAtLevel env now id comments approverId approver requestUser
          lr st with
  | Respond r => leaveBalances r.2 = leaveBalances st
  | Proceed lr' => sameRequest lr' lr
  end.
Proof.
  unfold approveAtLevel.
  repeat case_match; simplify_eq;
    first [done | apply partialApproval_balances | apply sameRequest_refl].
Qed.

Lemma finalizeStatus_other_rows now id s comments approverId approver lr st k :
  k ≠ currentYearKey now lr →
  leaveBalances (finalizeStatus now id s comments approverId approver lr st).2 !! k
  = leaveBalances st !! k.
Proof.
  intros Hk. unfold finalizeStatus.
  repeat case_match; simpl; try done.
  all: by rewrite lookup_insert_ne.
Qed.

Lemma finalizeStatus_increment now id s comments approverId approver lr st lr' :
  body (finalizeStatus now id s comments approverId approver lr st).1
  = StatusUpdated APPROVED lr' →
  leaveBalances (finalizeStatus now id s comments approverId approver lr st).2
    !! currentYearKey now lr
  = (λ b, setUsed (used b + numberOfDays lr) b)
      <$> leaveBalances st !! currentYearKey now lr.
Proof.
  unfold finalizeStatus, currentYearKey.
  case_bool_decide as Hs; simpl.
  - destruct (nonEmpty _); simpl; [done |]. intros _.
    destruct (leaveBalances st !! _) as [b |] eqn:Hb; simpl.
    + by rewrite lookup_insert_eq.
    + by rewrite Hb.
  - intros [= -> _]. done.
Qed.

Lemma currentYearKey_same now lr' lr :
  sameRequest lr' lr → currentYearKey now lr' = currentYearKey now lr.
Proof. intros (Hu & Ht & _). unfold currentYearKey. by rewrite Hu, Ht. Qed.

Lemma update_other_rows env now id payload approverId st lr k :
  leaveRequests st !! id = Some lr →
  k ≠ currentYearKey now lr →
  leaveBalances (updateLeaveRequestStatus env now id payload approverId st).2 !! k
  = leaveBalances st !! k.
Proof.
  intros Hlr Hk. unfold updateLeaveRequestStatus. rewrite Hlr.
  destruct (truthy _); [| done].
  destruct (parseStatus _) as [target |]; [| done].
  case_bool_decide; [done |].
  destruct (_ && _ && _); [done |].
  destruct (users st !! approverId) as [approver |]; [| done].
  destruct (users st !! userId lr) as [requestUser |]; [| done].
  destruct (negb _ && negb _); [done |].
  case_bool_decide.
  - pose proof (approveAtLevel_flow env now id (pComments payload) approverId
                  approver requestUser lr st) as Hflow.
    destruct (approveAtLevel _ _ _ _ _ _ _ _ _) as [r' | lr'];
      [by rewrite Hflow |].
    apply finalizeStatus_other_rows. by rewrite (currentYearKey_same _ _ _ Hflow).
  - by apply finalizeStatus_other_rows.
Qed.

Lemma partialApproval_body env now id comments approverId approver
    requestUser lr sorted lvl st s lr' :
  body (partialApproval env now id comments approverId approver requestUser
          lr sorted lvl st).1
  ≠ StatusUpdated s lr'.
Proof. unfold partialApproval. repeat case_match; done. Qed.

Lemma approveAtLevel_body env now id comments approverId approver
    requestUser lr st r s lr' :
  approveAtLevel env now id comments approverId approver requestUser lr st
  = Respond r →
  body r.1 ≠ StatusUpdated s lr'.
Proof.
  unfold approveAtLevel.
  repeat case_match; intros; simplify_eq;
    first [done | apply partialApproval_body].
Qed.

Lemma update_increment env now id payload approverId st lr lr' :
  leaveRequests st !! id = Some lr →
  body (updateLeaveRequestStatus env now id payload approverId st).1
  = StatusUpdated APPROVED lr' →
  leaveBalances (updateLeaveRequestStatus env now id payload approverId st).2
    !! currentYearKey now lr
  = (λ b, setUsed (used b + numberOfDays lr) b)
      <$> leaveBalances st !! currentYearKey now lr.
Proof.
  intros Hlr. unfold updateLeaveRequestStatus. rewrite Hlr.
  destruct (truthy _); [| done].
  destruct (parseStatus _) as [target |]; [| done].
  case_bool_decide; [done |].
  destruct (_ && _ && _); [done |].
  destruct (users st !! approverId) as [approver |]; [| done].
  destruct (users st !! userId lr) as [requestUser |]; [| done].
  destruct (negb _ && negb _); [done |].
  case_bool_decide.
  - pose proof (approveAtLevel_flow env now id (pComments payload) approverId
                  approver requestUser lr st) as Hflow.
    destruct (approveAtLevel _ _ _ _ _ _ _ _ _) as [r' | lr1] eqn:Hstep.
    + intros Hb. by apply approveAtLevel_body with (s := APPROVED) (lr' := lr')
                   in Hstep.
    + intros Hb. apply finalizeStatus_increment in Hb.
      rewrite (currentYearKey_same _ _ _ Hflow) in Hb.
      destruct Hflow as (_ & _ & _ & _ & Hn). by rewrite Hn in Hb.
  - apply finalizeStatus_increment.
Qed.

Lemma cancel_other_rows now id actorId st lr k :
  leaveRequests st !! id = Some lr →
  k ≠ currentYearKey now lr →
  leaveBalances (cancelLeaveRequest now id actorId st).2 !! k
  = leaveBalances st !! k.
Proof.
  intros Hlr Hk. unfold cancelLeaveRequest. rewrite Hlr.
  repeat case_match; simpl; try done.
  by rewrite lookup_insert_ne.
Qed.

Lemma cancel_decrement now id actorId st lr :
  leaveRequests st !! id = Some lr →
  status lr = APPROVED →
  code (cancelLeaveRequest now id actorId st).1 = 200 →
  leaveBalances (cancelLeaveRequest now id actorId st).2 !! currentYearKey now lr
  = (λ b, setUsed (used b - numberOfDays lr) b)
      <$> leaveBalances st !! currentYearKey now lr.
Proof.
  intros Hlr Hst. unfold cancelLeaveRequest, currentYearKey. rewrite Hlr, Hst.
  destruct (negb _); [done |]. simpl.
  destruct (_ <? _); [done |].
  destruct (leaveBalances st !! _) as [b |] eqn:Hb; simpl; intros _.
  - by rewrite lookup_insert_eq.
  - by rewrite Hb.
Qed.

Lemma delete_other_rows now id actorId userRole st lr k :
  leaveRequests st !! id = Some lr →
  k ≠ startYearKey lr →
  leaveBalances (deleteLeaveRequest now id actorId userRole st).2 !! k
  = leaveBalances st !! k.
Proof.
  intros Hlr Hk. unfold deleteLeaveRequest. rewrite Hlr.
  repeat case_match; simpl; try done.
  all: by apply revertBalance_other.
Qed.

Lemma delete_revert now id actorId userRole st lr :
  leaveRequests st !! id = Some lr →
  status lr = APPROVED ∨ status lr = PARTIALLY_APPROVED →
  body (deleteLeaveRequest now id actorId userRole st).1 = DeletedOk →
  leaveBalances (deleteLeaveRequest now id actorId userRole st).2
    !! startYearKey lr
  = (λ b, setUsed (Z.max 0 (used b - numberOfDays lr)) b)
      <$> leaveBalances st !! startYearKey lr.
Proof.
  intros Hlr Hst. unfold deleteLeaveRequest. rewrite Hlr.
  assert (Hap : bool_decide (status lr = APPROVED)
                || bool_decide (status lr = PARTIALLY_APPROVED) = true).
  { destruct Hst as [-> | ->]; done. }
  rewrite Hap.
  repeat case_match; simpl; try done.
  all: intros _; apply revertBalance_at.
Qed.

Lemma approveDelete_other_rows id comments actorId st lr k :
  leaveRequests st !! id = Some lr →
  k ≠ startYearKey lr →
  leaveBalances (approveDeleteLeaveRequest id comments actorId st).2 !! k
  = leaveBalances st !! k.
Proof.
  intros Hlr Hk. unfold approveDeleteLeaveRequest. rewrite Hlr.
  repeat case_match; simpl; try done.
  by apply revertBalance_other.
Qed.

Lemma approveDelete_revert id comments actorId st lr :
  leaveRequests st !! id = Some lr →
  wasApproved (metadata lr ≫= originalStatus) = true →
  code (approveDeleteLeaveRequest id comments actorId st).1 = 200 →
  leaveBalances (approveDeleteLeaveRequest id comments actorId st).2
    !! startYearKey lr
  = (λ b, setUsed (Z.max 0 (used b - numberOfDays lr)) b)
      <$> leaveBalances st !! startYearKey lr.
Proof.
  intros Hlr Hwas. unfold approveDeleteLeaveRequest. rewrite Hlr, Hwas.
  repeat case_match; simpl; try done.
  intros _; apply revertBalance_at.
Qed.

(** ** Cancelling through the status update *)

Lemma finalizeStatus_not_approved now id s comments approverId approver lr st :
  s ≠ APPROVED →
  finalizeStatus now id s comments approverId approver lr st
  = respond 200
      (StatusUpdated s
         (assign s (Some approverId)
            (match truthy comments with
             | Some c => Some c
             | None => approverComments lr
             end) (Some now) (metadata lr) lr))
      (saveLeaveRequest id
         (assign s (Some approverId)
            (match truthy comments with
             | Some c => Some c
             | None => approverComments lr
             end) (Some now) (metadata lr) lr) st).
Proof.
  intros Hs. unfold finalizeStatus.
  rewrite bool_decide_eq_false_2 by done.
  by destruct s.
Qed.

(** C9. When [updateLeaveRequestStatus] is asked for the status
    [cancelled], the leave balances after the call are those before it,
    whatever the answer; and if the request exists with any status other
    than [cancelled], the acting user and the requester exist, and the
    actor is authorised over the requester or is the requester, the call
    answers 200 and the request is stored as [cancelled]. By contrast, a
    successful [cancelLeaveRequest] of an [approved] request subtracts
    [numberOfDays] from [used] on the balance row of the current year. *)
Theorem cancel_by_status_update_keeps_balances
    env now id payload approverId st :
  asksFor payload CANCELLED →
  let out := updateLeaveRequestStatus env now id payload approverId st in
  leaveBalances out.2 = leaveBalances st
  ∧ ∀ lr approver requestUser,
      leaveRequests st !! id = Some lr →
      status lr ≠ CANCELLED →
      users st !! approverId = Some approver →
      users st !! userId lr = Some requestUser →
      isAuthorized (isApproverAuthorized env st approverId (userId lr)) = true
      ∨ userId lr = approverId →
      code out.1 = 200 ∧ statusOf id out.2 = Some CANCELLED
      ∧ (status lr = APPROVED →
         code (cancelLeaveRequest now id (userId lr) st).1 = 200 →
         leaveBalances (cancelLeaveRequest now id (userId lr) st).2
           !! currentYearKey now lr
         = (λ b, setUsed (used b - numberOfDays lr) b)
             <$> leaveBalances st !! currentYearKey now lr).
Proof.
  intros (text & Htext & Hparse). simpl.
  unfold updateLeaveRequestStatus. rewrite Htext, Hparse.
  destruct (leaveRequests st !! id) as [lr |] eqn:Hlr; [| split; [done |]; done].
  case_bool_decide as Hsame.
  { split; [done |]. intros ? ? ? [= <-] Hne. done. }
  rewrite (bool_decide_eq_true_2 (CANCELLED = CANCELLED)) by done.
  rewrite (bool_decide_eq_false_2 (CANCELLED = APPROVED)) by done.
  rewrite andb_false_r. simpl.
  destruct (users st !! approverId) as [approver |] eqn:Happ;
    [| split; [done |]; intros; simplify_eq].
  destruct (users st !! userId lr) as [requestUser |] eqn:Hreq;
    [| split; [done |]; intros; simplify_eq].
  rewrite andb_true_r.
  destruct (negb _ && negb _) eqn:Hauth.
  { split; [done |]. intros ? ? ? [= <-] _ _ _ Hor.
    apply andb_true_iff in Hauth as [Ha Hself].
    apply negb_true_iff in Ha, Hself.
    destruct Hor as [Hor | Hor]; [congruence |].
    by rewrite bool_decide_eq_true_2 in Hself. }
  rewrite finalizeStatus_not_approved by done. simpl.
  split; [done |]. intros ? ? ? [= <-] _ _ _ _.
  split; [done |]. split.
  - unfold statusOf. simpl. by rewrite lookup_insert_eq.
  - by apply cancel_decrement.
Qed.

Lemma finalizeStatus_stored now id s comments approverId approver lr st s' lr' :
  body (finalizeStatus now id s comments approverId approver lr st).1
  = StatusUpdated s' lr' →
  s' = s ∧ status lr' = s ∧ sameRequest lr' lr
  ∧ leaveRequests
      (finalizeStatus now id s comments approverId approver lr st).2 !! id
    = Some lr'.
Proof.
  unfold finalizeStatus.
  repeat case_match; simpl; intros; simplify_eq; simpl.
  all: split; [done |]; split; [done |]; split; [by repeat split |].
  all: simpl; by rewrite lookup_insert_eq.
Qed.

Lemma update_stored env now id payload approverId st lr s lr' :
  leaveRequests st !! id = Some lr →
  body (updateLeaveRequestStatus env now id payload approverId st).1
  = StatusUpdated s lr' →
  status lr' = s ∧ sameRequest lr' lr
  ∧ leaveRequests
      (updateLeaveRequestStatus env now id payload approverId st).2 !! id
    = Some lr'.
Proof.
  intros Hlr. unfold updateLeaveRequestStatus. rewrite Hlr.
  destruct (truthy _); [| done].
  destruct (parseStatus _) as [target |]; [| done].
  case_bool_decide; [done |].
  destruct (_ && _ && _); [done |].
  destruct (users st !! approverId) as [approver |]; [| done].
  destruct (users st !! userId lr) as [requestUser |]; [| done].
  destruct (negb _ && negb _); [done |].
  case_bool_decide.
  - pose proof (approveAtLevel_flow env now id (pComments payload) approverId
                  approver requestUser lr st) as Hflow.
    destruct (approveAtLevel _ _ _ _ _ _ _ _ _) as [r' | lr1] eqn:Hstep.
    + intros Hb. by apply approveAtLevel_body with (s := s) (lr' := lr')
                   in Hstep.
    + intros Hb. apply finalizeStatus_stored in Hb as (-> & Hs & Hsame & Hst).
      split; [done |]. split; [| done].
      destruct Hsame as (? & ? & ? & ? & ?), Hflow as (? & ? & ? & ? & ?).
      repeat split; congruence.
  - intros Hb. apply finalizeStatus_stored in Hb as (-> & Hs & Hsame & Hst).
    done.
Qed.

Lemma startYearKey_same lr' lr :
  sameRequest lr' lr → startYearKey lr' = startYearKey lr.
Proof.
  intros (Hu & Ht & Hs & _). unfold startYearKey. by rewrite Hu, Ht, Hs.
Qed.

Lemma year_keys_differ now lr :
  getFullYear (startDate lr) ≠ getCurrentYear now →
  currentYearKey now lr ≠ startYearKey lr.
Proof. unfold currentYearKey, startYearKey. congruence. Qed.


(** ** Sorting the levels of a workflow *)

Lemma insertLevel_perm x l : insertLevel x l ≡ₚ x :: l.
Proof.
  induction l as [| y t IH]; simpl; [done |].
  destruct (level x <=? level y); [done |].
  rewrite IH. apply Permutation_swap.
Qed.

Lemma sortLevels_perm l : sortLevels l ≡ₚ l.
Proof.
  induction l as [| x t IH]; simpl; [done |].
  rewrite insertLevel_perm. by rewrite IH.
Qed.

Lemma insertLevel_sorted x l :
  StronglySorted levelLe l → StronglySorted levelLe (insertLevel x l).
Proof.
  induction 1 as [| y t Hs IH Hall]; simpl.
  - repeat constructor.
  - destruct (Z.leb_spec (level x) (level y)) as [Hle | Hgt].
    + constructor; [by constructor |].
      constructor; [done |].
      eapply Forall_impl; [exact Hall |]. unfold levelLe. intros; simpl in *. lia.
    + constructor; [done |].
      rewrite insertLevel_perm. constructor; [unfold levelLe; lia | done].
Qed.

Lemma sortLevels_sorted l : StronglySorted levelLe (sortLevels l).
Proof.
  induction l as [| x t IH]; simpl; [constructor |].
  by apply insertLevel_sorted.
Qed.

(** [Array.prototype.find] returns the first element that satisfies the
    predicate. *)
Lemma find_first {A} (f : A → bool) (l : list A) d :
  List.find f l = Some d ↔
  ∃ pre post, l = (pre ++ d :: post)%list ∧ f d = true
              ∧ ∀ x, x ∈ pre → f x = false.
Proof.
  induction l as [| a t IH]; simpl.
  - split; [done |]. intros (pre & post & H & _). by destruct pre.
  - destruct (f a) eqn:Ha.
    + split.
      * intros [= ->]. exists [], t. split; [done |]. split; [done |].
        intros x Hx. by apply elem_of_nil in Hx.
      * intros (pre & post & H & Hd & Hpre).
        destruct pre as [| b pre]; simpl in H; simplify_eq; [done |].
        rewrite Hpre in Ha; [done |]. apply elem_of_cons. by left.
    + rewrite IH. split.
      * intros (pre & post & -> & Hd & Hpre).
        exists (a :: pre), post. split; [done |]. split; [done |].
        intros x Hx. apply elem_of_cons in Hx as [-> | Hx]; [done |].
        by apply Hpre.
      * intros (pre & post & H & Hd & Hpre).
        destruct pre as [| b pre]; simpl in H; simplify_eq; [congruence |].
        exists pre, post. split; [done |]. split; [done |].
        intros x Hx. apply Hpre. apply elem_of_cons. by right.
Qed.

(** ** The approval action *)

Lemma update_reaches_approval env now id payload approverId st lr
    approver requestUser :
  asksFor payload APPROVED →
  leaveRequests st !! id = Some lr →
  status lr = PENDING ∨ status lr = PARTIALLY_APPROVED →
  users st !! approverId = Some approver →
  users st !! userId lr = Some requestUser →
  isAuthorized (isApproverAuthorized env st approverId (userId lr)) = true →
  updateLeaveRequestStatus env now id payload approverId st
  = match approveAtLevel env now id (pComments payload) approverId approver
            requestUser lr st with
    | Respond r => r
    | Proceed lr' =>
        finalizeStatus now id APPROVED (pComments payload) approverId
          approver lr' st
    end.
Proof.
  intros (text & Htext & Hparse) Hlr Hst Happ Hreq Hauth.
  unfold updateLeaveRequestStatus.
  rewrite Htext, Hparse, Hlr, Happ, Hreq, Hauth.
  by destruct Hst as [-> | ->].
Qed.


Lemma no_overlap_query id lr st :
  ¬ hasOverlap id lr st → nonEmpty (overlappingApproved id lr st) = false.
Proof.
  intros Hno. destruct (nonEmpty _) eqn:H; [| done].
  by apply overlapping_hasOverlap in H.
Qed.

Lemma partialApproval_store env now id comments approverId approver
    requestUser lr sorted lvl st :
  ¬ hasOverlap id lr st →
  let out := partialApproval env now id comments approverId approver
               requestUser lr sorted lvl st in
  statusOf id out.2 = Some PARTIALLY_APPROVED
  ∧ metadataOf id out.2 ≫= currentApprovalLevel = Some lvl
  ∧ metadataOf id out.2 ≫= approvalHistory
    = Some (default [] (metadata lr ≫= approvalHistory)
            ++ [historyEntry lvl approverId approver now comments])%list
  ∧ metadataOf id out.2 ≫= requiredApprovalLevels = Some (level <$> sorted).
Proof.
  intros Hno. simpl. unfold partialApproval.
  rewrite (overlapping_same_fields id lr) by done.
  rewrite (no_overlap_query _ _ _ Hno).
  set (upd := assign _ _ _ _ _ _).
  set (st' := saveLeaveRequest id upd st).
  assert (Hst' : ∀ r, (match List.find
                         (λ l, bool_decide (level l = lvl + 1)) sorted with
                   | Some nextLevel =>
                       if nonEmpty (roleIds nextLevel)
                       then match findApproversByRoleIds env st'
                                    (roleIds nextLevel)
                                    (if departmentSpecific nextLevel
                                     then department requestUser else None) with
                            | Some _ => respond 200 r st'
                            | None => respond 500 InternalError st'
                            end
                       else respond 200 r st'
                   | None => respond 200 r st'
                   end).2 = st').
  { intros r. repeat case_match; done. }
  rewrite Hst'. unfold statusOf, metadataOf, st'. simpl.
  rewrite lookup_insert_eq. simpl.
  destruct (metadata lr) as [md |]; simpl; [destruct (requestUserRole md) |];
    done.
Qed.

Lemma final_approval_store now id comments approverId approver lr lvl st :
  ¬ hasOverlap id lr st →
  let md := default emptyMetadata (metadata lr) in
  let proceeded :=
    setMetadata
      (pushHistory (historyEntry lvl approverId approver now comments) true md)
      lr in
  let out := finalizeStatus now id APPROVED comments approverId approver
               proceeded st in
  code out.1 = 200
  ∧ statusOf id out.2 = Some APPROVED
  ∧ isFullyApproved <$> metadataOf id out.2 = Some true
  ∧ leaveBalances out.2 !! currentYearKey now lr
    = (λ b, setUsed (used b + numberOfDays lr) b)
        <$> leaveBalances st !! currentYearKey now lr
  ∧ ∀ k, k ≠ currentYearKey now lr →
         leaveBalances out.2 !! k = leaveBalances st !! k.
Proof.
  intros Hno. simpl. unfold finalizeStatus. simpl.
  rewrite (overlapping_after_save id lr) by done.
  rewrite (no_overlap_query _ _ _ Hno).
  unfold statusOf, metadataOf, currentYearKey. simpl.
  destruct (leaveBalances st !! _) as [b |] eqn:Hb; simpl.
  - rewrite !lookup_insert_eq. simpl. repeat split; try done.
    intros k Hk. by rewrite lookup_insert_ne.
  - rewrite !lookup_insert_eq, Hb. simpl. repeat split; done.
Qed.


(** ** The required levels of a request *)

Lemma find_level_unique (sorted : list Level) l :
  NoDup (level <$> sorted) → l ∈ sorted →
  List.find (λ x, bool_decide (level x = level l)) sorted = Some l.
Proof.
  induction sorted as [| a t IH]; intros Hnd Hin.
  - by apply elem_of_nil in Hin.
  - rewrite fmap_cons in Hnd. apply NoDup_cons in Hnd as [Ha Hnd]. simpl.
    apply elem_of_cons in Hin as [-> | Hin].
    + by rewrite bool_decide_eq_true_2.
    + case_bool_decide as Heq; [| by apply IH].
      exfalso. apply Ha. rewrite Heq. by apply list_elem_of_fmap_2.
Qed.

Lemma filter_fmap {A B} (p : B → bool) (f : A → B) (l : list A) :
  List.filter p (f <$> l) = f <$> List.filter (λ a, p (f a)) l.
Proof.
  induction l as [| a t IH]; [done |].
  rewrite fmap_cons. simpl. destruct (p (f a)); [rewrite fmap_cons |]; by rewrite IH.
Qed.

(** At creation, the required levels are the level numbers of the
    workflow in ascending order, less every level whose [roleIds] contain
    the name of the requester's role (given that the workflow's level
    numbers are distinct). *)
Lemma requiredLevelsFor_skips_own_role user (ls : list Level) :
  NoDup (level <$> ls) →
  requiredLevelsFor user ls
  = level <$> List.filter
                (λ l, negb (includes (roleIds l) (roleName (role user))))
                (sortLevels ls).
Proof.
  intros Hnd. unfold requiredLevelsFor. rewrite filter_fmap. f_equal.
  assert (Hnd' : NoDup (level <$> sortLevels ls)).
  { by rewrite sortLevels_perm. }
  apply filter_ext_in. intros l Hl. apply list_elem_of_In in Hl.
  by rewrite (find_level_unique _ _ Hnd' Hl).
Qed.

(** A final approval, a rejection and a cancellation leave
    [requiredApprovalLevels] as the request had it. *)
Lemma finalizeStatus_keeps_required now id s comments approverId approver lr st :
  metadataOf id (finalizeStatus now id s comments approverId approver lr st).2
    ≫= requiredApprovalLevels
  = metadata lr ≫= requiredApprovalLevels.
Proof.
  unfold finalizeStatus, metadataOf.
  repeat case_match; simpl; rewrite lookup_insert_eq; simpl; simplify_eq; done.
Qed.

(** The loop over the days of a new request never needs more turns than
    [daysSpanned] gives it. *)
Lemma anyDayWithin_fuel fuel cur end_ rs re :
  (Z.to_nat ((end_ - cur) / msPerDay + 1) <= fuel)%nat →
  anyDayWithin (S fuel) cur end_ rs re = anyDayWithin fuel cur end_ rs re.
Proof.
  revert cur. induction fuel as [| f IH]; intros cur Hfuel.
  - simpl. destruct (Z.leb_spec cur end_) as [Hle | Hgt]; [| done].
    exfalso.
    assert (0 <= (end_ - cur) / msPerDay).
    { apply Z.div_pos; unfold msPerDay; lia. }
    lia.
  - cbn [anyDayWithin].
    destruct (Z.leb_spec cur end_) as [Hle | Hgt]; [| done].
    destruct (_ && _); [done |].
    apply IH.
    replace (end_ - (cur + msPerDay)) with ((end_ - cur) + (-1) * msPerDay)
      by lia.
    rewrite Z.div_add by (unfold msPerDay; lia).
    assert (0 <= (end_ - cur) / msPerDay).
    { apply Z.div_pos; unfold msPerDay; lia. }
    lia.
Qed.

(** ** Answers given after the request has been saved *)

(** Whenever [createLeaveRequest] answers "No approvers found", the new
    request is in the store. *)
Lemma no_approvers_is_answered_after_the_save env now newId userId_ payload st :
  body (createLeaveRequest env now newId userId_ payload st).1
  = NoApproversFound →
  ∃ lr, status lr = PENDING
        ∧ (createLeaveRequest env now newId userId_ payload st).2
          = saveLeaveRequest newId lr st.
Proof.
  unfold createLeaveRequest.
  repeat case_match; simpl; intros; simplify_eq;
    eexists; (split; [| reflexivity]); reflexivity.
Qed.

(** Whenever the approval at the highest level of the workflow finds an
    overlapping approved request, the call answers 409 and leaves the
    balances alone, and the request is in the store as [approved]. *)
Lemma final_overlap_is_answered_after_the_save
    env now id payload approverId st lr approver requestUser wf lvl top :
  asksFor payload APPROVED →
  leaveRequests st !! id = Some lr →
  status lr = PENDING ∨ status lr = PARTIALLY_APPROVED →
  users st !! approverId = Some approver →
  users st !! userId lr = Some requestUser →
  isAuthorized (isApproverAuthorized env st approverId (userId lr)) = true →
  findApplicableWorkflow lr (activeWorkflows st) = Some wf →
  findApproverLevel lr approver (sortLevels (approvalLevels wf)) = Some lvl →
  highestLevel wf = Some top →
  top <= lvl →
  hasOverlap id lr st →
  let out := updateLeaveRequestStatus env now id payload approverId st in
  code out.1 = 409
  ∧ leaveBalances out.2 = leaveBalances st
  ∧ statusOf id out.2 = Some APPROVED.
Proof.
  intros Hask Hlr Hst Happ Hreq Hauth Hwf Hlvl Htop Hle Hover. simpl.
  rewrite (update_reaches_approval _ _ _ _ _ _ _ _ _ Hask Hlr Hst Happ Hreq Hauth).
  unfold approveAtLevel. rewrite Hwf, Hlvl.
  unfold highestLevel in Htop.
  destruct (last (sortLevels (approvalLevels wf))) as [t |]; [| done].
  simpl in Htop. injection Htop as ->.
  apply Z.ltb_ge in Hle. rewrite Hle.
  unfold finalizeStatus. simpl.
  rewrite (overlapping_after_save id lr) by done.
  apply overlapping_hasOverlap in Hover. rewrite Hover. simpl.
  split; [done |]. split; [done |].
  unfold statusOf. simpl. by rewrite lookup_insert_eq.
Qed.

(** ** The engine on the example stores *)

Import Examples ApprovalWorkflowService.

(** C1 (what the code does). The manager's approval of the first request
    at the highest level finds the second, approved request on 4 March:
    the call answers 409 with the conflicting request and [used] is as
    before, but the request, [partially_approved] before the call, is
    stored as [approved] with [isFullyApproved = true]. *)
Theorem final_approval_is_saved_before_the_overlap_check :
  statusOf "lr-A" beforeLastApproval = Some PARTIALLY_APPROVED
  ∧ statusOf "lr-B" beforeLastApproval = Some APPROVED
  ∧ lastApproval.1
    = {| code := 409;
         body := OverlapsApproved
                   [{| oId := "lr-B"; oStartDate := day 20516;
                       oEndDate := day 20518; oLeaveTypeId := "lt-annual" |}] |}
  ∧ usedAt ("u-emp", "lt-annual", 2026) beforeLastApproval = Some 30
  ∧ usedAt ("u-emp", "lt-annual", 2026) lastApproval.2 = Some 30
  ∧ statusOf "lr-A" lastApproval.2 = Some APPROVED
  ∧ isFullyApproved <$> metadataOf "lr-A" lastApproval.2 = Some true.
Proof. vm_compute. repeat split; reflexivity. Qed.

(** C2 (what the code does). The manager's request is created with
    [requiredApprovalLevels = [1; 3]], level 2 being left out because its
    roles contain the requester's role; the approval by HR at level 1
    replaces it by [[1; 2; 3]]. *)
Theorem partial_approval_overwrites_required_levels :
  metadataOf "lr-M" (after 1 managerTrace) ≫= requestUserRole = Some MANAGER
  ∧ metadataOf "lr-M" (after 1 managerTrace) ≫= requiredApprovalLevels
    = Some [1; 3]
  ∧ code <$> (fst <$> managerTrace !! 1%nat) = Some 200
  ∧ statusOf "lr-M" (after 2 managerTrace) = Some PARTIALLY_APPROVED
  ∧ metadataOf "lr-M" (after 2 managerTrace) ≫= requiredApprovalLevels
    = Some [1; 2; 3].
Proof. vm_compute. repeat split; reflexivity. Qed.

(** C4 (what the code does). With no user to approve at the first
    required level, [createLeaveRequest] answers 400 "No approvers found",
    and the request has been saved: it is in the store, [pending]. *)
Theorem request_is_saved_before_the_approver_check :
  leaveRequests storeWithoutLead !! "lr-O" = None
  ∧ findApproversByRoleIds demoEnv orphanRequest.2 ["role-team-lead"]
      (Some "Engineering") = Some []
  ∧ orphanRequest.1 = {| code := 400; body := NoApproversFound |}
  ∧ statusOf "lr-O" orphanRequest.2 = Some PENDING
  ∧ leaveRequests orphanRequest.2 ≠ leaveRequests storeWithoutLead.
Proof.
  split; [by vm_compute |]. split; [by vm_compute |].
  split; [by vm_compute |]. split; [by vm_compute |].
  intros Heq.
  assert (H : leaveRequests orphanRequest.2 !! "lr-O"
              = leaveRequests storeWithoutLead !! "lr-O") by by rewrite Heq.
  vm_compute in H. discriminate.
Qed.

(** C6 (what the code does). The request approved in December 2025 adds
    two days to [used] on the row of 2025; its cancellation in January
    2026 subtracts them from the row of 2026, whose [used] becomes
    negative. *)
Theorem cancellation_drives_used_below_zero :
  (code ∘ fst <$> newYearTrace) = [201; 200; 200]
  ∧ statusOf "lr-N" (after 2 newYearTrace) = Some APPROVED
  ∧ usedAt ("u-emp", "lt-annual", 2025) (after 2 newYearTrace) = Some 20
  ∧ usedAt ("u-emp", "lt-annual", 2026) (after 2 newYearTrace) = Some 0
  ∧ statusOf "lr-N" (after 3 newYearTrace) = Some CANCELLED
  ∧ usedAt ("u-emp", "lt-annual", 2026) (after 3 newYearTrace) = Some (-20).
Proof. vm_compute. repeat split; reflexivity. Qed.



(** ** The theorems at the example stores *)

Lemma asksFor_approve : asksFor approve APPROVED.
Proof. exists "approved". split; reflexivity. Defined.

Lemma asksFor_cancel : asksFor cancel CANCELLED.
Proof. exists "cancelled". split; reflexivity. Defined.

Lemma second_request_has_no_overlap :
  ¬ hasOverlap "lr-B" (stored "lr-B" (after 4 overlapTrace))
      (after 4 overlapTrace).
Proof.
  intros H. apply overlapping_hasOverlap in H. vm_compute in H. discriminate.
Defined.




(** C9, at an example: the manager sets the approved second request to
    [cancelled] through the status update, and [used] stays at three
    days. *)
Lemma cancel_by_status_update_keeps_balances_witness :
  let st := beforeLastApproval in
  let lr := stored "lr-B" st in
  let out := updateLeaveRequestStatus demoEnv feb2 "lr-B" cancel "u-mgr" st in
  (asksFor cancel CANCELLED
   ∧ leaveRequests st !! "lr-B" = Some lr
   ∧ status lr = APPROVED
   ∧ users st !! "u-mgr" = Some (userOf "u-mgr")
   ∧ users st !! userId lr = Some (userOf "u-emp")
   ∧ isAuthorized (isApproverAuthorized demoEnv st "u-mgr" (userId lr)) = true)
  ∧ leaveBalances out.2 = leaveBalances st
  ∧ code out.1 = 200
  ∧ statusOf "lr-B" out.2 = Some CANCELLED
  ∧ usedAt ("u-emp", "lt-annual", 2026) out.2 = Some 30
  ∧ usedAt ("u-emp", "lt-annual", 2026)
      (cancelLeaveRequest feb2 "lr-B" "u-emp" st).2 = Some 0.
Proof.
  intros st lr out.
  assert (H1 : leaveRequests st !! "lr-B" = Some lr) by by vm_compute.
  assert (H2 : status lr = APPROVED) by by vm_compute.
  assert (H3 : users st !! "u-mgr" = Some (userOf "u-mgr")) by by vm_compute.
  assert (H4 : users st !! userId lr = Some (userOf "u-emp")) by by vm_compute.
  assert (H5 : isAuthorized
                 (isApproverAuthorized demoEnv st "u-mgr" (userId lr)) = true)
    by by vm_compute.
  assert (H2' : status lr ≠ CANCELLED) by by rewrite H2.
  destruct (cancel_by_status_update_keeps_balances demoEnv feb2 "lr-B" cancel
              "u-mgr" st asksFor_cancel) as [Hbal Hok].
  destruct (Hok lr (userOf "u-mgr") (userOf "u-emp") H1 H2' H3 H4 (or_introl H5))
    as (Hcode & Hstatus & Hcancel).
  split; [repeat split; first [assumption | exact asksFor_cancel] |].
  split; [exact Hbal |]. split; [exact Hcode |]. split; [exact Hstatus |].
  split; [unfold usedAt, out; rewrite Hbal; by vm_compute |].
  assert (Hu : userId lr = "u-emp") by by vm_compute.
  rewrite Hu in Hcancel. unfold usedAt.
  assert (Hkey : currentYearKey feb2 lr = ("u-emp", "lt-annual", 2026))
    by by vm_compute.
  rewrite Hkey in Hcancel. rewrite (Hcancel H2) by by vm_compute.
  by vm_compute.
Defined.


End LeaveRequestFacts.

(** * Further properties of the workflow service *)

Module WorkflowServiceFacts.
Import ApprovalWorkflowService ApprovalWorkflowQueries WorkflowCatalog
       WorkflowCatalogFacts.

Lemma findById_fresh i (ws : list ApprovalWorkflow) :
  i ∉ (wfId <$> ws) → findById i ws = None.
Proof.
  intros Hfresh. unfold findById.
  destruct (List.find _ ws) as [w |] eqn:Hf; [| done].
  apply find_some in Hf as [Hin Hid]. apply bool_decide_eq_true in Hid.
  exfalso. apply Hfresh. rewrite <- Hid.
  apply list_elem_of_fmap_2. by apply list_elem_of_In.
Qed.

Lemma findById_app i (ws1 ws2 : list ApprovalWorkflow) :
  findById i (ws1 ++ ws2)
  = match findById i ws1 with
    | Some w => Some w
    | None => findById i ws2
    end.
Proof.
  unfold findById. induction ws1 as [| a t IH]; [done |].
  simpl. by destruct (bool_decide _).
Qed.

Lemma findById_elem (ws : list ApprovalWorkflow) w :
  NoDup (wfId <$> ws) → w ∈ ws → findById (wfId w) ws = Some w.
Proof.
  intros Hnd Hin.
  destruct (findById (wfId w) ws) as [w' |] eqn:Hf.
  - apply findById_spec in Hf as [Hin' Hid]. f_equal.
    by apply (same_id_same_row ws).
  - exfalso. unfold findById in Hf.
    apply list_elem_of_In in Hin.
    pose proof (find_none _ _ Hf w Hin) as Hw. simpl in Hw.
    by rewrite bool_decide_eq_true_2 in Hw.
Qed.

Lemma filter_keep_all {A} (f : A → bool) (l : list A) :
  (∀ x, x ∈ l → f x = true) → List.filter f l = l.
Proof.
  induction l as [| a t IH]; intros H; [done |]. simpl.
  rewrite H by (apply elem_of_cons; by left).
  f_equal. apply IH. intros x Hx. apply H. apply elem_of_cons. by right.
Qed.

Lemma findById_after_delete i j (ws : list ApprovalWorkflow) :
  j ≠ i →
  findById j (List.filter (λ x, negb (bool_decide (wfId x = i))) ws)
  = findById j ws.
Proof.
  intros Hj. unfold findById. induction ws as [| a t IH]; [done |]. simpl.
  case_bool_decide as Ha; simpl.
  - by rewrite bool_decide_eq_false_2 by congruence.
  - by rewrite IH.
Qed.

(** A workflow that has been created can be read back under the
    identifier it was given, with the columns that were supplied and
    [isActive] defaulting to true; every other identifier reads as
    before. *)
Theorem created_workflow_is_read_back newId d ws w ws' :
  newId ∉ (wfId <$> ws) →
  createApprovalWorkflow newId d ws = Ok (w, ws') →
  getApprovalWorkflowById newId ws' = Ok w
  ∧ wfId w = newId ∧ wfName w = nName d
  ∧ minDays w = nMinDays d ∧ maxDays w = nMaxDays d
  ∧ approvalLevels w = nApprovalLevels d
  ∧ isActive w = default true (nIsActive d)
  ∧ (∀ i, i ≠ newId →
          getApprovalWorkflowById i ws' = getApprovalWorkflowById i ws)
  ∧ findByName (nName d) ws = None.
Proof.
  intros Hfresh Hc. unfold createApprovalWorkflow in Hc.
  destruct (findByName (nName d) ws) eqn:Hname; [discriminate |].
  destruct (0 <? _); [discriminate |]. injection Hc as <- <-.
  unfold getApprovalWorkflowById.
  split.
  { rewrite findById_app, (findById_fresh _ _ Hfresh). unfold findById. simpl.
    by rewrite bool_decide_eq_true_2. }
  repeat (split; [done |]). split; [| done].
  intros i Hi. rewrite findById_app.
  destruct (findById i ws); [done |]. unfold findById. simpl.
  by rewrite bool_decide_eq_false_2.
Qed.

(** Deleting a workflow: an unknown identifier throws "not found"; after
    a successful deletion the identifier is no longer found, every other
    identifier reads as before, and the table has one row less. *)
Theorem deleted_workflow_is_gone i ws :
  NoDup (wfId <$> ws) →
  (i ∉ (wfId <$> ws) → deleteApprovalWorkflow i ws = Throw NotFound)
  ∧ ∀ ws', deleteApprovalWorkflow i ws = Ok ws' →
      getApprovalWorkflowById i ws' = Throw NotFound
      ∧ (∀ j, j ≠ i →
              getApprovalWorkflowById j ws' = getApprovalWorkflowById j ws)
      ∧ length ws = S (length ws').
Proof.
  intros Hnd. split.
  { intros Hfresh. unfold deleteApprovalWorkflow.
    by rewrite (findById_fresh _ _ Hfresh). }
  intros ws' Hd. unfold deleteApprovalWorkflow in Hd.
  destruct (findById i ws) as [w |] eqn:Hf; [| discriminate].
  injection Hd as <-. apply findById_spec in Hf as [Hin Hid]. rewrite Hid.
  assert (Hi : i ∈ wfId <$> ws).
  { rewrite <- Hid. by apply list_elem_of_fmap_2. }
  unfold getApprovalWorkflowById, findById. clear w Hin Hid.
  split; [| split].
  - destruct (List.find _ (List.filter _ ws)) as [x |] eqn:Hx; [| done].
    apply find_some in Hx as [Hx Hxi]. apply filter_In in Hx as [_ Hx].
    apply bool_decide_eq_true in Hxi. by rewrite bool_decide_eq_true_2 in Hx.
  - intros j Hj. fold (findById j ws).
    by rewrite <- (findById_after_delete i j ws Hj).
  - clear -Hnd Hi. induction ws as [| a t IH].
    + by apply elem_of_nil in Hi.
    + rewrite fmap_cons in Hnd, Hi. apply NoDup_cons in Hnd as [Ha Hnd].
      simpl. case_bool_decide as Hai; simpl.
      * subst i. f_equal. symmetry. f_equal. apply filter_keep_all.
        intros x Hx. apply negb_true_iff, bool_decide_eq_false.
        intros Heq. apply Ha. rewrite <- Heq. by apply list_elem_of_fmap_2.
      * f_equal. apply IH; [done |].
        apply elem_of_cons in Hi as [Hi | Hi]; [congruence | done].
Qed.

(** Creating a workflow and deleting it again gives back the table as it
    was. *)
Theorem create_then_delete_restores newId d ws w ws' :
  newId ∉ (wfId <$> ws) →
  createApprovalWorkflow newId d ws = Ok (w, ws') →
  deleteApprovalWorkflow newId ws' = Ok ws.
Proof.
  intros Hfresh Hc. unfold createApprovalWorkflow in Hc.
  destruct (findByName _ _); [discriminate |].
  destruct (0 <? _); [discriminate |]. injection Hc as <- <-.
  unfold deleteApprovalWorkflow.
  rewrite findById_app, (findById_fresh _ _ Hfresh). unfold findById. simpl.
  rewrite bool_decide_eq_true_2 by done. f_equal.
  rewrite List.filter_app. simpl. rewrite bool_decide_eq_true_2 by done.
  simpl. rewrite app_nil_r. apply filter_keep_all.
  intros x Hx. apply negb_true_iff, bool_decide_eq_false.
  intros Heq. apply Hfresh. rewrite <- Heq. by apply list_elem_of_fmap_2.
Qed.

Lemma saveRow_same (ws : list ApprovalWorkflow) w :
  NoDup (wfId <$> ws) → w ∈ ws → saveRow w ws = ws.
Proof.
  intros Hnd Hin. unfold saveRow.
  rewrite <- (map_id ws) at 2. apply map_ext_in. intros x Hx.
  apply list_elem_of_In in Hx. case_bool_decide as Heq; [| done].
  symmetry. by apply (same_id_same_row ws).
Qed.

(** An update that supplies no column, or only values the workflow
    already has, succeeds and changes nothing. *)
Theorem update_with_same_values_is_identity i d ws w0 :
  NoDup (wfId <$> ws) →
  findById i ws = Some w0 →
  merge w0 d = w0 →
  updateApprovalWorkflow i d ws = Ok (w0, ws).
Proof.
  intros Hnd Hf Hm. unfold updateApprovalWorkflow. rewrite Hf.
  assert (Hname : default (wfName w0) (dName d) = wfName w0)
    by (by rewrite <- Hm at 2).
  assert (Hmin : default (minDays w0) (dMinDays d) = minDays w0)
    by (by rewrite <- Hm at 2).
  assert (Hmax : default (maxDays w0) (dMaxDays d) = maxDays w0)
    by (by rewrite <- Hm at 2).
  assert (Hnt : nameTaken d w0 ws = false).
  { unfold nameTaken. destruct (dName d) as [n |]; [| done]. simpl in Hname.
    subst n. rewrite (bool_decide_eq_true_2 (wfName w0 = wfName w0)) by done.
    by rewrite andb_false_r. }
  assert (Hch : changes (dMinDays d) (minDays w0)
                || changes (dMaxDays d) (maxDays w0) = false).
  { unfold changes.
    destruct (dMinDays d) as [a |], (dMaxDays d) as [b |]; simpl in *; subst;
      rewrite ?bool_decide_eq_true_2 by done; done. }
  rewrite Hnt, Hch. simpl. rewrite Hm. f_equal. f_equal.
  apply findById_spec in Hf as [Hin _]. by apply saveRow_same.
Qed.

(** ** The workflow for a duration *)

Lemma covering_rows_coincide ws w1 w2 days :
  catalogInvariant ws → w1 ∈ ws → w2 ∈ ws →
  minDays w1 <= days <= maxDays w1 → minDays w2 <= days <= maxDays w2 →
  w1 = w2.
Proof.
  intros [Hnd Hdis] H1 H2 Hc1 Hc2.
  destruct (decide (wfId w1 = wfId w2)) as [Heq | Hne].
  - by apply (same_id_same_row ws).
  - exfalso. apply (Hdis w1 w2 H1 H2 Hne). by exists days.
Qed.

Lemma rangeQuery_point days w :
  rangeQuery days days w = true ↔ minDays w <= days <= maxDays w.
Proof.
  unfold rangeQuery. rewrite andb_true_iff, Z.leb_le, Z.geb_le. lia.
Qed.

Lemma duration_lookup_spec ws days :
  catalogInvariant ws →
  (∀ w, getApprovalWorkflowForDuration days ws = Ok w ↔
        w ∈ ws ∧ isActive w = true ∧ minDays w <= days <= maxDays w)
  ∧ (getApprovalWorkflowForDuration days ws = Throw NoWorkflowForDuration ↔
     ∀ w, w ∈ ws → isActive w = true → ¬ (minDays w <= days <= maxDays w)).
Proof.
  intros Hinv. unfold getApprovalWorkflowForDuration.
  destruct (List.find _ ws) as [w0 |] eqn:Hf.
  - apply find_some in Hf as [Hin Hp]. apply list_elem_of_In in Hin.
    apply andb_true_iff in Hp as [Hr Ha]. apply rangeQuery_point in Hr.
    split.
    + intros w. split.
      * by intros [= <-].
      * intros (Hw & _ & Hc). f_equal.
        by apply (covering_rows_coincide ws w0 w days).
    + split; [done |]. intros Hnone. exfalso. by apply (Hnone w0).
  - split.
    + intros w. split; [done |]. intros (Hw & Ha & Hc). exfalso.
      apply list_elem_of_In in Hw.
      pose proof (find_none _ _ Hf w Hw) as Hn. simpl in Hn.
      apply rangeQuery_point in Hc. by rewrite Hc, Ha in Hn.
    + split; [| done]. intros _ w Hw Ha Hc.
      apply list_elem_of_In in Hw.
      pose proof (find_none _ _ Hf w Hw) as Hn. simpl in Hn.
      apply rangeQuery_point in Hc. by rewrite Hc, Ha in Hn.
Qed.

(** In a table whose rows have distinct identifiers and disjoint ranges,
    [getApprovalWorkflowForDuration] returns the one active workflow whose
    range contains the duration, wherever it stands in the table, and
    throws exactly when there is none. *)
Theorem workflow_for_duration_is_the_covering_one ws days :
  catalogInvariant ws →
  (∀ w, getApprovalWorkflowForDuration days ws = Ok w ↔
        w ∈ ws ∧ isActive w = true ∧ minDays w <= days <= maxDays w)
  ∧ (getApprovalWorkflowForDuration days ws = Throw NoWorkflowForDuration ↔
     ∀ w, w ∈ ws → isActive w = true → ¬ (minDays w <= days <= maxDays w)).
Proof. apply duration_lookup_spec. Qed.

Import LeaveRequestController.

Lemma insertDesc_perm w l : insertDesc w l ≡ₚ w :: l.
Proof.
  induction l as [| y t IH]; simpl; [done |].
  destruct (minDays y <=? minDays w); [done |].
  rewrite IH. apply Permutation_swap.
Qed.

Lemma elem_of_activeWorkflows st w :
  w ∈ activeWorkflows st ↔ w ∈ approvalWorkflows st ∧ isActive w = true.
Proof.
  unfold activeWorkflows.
  assert (Hperm : foldr insertDesc [] (List.filter isActive (approvalWorkflows st))
                  ≡ₚ List.filter isActive (approvalWorkflows st)).
  { induction (List.filter isActive (approvalWorkflows st)) as [| x t IH];
      simpl; [done |]. rewrite insertDesc_perm. by rewrite IH. }
  rewrite Hperm. rewrite list_elem_of_In, filter_In, <- list_elem_of_In. done.
Qed.

(** The controller looks the workflow of a request up among the active
    workflows sorted by descending [minDays]; the service's
    [getApprovalWorkflowForDuration] takes the first active row of the
    table that covers the duration. On a table with distinct identifiers
    and disjoint ranges the two lookups agree. *)
Theorem controller_and_service_pick_the_same_workflow st days :
  catalogInvariant (approvalWorkflows st) →
  List.find (coversDays days) (activeWorkflows st)
  = match getApprovalWorkflowForDuration days (approvalWorkflows st) with
    | Ok w => Some w
    | Throw _ => None
    end.
Proof.
  intros Hinv.
  destruct (duration_lookup_spec _ days Hinv) as [Hok Hnone].
  assert (Hcov : ∀ w, coversDays days w = true ↔ minDays w <= days <= maxDays w).
  { intros w. unfold coversDays. rewrite andb_true_iff, !Z.leb_le. lia. }
  destruct (List.find _ (activeWorkflows st)) as [w |] eqn:Hf.
  - apply find_some in Hf as [Hin Hc]. apply list_elem_of_In in Hin.
    apply elem_of_activeWorkflows in Hin as [Hin Ha]. apply Hcov in Hc.
    assert (H : getApprovalWorkflowForDuration days (approvalWorkflows st) = Ok w)
      by by apply Hok.
    by rewrite H.
  - destruct (getApprovalWorkflowForDuration _ _) as [w | e] eqn:Hg; [| done].
    destruct (proj1 (Hok w) eq_refl) as (Hin & Ha & Hc). exfalso.
    assert (Hin' : w ∈ activeWorkflows st) by by apply elem_of_activeWorkflows.
    apply list_elem_of_In in Hin'.
    pose proof (find_none _ _ Hf w Hin') as Hn. simpl in Hn.
    apply Hcov in Hc. congruence.
Qed.

(** ** Listing the workflows *)

Lemma insertAsc_perm w l : insertAsc w l ≡ₚ w :: l.
Proof.
  induction l as [| y t IH]; simpl; [done |].
  destruct (minDays w <=? minDays y); [done |].
  rewrite IH. apply Permutation_swap.
Qed.

Lemma listing_perm filterActive ws :
  getAllApprovalWorkflows filterActive ws
  ≡ₚ List.filter (matchesFilter filterActive) ws.
Proof.
  unfold getAllApprovalWorkflows.
  induction (List.filter _ ws) as [| x t IH]; simpl; [done |].
  rewrite insertAsc_perm. by rewrite IH.
Qed.

Lemma insertAsc_sorted w l :
  StronglySorted (λ a b, minDays a <= minDays b) l →
  StronglySorted (λ a b, minDays a <= minDays b) (insertAsc w l).
Proof.
  induction 1 as [| y t Hs IH Hall]; simpl.
  - repeat constructor.
  - destruct (Z.leb_spec (minDays w) (minDays y)) as [Hle | Hgt].
    + constructor; [by constructor |]. constructor; [done |].
      eapply Forall_impl; [exact Hall |]. intros; simpl in *; lia.
    + constructor; [done |].
      rewrite insertAsc_perm. constructor; [lia | done].
Qed.

Lemma listing_sorted filterActive ws :
  StronglySorted (λ a b, minDays a <= minDays b)
    (getAllApprovalWorkflows filterActive ws).
Proof.
  unfold getAllApprovalWorkflows.
  induction (List.filter _ ws) as [| x t IH]; simpl; [constructor |].
  by apply insertAsc_sorted.
Qed.

(** The listing holds exactly the rows that match the filter, each once,
    by ascending [minDays]. When the rows of the table have distinct
    identifiers and disjoint ranges with [minDays <= maxDays], the ranges
    follow one another in the listing: each ends before the next
    begins. *)
Theorem listing_is_ordered_and_disjoint filterActive ws :
  catalogInvariant ws →
  (∀ w, w ∈ ws → minDays w <= maxDays w) →
  getAllApprovalWorkflows filterActive ws
  ≡ₚ List.filter (matchesFilter filterActive) ws
  ∧ StronglySorted (λ a b, maxDays a < minDays b)
      (getAllApprovalWorkflows filterActive ws).
Proof.
  intros [Hnd Hdis] Hwf. split; [apply listing_perm |].
  assert (Hin : ∀ w, w ∈ getAllApprovalWorkflows filterActive ws → w ∈ ws).
  { intros w. rewrite listing_perm, list_elem_of_In, filter_In,
      <- list_elem_of_In. tauto. }
  assert (Hnd' : NoDup (wfId <$> getAllApprovalWorkflows filterActive ws)).
  { rewrite listing_perm. clear -Hnd.
    induction ws as [| a t IH]; [constructor |].
    rewrite fmap_cons in Hnd. apply NoDup_cons in Hnd as [Ha Hnd]. simpl.
    destruct (matchesFilter _ a); [| by apply IH].
    rewrite fmap_cons. apply NoDup_cons. split; [| by apply IH].
    intros Hin. apply Ha.
    apply list_elem_of_fmap in Hin as (y & -> & Hy).
    apply list_elem_of_fmap_2.
    apply list_elem_of_In, filter_In in Hy as [Hy _]. by apply list_elem_of_In. }
  pose proof (listing_sorted filterActive ws) as Hs.
  induction Hs as [| a l Hs IH Hall]; [constructor |].
  rewrite fmap_cons in Hnd'. apply NoDup_cons in Hnd' as [Ha Hnd'].
  constructor.
  - apply IH; [| done]. intros w Hw. apply Hin. apply elem_of_cons. by right.
  - apply Forall_forall. intros b Hb.
    rewrite Forall_forall in Hall. specialize (Hall b Hb). simpl in Hall.
    assert (Ha' : a ∈ ws) by (apply Hin, elem_of_cons; by left).
    assert (Hb' : b ∈ ws) by (apply Hin, elem_of_cons; by right).
    assert (Hne : wfId a ≠ wfId b).
    { intros Heq. apply Ha. rewrite Heq. by apply list_elem_of_fmap_2. }
    destruct (Z.lt_ge_cases (maxDays a) (minDays b)) as [Hlt | Hge]; [done |].
    exfalso. apply (Hdis a b Ha' Hb' Hne). exists (minDays b).
    pose proof (Hwf b Hb'). lia.
Qed.

(** ** The approvers of a level *)

Import ServiceSpec.

Lemma findIndexById_Some i (self : list UserRow) n :
  findIndexById i self = Some n ↔
  ∃ u, self !! n = Some u ∧ uId u = i
       ∧ ∀ j y, self !! j = Some y → (j < n)%nat → uId y ≠ i.
Proof.
  unfold findIndexById. rewrite fmap_Some. split.
  - intros ([n' u] & Hf & ->). apply list_find_Some in Hf. by exists u.
  - intros (u & H). exists (n, u). split; [| done]. by apply list_find_Some.
Qed.

Lemma elem_of_uniqueById (self : list UserRow) u :
  u ∈ uniqueById self ↔
  ∃ n, self !! n = Some u
       ∧ ∀ j y, self !! j = Some y → (j < n)%nat → uId y ≠ uId u.
Proof.
  unfold uniqueById. rewrite list_elem_of_fmap. split.
  - intros ([n u'] & -> & Hin). simpl.
    apply list_elem_of_In, filter_In in Hin as [Hin Hp].
    apply bool_decide_eq_true in Hp. simpl in Hp.
    apply list_elem_of_In, elem_of_lookup_imap_1 in Hin as (i & y & [= -> ->] & Hl).
    apply findIndexById_Some in Hp as (x & Hx & _ & Hmin).
    exists i. split; [done | exact Hmin].
  - intros (n & Hl & Hmin). exists (n, u). split; [done |].
    apply list_elem_of_In, filter_In. split.
    + apply list_elem_of_In. by apply (elem_of_lookup_imap_2 pair).
    + apply bool_decide_eq_true. simpl. apply findIndexById_Some. by exists u.
Qed.

Lemma uniqueById_NoDup (self : list UserRow) : NoDup (uId <$> uniqueById self).
Proof.
  apply NoDup_fmap_2_strong.
  - intros x y Hx Hy Heq.
    apply elem_of_uniqueById in Hx as (i & Hi & Hmi).
    apply elem_of_uniqueById in Hy as (j & Hj & Hmj).
    destruct (Nat.lt_trichotomy i j) as [Hlt | [-> | Hlt]].
    + exfalso. by apply (Hmj i x Hi Hlt).
    + congruence.
    + exfalso. apply (Hmi j y Hj Hlt). by symmetry.
  - unfold uniqueById. apply NoDup_fmap_2_strong.
    + intros [a x] [b y] Hx Hy Heq. simpl in Heq. subst y.
      apply list_elem_of_In, filter_In in Hx as [_ Hx].
      apply list_elem_of_In, filter_In in Hy as [_ Hy].
      apply bool_decide_eq_true in Hx, Hy. simpl in Hx, Hy. congruence.
    + apply NoDup_ListNoDup, List.NoDup_filter, NoDup_ListNoDup.
      apply NoDup_alt. intros a b [n u] Ha Hb.
      apply list_lookup_imap_Some in Ha as (? & _ & [= -> ->]).
      apply list_lookup_imap_Some in Hb as (? & _ & [= -> _]). done.
Qed.

Lemma uniqueById_keeps_ids (self : list UserRow) u :
  u ∈ self → uId u ∈ uId <$> uniqueById self.
Proof.
  intros Hin.
  destruct (list_find_elem_of (λ y, uId y = uId u) self u Hin eq_refl)
    as [[n x] Hf].
  apply list_find_Some in Hf as (Hl & Hid & Hmin).
  rewrite <- Hid. apply list_elem_of_fmap_2.
  apply elem_of_uniqueById. exists n. split; [done |].
  intros j y Hy Hlt. rewrite Hid. by apply (Hmin j y).
Qed.

Lemma elem_of_Listfilter {A} (f : A → bool) (l : list A) x :
  x ∈ List.filter f l ↔ x ∈ l ∧ f x = true.
Proof. by rewrite list_elem_of_In, filter_In, <- list_elem_of_In. Qed.

(** What is left before the duplicates are removed. *)
Lemma candidates_eligible l requesterId departmentId us u :
  let roleUsers :=
    if nonEmpty (roleIds l)
    then List.filter
           (λ u, match uRoleId u with
                 | Some r => includes (roleIds l) r
                 | None => false
                 end && uIsActive u) us
    else [] in
  let inDepartment :=
    match departmentSpecific l, truthy departmentId with
    | true, Some d =>
        List.filter (λ u, bool_decide (uDepartmentId u = Some d)) roleUsers
    | _, _ => roleUsers
    end in
  let withoutRequester :=
    match truthy requesterId with
    | Some r => List.filter (λ u, negb (bool_decide (uId u = r))) inDepartment
    | None => inDepartment
    end in
  u ∈ withoutRequester ↔ eligible l requesterId departmentId us u.
Proof.
  intros roleUsers inDepartment withoutRequester. unfold eligible.
  assert (Hrole : u ∈ roleUsers ↔
            u ∈ us ∧ uIsActive u = true
            ∧ ∃ r, uRoleId u = Some r ∧ r ∈ roleIds l).
  { unfold roleUsers. destruct (roleIds l) as [| r0 rs] eqn:Hr; simpl.
    - split; [by intros H%elem_of_nil |].
      intros (_ & _ & r & _ & H). by apply elem_of_nil in H.
    - rewrite elem_of_Listfilter, andb_true_iff. unfold includes.
      split.
      + intros (Hu & Hm & Ha). destruct (uRoleId u) as [r |]; [| done].
        apply bool_decide_eq_true in Hm. eauto.
      + intros (Hu & Ha & r & Hru & Hin). rewrite Hru.
        split; [done |]. split; [by apply bool_decide_eq_true | done]. }
  assert (Hdep : u ∈ inDepartment ↔
            u ∈ roleUsers
            ∧ ∀ d, departmentSpecific l = true → truthy departmentId = Some d →
                   uDepartmentId u = Some d).
  { unfold inDepartment.
    destruct (departmentSpecific l), (truthy departmentId) as [d |].
    - rewrite elem_of_Listfilter, bool_decide_eq_true. split.
      + intros [Hu Hd]. split; [done |]. by intros ? _ [= <-].
      + intros [Hu Hd]. split; [done |]. by apply Hd.
    - split; [intros Hu; split; [done |]; by intros | tauto].
    - split; [intros Hu; split; [done |]; by intros | tauto].
    - split; [intros Hu; split; [done |]; by intros | tauto]. }
  unfold withoutRequester. destruct (truthy requesterId) as [r |].
  - rewrite elem_of_Listfilter, negb_true_iff, bool_decide_eq_false.
    rewrite Hdep, Hrole. split.
    + intros [[(Hu & Ha & Hr) Hd] Hne]. split_and!; try done.
      by intros ? [= <-].
    + intros (Hu & Ha & Hr & Hne & Hd). split; [by split_and! |].
      by apply Hne.
  - rewrite Hdep, Hrole. split.
    + intros [(Hu & Ha & Hr) Hd]. split_and!; try done.
    + intros (Hu & Ha & Hr & _ & Hd). by split_and!.
Qed.

Lemma approvers_spec l requesterId departmentId us :
  NoDup (uId <$> getApproversForWorkflowLevel l requesterId departmentId us)
  ∧ (∀ u, u ∈ getApproversForWorkflowLevel l requesterId departmentId us →
          eligible l requesterId departmentId us u)
  ∧ (∀ u, eligible l requesterId departmentId us u →
          uId u ∈ uId <$> getApproversForWorkflowLevel l requesterId
                            departmentId us).
Proof.
  unfold getApproversForWorkflowLevel. split; [apply uniqueById_NoDup |].
  split.
  - intros u Hu. apply elem_of_uniqueById in Hu as (n & Hn & _).
    apply list_elem_of_lookup_2 in Hn.
    by apply (candidates_eligible l requesterId departmentId us u).
  - intros u Hu. apply uniqueById_keeps_ids.
    by apply (candidates_eligible l requesterId departmentId us u).
Qed.

(** The approvers returned for a level have pairwise distinct ids; each
    is an active user with one of the level's roles, is not the
    requester, and belongs to the given department when the level is
    department-specific; and no such user is left out. A level without
    [roleIds] has no approver. *)
Theorem approvers_of_a_level_are_the_eligible_users
    l requesterId departmentId us :
  NoDup (uId <$> getApproversForWorkflowLevel l requesterId departmentId us)
  ∧ (∀ u, u ∈ getApproversForWorkflowLevel l requesterId departmentId us →
          eligible l requesterId departmentId us u)
  ∧ (∀ u, eligible l requesterId departmentId us u →
          uId u ∈ uId <$> getApproversForWorkflowLevel l requesterId
                            departmentId us)
  ∧ (roleIds l = [] →
     getApproversForWorkflowLevel l requesterId departmentId us = []).
Proof.
  destruct (approvers_spec l requesterId departmentId us) as (H1 & H2 & H3).
  repeat (split; [done |]).
  intros Hr.
  destruct (getApproversForWorkflowLevel _ _ _ _) as [| u t] eqn:Hout; [done |].
  exfalso. destruct (H2 u) as (_ & _ & (r & _ & Hin) & _).
  { apply elem_of_cons. by left. }
  rewrite Hr in Hin. by apply elem_of_nil in Hin.
Qed.

(** [getApproversForWorkflow] throws "not found" for an unknown workflow;
    otherwise it returns one entry per level of the workflow, in the order
    of its levels and with their numbers, and the requester is in none of
    them. *)
Theorem approvers_of_a_workflow_follow_its_levels
    workflowId requesterId departmentId ws us :
  (findById workflowId ws = None →
   getApproversForWorkflow workflowId requesterId departmentId ws us
   = Throw NotFound)
  ∧ ∀ w, findById workflowId ws = Some w →
      ∃ rs, getApproversForWorkflow workflowId requesterId departmentId ws us
            = Ok rs
            ∧ fst <$> rs = level <$> approvalLevels w
            ∧ ∀ r lv approvers u,
                truthy requesterId = Some r → (lv, approvers) ∈ rs →
                u ∈ approvers → uId u ≠ r.
Proof.
  unfold getApproversForWorkflow, getApprovalWorkflowById. split.
  - by intros ->.
  - intros w ->. eexists. split; [done |]. split.
    + rewrite <- list_fmap_compose. by apply list_fmap_ext.
    + intros r lv approvers u Hr Hin Hu.
      apply list_elem_of_fmap in Hin as (l & [= -> ->] & _).
      destruct (approvers_spec l requesterId departmentId us) as (_ & H2 & _).
      destruct (H2 u Hu) as (_ & _ & _ & Hne & _). by apply Hne.
Qed.

(** ** The start-up refresh *)

Import InitApprovalWorkflows.

Lemma updatedLevels_numbers ls : level <$> updatedLevels ls = level <$> ls.
Proof.
  unfold updatedLevels. apply list_eq. intros i.
  rewrite !list_lookup_fmap, list_lookup_imap.
  destruct (ls !! i) as [l |]; simpl; [| done]. by destruct (i <? 3)%nat.
Qed.

Lemma updatedLevels_idem ls : updatedLevels (updatedLevels ls) = updatedLevels ls.
Proof.
  unfold updatedLevels. apply list_eq. intros i.
  rewrite !list_lookup_imap.
  destruct (ls !! i) as [l |]; simpl; [| done]. by destruct (i <? 3)%nat.
Qed.

Lemma touch_idem w : touch (touch w) = touch w.
Proof. unfold touch, withLevels. simpl. by rewrite updatedLevels_idem. Qed.

Lemma touch_outline w : outline (touch w) = outline w.
Proof. unfold outline, touch. simpl. by rewrite updatedLevels_numbers. Qed.

Lemma needsUpdate_touch w : needsUpdate w = true → needsUpdate (touch w) = true.
Proof.
  unfold needsUpdate, touch. simpl.
  destruct (approvalLevels w) as [| l t]; [done |]. done.
Qed.

Lemma refreshNamed_unfold name ws :
  refreshNamed name ws
  = match findByName name ws with
    | Some w => if needsUpdate w then saveRow (touch w) ws else ws
    | None => ws
    end.
Proof. done. Qed.

Lemma findByName_spec n ws w :
  findByName n ws = Some w → w ∈ ws ∧ wfName w = n.
Proof.
  intros H. apply find_some in H as [Hin Hn].
  split; [by apply list_elem_of_In | by apply bool_decide_eq_true in Hn].
Qed.

Lemma saveRow_outline (ws : list ApprovalWorkflow) w :
  NoDup (wfId <$> ws) → w ∈ ws →
  outline <$> saveRow (touch w) ws = outline <$> ws.
Proof.
  intros Hnd Hin. unfold saveRow. rewrite <- list_fmap_compose.
  apply list_fmap_ext. intros i x Hx. simpl.
  case_bool_decide as Heq; [| done]. rewrite touch_outline.
  f_equal. symmetry. apply (same_id_same_row ws); try done.
  by eapply list_elem_of_lookup_2.
Qed.

Lemma refreshNamed_outline name ws :
  NoDup (wfId <$> ws) →
  outline <$> refreshNamed name ws = outline <$> ws.
Proof.
  intros Hnd. rewrite refreshNamed_unfold.
  destruct (findByName name ws) as [w |] eqn:Hf; [| done].
  destruct (needsUpdate w); [| done].
  apply findByName_spec in Hf as [Hin _]. by apply saveRow_outline.
Qed.

Lemma outline_ids (ws ws' : list ApprovalWorkflow) :
  outline <$> ws' = outline <$> ws → wfId <$> ws' = wfId <$> ws.
Proof.
  intros H.
  assert (Hc : ∀ l : list ApprovalWorkflow,
             wfId <$> l = (λ o, o.1.1.1.1.1.1) <$> (outline <$> l)).
  { intros l. rewrite <- list_fmap_compose. by apply list_fmap_ext. }
  by rewrite (Hc ws'), (Hc ws), H.
Qed.

Lemma initApprovalWorkflows_outline ws :
  NoDup (wfId <$> ws) →
  outline <$> initApprovalWorkflows ws = outline <$> ws.
Proof.
  intros Hnd. unfold initApprovalWorkflows.
  destruct (length ws =? 0)%nat; [done |].
  pose proof (refreshNamed_outline "Standard Approval Workflow" ws Hnd) as H1.
  rewrite refreshNamed_outline; [done |].
  by rewrite (outline_ids _ _ H1).
Qed.

Lemma outline_invariant (ws ws' : list ApprovalWorkflow) :
  outline <$> ws' = outline <$> ws →
  catalogInvariant ws → catalogInvariant ws'.
Proof.
  intros Ho [Hnd Hdis]. split; [by rewrite (outline_ids _ _ Ho) |].
  intros w1 w2 H1 H2 Hne Hint.
  assert (Hback : ∀ w, w ∈ ws' → ∃ v, v ∈ ws ∧ outline v = outline w).
  { intros w Hw. apply (list_elem_of_fmap_2 outline) in Hw.
    rewrite Ho in Hw. apply list_elem_of_fmap in Hw as (v & Hv & Hin). eauto. }
  destruct (Hback w1 H1) as (v1 & Hv1 & Ho1).
  destruct (Hback w2 H2) as (v2 & Hv2 & Ho2).
  unfold outline in Ho1, Ho2. simplify_eq.
  apply (Hdis v1 v2 Hv1 Hv2); [congruence |].
  destruct Hint as (x & Hx1 & Hx2). exists x. split; congruence.
Qed.

(** The refresh run at start-up keeps, row for row, the identifier, name,
    range, active flag and category of every workflow and the numbers of
    its levels; so a table with distinct identifiers and disjoint ranges
    is still one afterwards, and no workflow is added or removed. *)
Theorem startup_refresh_keeps_the_catalog ws :
  catalogInvariant ws →
  outline <$> initApprovalWorkflows ws = outline <$> ws
  ∧ length (initApprovalWorkflows ws) = length ws
  ∧ catalogInvariant (initApprovalWorkflows ws).
Proof.
  intros Hinv. pose proof Hinv as [Hnd _].
  pose proof (initApprovalWorkflows_outline ws Hnd) as Ho.
  split; [done |]. split.
  - by rewrite <- (length_fmap outline), Ho, length_fmap.
  - by apply (outline_invariant ws).
Qed.

Lemma findByName_saveRow_same name (ws : list ApprovalWorkflow) w :
  NoDup (wfId <$> ws) → findByName name ws = Some w →
  findByName name (saveRow (touch w) ws) = Some (touch w).
Proof.
  intros Hnd Hf. unfold findByName, saveRow in *.
  induction ws as [| a t IH]; [done |].
  rewrite fmap_cons in Hnd. apply NoDup_cons in Hnd as [Ha Hnd].
  simpl in *. case_bool_decide as Hn.
  - simplify_eq. rewrite (bool_decide_eq_true_2 (wfId w = wfId w)) by done.
    simpl. by rewrite bool_decide_eq_true_2.
  - assert (Hw : w ∈ t) by (apply find_some in Hf as [Hf _];
                             by apply list_elem_of_In).
    assert (Hid : wfId a ≠ wfId w).
    { intros Heq. apply Ha. rewrite Heq. by apply list_elem_of_fmap_2. }
    rewrite (bool_decide_eq_false_2 (wfId a = wfId w)) by done.
    rewrite bool_decide_eq_false_2 by done. by apply IH.
Qed.

Lemma findByName_saveRow_other name (ws : list ApprovalWorkflow) w :
  NoDup (wfId <$> ws) → w ∈ ws → wfName w ≠ name →
  findByName name (saveRow (touch w) ws) = findByName name ws.
Proof.
  intros Hnd Hw Hn. unfold findByName, saveRow.
  assert (Hall : ∀ x, x ∈ ws → wfId x = wfId w → x = w).
  { intros x Hx Heq. by apply (same_id_same_row ws). }
  clear Hnd Hw. induction ws as [| a t IH]; [done |]. simpl.
  assert (IH' : find (λ w0, bool_decide (wfName w0 = name))
                  (map (λ x, if bool_decide (wfId x = wfId (touch w))
                             then touch w else x) t)
                = find (λ w0, bool_decide (wfName w0 = name)) t).
  { apply IH. intros x Hx. apply Hall. apply elem_of_cons. by right. }
  change (wfId (touch w)) with (wfId w) in *.
  destruct (decide (wfId a = wfId w)) as [Ha | Ha].
  - assert (a = w) by (apply Hall; [apply elem_of_cons; by left | done]).
    subst a. rewrite (bool_decide_eq_true_2 (wfId w = wfId w)) by done.
    change (wfName (touch w)) with (wfName w).
    rewrite !bool_decide_eq_false_2 by done. exact IH'.
  - rewrite (bool_decide_eq_false_2 (wfId a = wfId w)) by done.
    by rewrite IH'.
Qed.

Lemma refreshNamed_settled_id name ws :
  NoDup (wfId <$> ws) → settled name ws → refreshNamed name ws = ws.
Proof.
  intros Hnd Hs. rewrite refreshNamed_unfold.
  destruct (findByName name ws) as [w |] eqn:Hf; [| done].
  destruct (needsUpdate w) eqn:Hn; [| done].
  rewrite (Hs w Hf Hn). apply findByName_spec in Hf as [Hin _].
  by apply saveRow_same.
Qed.

Lemma refreshNamed_settles name ws :
  NoDup (wfId <$> ws) → settled name (refreshNamed name ws).
Proof.
  intros Hnd. rewrite refreshNamed_unfold.
  destruct (findByName name ws) as [w |] eqn:Hf.
  - destruct (needsUpdate w) eqn:Hn.
    + intros x Hx _. rewrite (findByName_saveRow_same _ _ _ Hnd Hf) in Hx.
      injection Hx as <-. apply touch_idem.
    + intros x Hx Hnx. congruence.
  - intros x Hx. congruence.
Qed.

Lemma refreshNamed_keeps_settled name other ws :
  NoDup (wfId <$> ws) → name ≠ other →
  settled name ws → settled name (refreshNamed other ws).
Proof.
  intros Hnd Hne Hs. rewrite refreshNamed_unfold.
  destruct (findByName other ws) as [w |] eqn:Hf; [| done].
  destruct (needsUpdate w); [| done].
  apply findByName_spec in Hf as [Hin Hname].
  intros x Hx. rewrite findByName_saveRow_other in Hx; try done.
  - by apply Hs.
  - congruence.
Qed.

Lemma refreshNamed_ids name ws :
  NoDup (wfId <$> ws) → wfId <$> refreshNamed name ws = wfId <$> ws.
Proof. intros Hnd. apply outline_ids. by apply refreshNamed_outline. Qed.

(** Running the start-up refresh a second time changes nothing. *)
Theorem startup_refresh_is_idempotent ws :
  NoDup (wfId <$> ws) →
  initApprovalWorkflows (initApprovalWorkflows ws) = initApprovalWorkflows ws.
Proof.
  intros Hnd. unfold initApprovalWorkflows.
  destruct (length ws =? 0)%nat eqn:Hlen; [by rewrite Hlen |].
  set (ws1 := refreshNamed "Standard Approval Workflow" ws).
  set (ws2 := refreshNamed "Extended Approval Workflow" ws1).
  assert (Hnd1 : NoDup (wfId <$> ws1)) by (unfold ws1; by rewrite refreshNamed_ids).
  assert (Hnd2 : NoDup (wfId <$> ws2)) by (unfold ws2; by rewrite refreshNamed_ids).
  assert (Hlen2 : (length ws2 =? 0)%nat = false).
  { rewrite <- (length_fmap wfId). unfold ws2, ws1.
    rewrite !refreshNamed_ids by done. by rewrite length_fmap. }
  rewrite Hlen2.
  assert (Hs : settled "Standard Approval Workflow" ws2).
  { apply refreshNamed_keeps_settled; [done | done |].
    by apply refreshNamed_settles. }
  assert (He : settled "Extended Approval Workflow" ws2)
    by by apply refreshNamed_settles.
  rewrite (refreshNamed_settled_id _ ws2 Hnd2 Hs).
  by apply refreshNamed_settled_id.
Qed.

End WorkflowServiceFacts.

(** * Further properties of the leave-request controller *)

Module LeaveRequestMoreFacts.
Import LeaveRequestController LeaveSpec LeaveSpecMore LeaveRequestFacts.

(** ** Answers and what they leave behind *)

Lemma partialApproval_code env now id comments approverId approver
    requestUser lr sorted lvl st :
  let out := partialApproval env now id comments approverId approver
               requestUser lr sorted lvl st in
  (code out.1 = 409 ∧ out.2 = st) ∨ code out.1 = 200 ∨ code out.1 = 500.
Proof. simpl. unfold partialApproval. repeat case_match; simpl; auto. Qed.

Lemma finalizeStatus_code now id s comments approverId approver lr st :
  let out := finalizeStatus now id s comments approverId approver lr st in
  code out.1 = 409 ∨ code out.1 = 200.
Proof. simpl. unfold finalizeStatus. repeat case_match; simpl; auto. Qed.

Lemma approveAtLevel_refused env now id comments approverId approver
    requestUser lr st r :
  approveAtLevel env now id comments approverId approver requestUser lr st
  = Respond r →
  refused r.1 → r.2 = st.
Proof.
  unfold approveAtLevel, refused.
  repeat case_match; intros; simplify_eq; try done.
  destruct (partialApproval_code env now id comments approverId approver
              requestUser lr (sortLevels (approvalLevels a)) z st)
    as [[_ ?] | [? | ?]]; [done | lia | lia].
Qed.

Lemma update_refused env now id payload approverId st :
  refused (updateLeaveRequestStatus env now id payload approverId st).1 →
  (updateLeaveRequestStatus env now id payload approverId st).2 = st.
Proof.
  unfold updateLeaveRequestStatus.
  destruct (truthy _); [| done].
  destruct (parseStatus _) as [target |]; [| done].
  destruct (leaveRequests st !! id) as [lr |]; [| done].
  case_bool_decide; [done |].
  destruct (_ && _ && _); [done |].
  destruct (users st !! approverId) as [approver |]; [| done].
  destruct (users st !! userId lr) as [requestUser |]; [| done].
  destruct (negb _ && negb _); [done |].
  assert (Hfin : ∀ lr', refused (finalizeStatus now id target (pComments payload)
                                   approverId approver lr' st).1 →
                        (finalizeStatus now id target (pComments payload)
                           approverId approver lr' st).2 = st).
  { intros lr' Hr. unfold refused in Hr.
    destruct (finalizeStatus_code now id target (pComments payload) approverId
                approver lr' st); lia. }
  case_bool_decide; [| apply Hfin].
  destruct (approveAtLevel _ _ _ _ _ _ _ _ _) as [r | lr'] eqn:Hstep.
  - exact (approveAtLevel_refused _ _ _ _ _ _ _ _ _ _ Hstep).
  - apply Hfin.
Qed.

(** A call that is refused changes nothing: when
    [updateLeaveRequestStatus] answers 400, 403 or 404, and when
    [cancelLeaveRequest], [deleteLeaveRequest],
    [approveDeleteLeaveRequest] or [rejectDeleteLeaveRequest] answers
    anything but 200, the store after the call is the store before. *)
Theorem refused_actions_change_nothing
    env now id payload comments actor actorRole st :
  (refused (updateLeaveRequestStatus env now id payload actor st).1 →
   (updateLeaveRequestStatus env now id payload actor st).2 = st)
  ∧ (code (cancelLeaveRequest now id actor st).1 ≠ 200 →
     (cancelLeaveRequest now id actor st).2 = st)
  ∧ (code (deleteLeaveRequest now id actor actorRole st).1 ≠ 200 →
     (deleteLeaveRequest now id actor actorRole st).2 = st)
  ∧ (code (approveDeleteLeaveRequest id comments actor st).1 ≠ 200 →
     (approveDeleteLeaveRequest id comments actor st).2 = st)
  ∧ (code (rejectDeleteLeaveRequest now id comments actor st).1 ≠ 200 →
     (rejectDeleteLeaveRequest now id comments actor st).2 = st).
Proof.
  split; [apply update_refused |]. split; [| split; [| split]].
  - unfold cancelLeaveRequest. repeat case_match; simpl; done.
  - unfold deleteLeaveRequest. repeat case_match; simpl; done.
  - unfold approveDeleteLeaveRequest. repeat case_match; simpl; done.
  - unfold rejectDeleteLeaveRequest. repeat case_match; simpl; done.
Qed.

Lemma sameElsewhere_refl id st : sameElsewhere id st st.
Proof. by repeat split. Qed.

Lemma sameElsewhere_save id lr st st0 :
  sameElsewhere id st st0 → sameElsewhere id (saveLeaveRequest id lr st) st0.
Proof.
  intros (H1 & H2 & H3 & H4). repeat split; try done.
  intros k Hk. simpl. rewrite lookup_insert_ne by done. by apply H1.
Qed.

Lemma sameElsewhere_remove id st st0 :
  sameElsewhere id st st0 → sameElsewhere id (removeLeaveRequest id st) st0.
Proof.
  intros (H1 & H2 & H3 & H4). repeat split; try done.
  intros k Hk. simpl. rewrite lookup_delete_ne by done. by apply H1.
Qed.

Lemma sameElsewhere_balance id k b st st0 :
  sameElsewhere id st st0 → sameElsewhere id (saveLeaveBalance k b st) st0.
Proof. intros (H1 & H2 & H3 & H4). by repeat split. Qed.

Lemma sameElsewhere_trans id st1 st2 st3 :
  sameElsewhere id st1 st2 → sameElsewhere id st2 st3 → sameElsewhere id st1 st3.
Proof.
  intros (H1 & H2 & H3 & H4) (G1 & G2 & G3 & G4).
  split; [| repeat split; congruence].
  intros k Hk. rewrite H1 by done. by apply G1.
Qed.

Lemma sameElsewhere_revert id lr st : sameElsewhere id (revertBalance lr st) st.
Proof.
  unfold revertBalance. destruct (_ !! _); [| apply sameElsewhere_refl].
  apply sameElsewhere_balance, sameElsewhere_refl.
Qed.

Create HintDb frame.
#[local] Hint Resolve sameElsewhere_refl sameElsewhere_save
  sameElsewhere_remove sameElsewhere_balance sameElsewhere_revert : frame.

Lemma partialApproval_elsewhere env now id comments approverId approver
    requestUser lr sorted lvl st :
  sameElsewhere id
    (partialApproval env now id comments approverId approver requestUser lr
       sorted lvl st).2 st.
Proof. unfold partialApproval. repeat case_match; simpl; by auto with frame. Qed.

Lemma finalizeStatus_elsewhere now id s comments approverId approver lr st :
  sameElsewhere id
    (finalizeStatus now id s comments approverId approver lr st).2 st.
Proof. unfold finalizeStatus. repeat case_match; simpl; by auto with frame. Qed.

Lemma update_elsewhere env now id payload approverId st :
  sameElsewhere id
    (updateLeaveRequestStatus env now id payload approverId st).2 st.
Proof.
  unfold updateLeaveRequestStatus.
  destruct (truthy _); [| by auto with frame].
  destruct (parseStatus _) as [target |]; [| by auto with frame].
  destruct (leaveRequests st !! id) as [lr |]; [| by auto with frame].
  case_bool_decide; [by auto with frame |].
  destruct (_ && _ && _); [by auto with frame |].
  destruct (users st !! approverId) as [approver |]; [| by auto with frame].
  destruct (users st !! userId lr) as [requestUser |]; [| by auto with frame].
  destruct (negb _ && negb _); [by auto with frame |].
  case_bool_decide; [| apply finalizeStatus_elsewhere].
  destruct (approveAtLevel _ _ _ _ _ _ _ _ _) as [r | lr'] eqn:Hstep;
    [| apply finalizeStatus_elsewhere].
  unfold approveAtLevel in Hstep.
  repeat case_match; simplify_eq;
    first [ apply partialApproval_elsewhere | by auto with frame ].
Qed.

(** An action on one request never alters another request, a user, a
    leave type or a workflow: after each of the six handlers, every other
    row of [leave_requests] and the other three tables are as before. *)
Theorem actions_touch_one_request
    env now id payload comments actor actorRole create st :
  sameElsewhere id (updateLeaveRequestStatus env now id payload actor st).2 st
  ∧ sameElsewhere id (cancelLeaveRequest now id actor st).2 st
  ∧ sameElsewhere id (deleteLeaveRequest now id actor actorRole st).2 st
  ∧ sameElsewhere id (approveDeleteLeaveRequest id comments actor st).2 st
  ∧ sameElsewhere id (rejectDeleteLeaveRequest now id comments actor st).2 st
  ∧ sameElsewhere id (createLeaveRequest env now id actor create st).2 st.
Proof.
  split; [apply update_elsewhere |]. split; [| split; [| split; [| split]]].
  - unfold cancelLeaveRequest. repeat case_match; simpl; by auto with frame.
  - unfold deleteLeaveRequest.
    repeat case_match; simpl;
      by auto with frame.
  - unfold approveDeleteLeaveRequest.
    repeat case_match; simpl;
      by auto with frame.
  - unfold rejectDeleteLeaveRequest. repeat case_match; simpl; by auto with frame.
  - unfold createLeaveRequest. repeat case_match; simpl; by auto with frame.
Qed.

(** ** Requests that have been decided *)

Lemma settled_takes_only_cancellation env now id payload actor st lr s :
  leaveRequests st !! id = Some lr →
  status lr ≠ PENDING →
  status lr ≠ PARTIALLY_APPROVED →
  asksFor payload s →
  s ≠ CANCELLED →
  updateLeaveRequestStatus env now id payload actor st
  = respond 400 (if bool_decide (status lr = s) then AlreadyInStatus s
                 else OnlyPendingOrPartial) st.
Proof.
  intros Hlr Hp Hpa (text & Htext & Hparse) Hs.
  unfold updateLeaveRequestStatus. rewrite Htext, Hparse, Hlr.
  case_bool_decide; [done |].
  by rewrite !bool_decide_eq_false_2 by done.
Qed.

(** A request that is neither [pending] nor [partially_approved] takes no
    status but [cancelled]: asking for any other status is answered 400
    and the store stays as it was. *)
Theorem settled_request_takes_only_cancellation
    env now id payload actor st lr s :
  leaveRequests st !! id = Some lr →
  status lr ≠ PENDING →
  status lr ≠ PARTIALLY_APPROVED →
  asksFor payload s →
  s ≠ CANCELLED →
  updateLeaveRequestStatus env now id payload actor st
  = respond 400 (if bool_decide (status lr = s) then AlreadyInStatus s
                 else OnlyPendingOrPartial) st.
Proof. apply settled_takes_only_cancellation. Qed.

Lemma update_on_cancelled env now id payload actor st lr :
  leaveRequests st !! id = Some lr →
  status lr = CANCELLED →
  code (updateLeaveRequestStatus env now id payload actor st).1 = 400
  ∧ (updateLeaveRequestStatus env now id payload actor st).2 = st.
Proof.
  intros Hlr Hst. unfold updateLeaveRequestStatus.
  destruct (truthy _); [| done].
  destruct (parseStatus _) as [target |]; [| done].
  rewrite Hlr, Hst.
  case_bool_decide as Hsame; [done |].
  rewrite !bool_decide_eq_false_2 by congruence. done.
Qed.

(** Cancellation is final for the two cancelling actions: once
    [cancelLeaveRequest] has answered 200 the request is stored as
    [cancelled] with its dates, days and metadata as before; every later
    status update is answered 400 and every later [cancelLeaveRequest]
    400 or 403, and none of them changes the store. *)
Theorem cancelled_request_stays_cancelled
    env now later id actor actor' payload st :
  code (cancelLeaveRequest now id actor st).1 = 200 →
  let st' := (cancelLeaveRequest now id actor st).2 in
  (∃ lr lr', leaveRequests st !! id = Some lr
             ∧ leaveRequests st' !! id = Some lr'
             ∧ status lr' = CANCELLED ∧ sameRequest lr' lr
             ∧ metadata lr' = metadata lr)
  ∧ (code (updateLeaveRequestStatus env later id payload actor' st').1 = 400
     ∧ (updateLeaveRequestStatus env later id payload actor' st').2 = st')
  ∧ ((code (cancelLeaveRequest later id actor' st').1 = 400
      ∨ code (cancelLeaveRequest later id actor' st').1 = 403)
     ∧ (cancelLeaveRequest later id actor' st').2 = st').
Proof.
  intros Hok st'.
  assert (Hst' : ∃ lr, leaveRequests st !! id = Some lr
                       ∧ leaveRequests st' !! id = Some (setStatus CANCELLED lr)).
  { subst st'. revert Hok. unfold cancelLeaveRequest.
    destruct (leaveRequests st !! id) as [lr |]; [| done].
    intros Hok. exists lr. split; [done |].
    repeat case_match; simpl in *; try done; by rewrite lookup_insert_eq. }
  destruct Hst' as (lr & Hlr & Hlr').
  split; [| split].
  - exists lr, (setStatus CANCELLED lr). by repeat split.
  - by apply (update_on_cancelled _ _ _ _ _ _ _ Hlr').
  - unfold cancelLeaveRequest. rewrite Hlr'. simpl.
    case_bool_decide; simpl; auto.
Qed.

(** ** The approval level and the approval history *)

Lemma metadataOf_save id lr st :
  metadataOf id (saveLeaveRequest id lr st) = metadata lr.
Proof. unfold metadataOf. simpl. by rewrite lookup_insert_eq. Qed.

Lemma metadataOf_balance id k b st :
  metadataOf id (saveLeaveBalance k b st) = metadataOf id st.
Proof. done. Qed.

Lemma finalizeStatus_level now id s comments approverId approver lr st :
  metadataOf id (finalizeStatus now id s comments approverId approver lr st).2
    ≫= currentApprovalLevel
  = metadata lr ≫= currentApprovalLevel.
Proof.
  unfold finalizeStatus.
  repeat case_match; simpl;
    rewrite ?metadataOf_balance, metadataOf_save; simpl; simplify_eq; done.
Qed.

Lemma partialApproval_level env now id comments approverId approver
    requestUser lr sorted lvl st :
  let out := partialApproval env now id comments approverId approver
               requestUser lr sorted lvl st in
  out.2 = st
  ∨ metadataOf id out.2 ≫= currentApprovalLevel = Some lvl.
Proof.
  simpl. unfold partialApproval.
  repeat case_match; simpl; rewrite ?metadataOf_save; simpl; auto.
Qed.

Lemma partialApproval_answer env now id comments approverId approver
    requestUser lr sorted lvl st l lr' :
  body (partialApproval env now id comments approverId approver requestUser
          lr sorted lvl st).1 = ApprovedAtLevel l lr' →
  l = lvl.
Proof. unfold partialApproval. repeat case_match; simpl; congruence. Qed.

Lemma finalizeStatus_answer now id s comments approverId approver lr st l lr' :
  body (finalizeStatus now id s comments approverId approver lr st).1
  ≠ ApprovedAtLevel l lr'.
Proof. unfold finalizeStatus. repeat case_match; simpl; congruence. Qed.

Lemma findApproverLevel_next lr approver sorted md c lvl :
  status lr = PARTIALLY_APPROVED →
  metadata lr = Some md →
  currentApprovalLevel md = Some c →
  findApproverLevel lr approver sorted = Some lvl →
  lvl = c + 1.
Proof.
  unfold findApproverLevel. intros -> -> ->.
  repeat case_match; congruence.
Qed.

(** Levels are taken one at a time. For a [partially_approved] request
    whose [currentApprovalLevel] is [c], whatever status update is
    attempted and by whomever, the stored [currentApprovalLevel] is
    afterwards [c] or [c + 1]; and an answer "approved at level [l]" has
    [l = c + 1]. *)
Theorem approval_level_advances_by_one
    env now id payload actor st lr md c :
  leaveRequests st !! id = Some lr →
  status lr = PARTIALLY_APPROVED →
  metadata lr = Some md →
  currentApprovalLevel md = Some c →
  let out := updateLeaveRequestStatus env now id payload actor st in
  (metadataOf id out.2 ≫= currentApprovalLevel = Some c
   ∨ metadataOf id out.2 ≫= currentApprovalLevel = Some (c + 1))
  ∧ ∀ l lr', body out.1 = ApprovedAtLevel l lr' → l = c + 1.
Proof.
  intros Hlr Hst Hmd Hc. simpl.
  assert (Hsame : metadataOf id st ≫= currentApprovalLevel = Some c).
  { unfold metadataOf. rewrite Hlr. simpl. rewrite Hmd. done. }
  assert (Hfin : ∀ s lr0 approver,
             metadata lr0 ≫= currentApprovalLevel = Some c →
             let out := finalizeStatus now id s (pComments payload) actor
                          approver lr0 st in
             (metadataOf id out.2 ≫= currentApprovalLevel = Some c
              ∨ metadataOf id out.2 ≫= currentApprovalLevel = Some (c + 1))
             ∧ ∀ l lr', body out.1 = ApprovedAtLevel l lr' → l = c + 1).
  { intros s lr0 approver H0. simpl. split.
    - left. by rewrite finalizeStatus_level.
    - intros l lr' Hb. by apply finalizeStatus_answer in Hb. }
  assert (Hlr0 : metadata lr ≫= currentApprovalLevel = Some c).
  { by rewrite Hmd. }
  unfold updateLeaveRequestStatus.
  destruct (truthy _); [| by (simpl; split; [left |])].
  destruct (parseStatus _) as [target |]; [| by (simpl; split; [left |])].
  rewrite Hlr.
  case_bool_decide; [by (simpl; split; [left |]) |].
  destruct (_ && _ && _); [by (simpl; split; [left |]) |].
  destruct (users st !! actor) as [approver |]; [| by (simpl; split; [left |])].
  destruct (users st !! userId lr) as [requestUser |]; [| by (simpl; split; [left |])].
  destruct (negb _ && negb _); [by (simpl; split; [left |]) |].
  case_bool_decide; [| by apply Hfin].
  destruct (approveAtLevel _ _ _ _ _ _ _ _ _) as [r | lr0] eqn:Hstep.
  - unfold approveAtLevel in Hstep.
    destruct (findApplicableWorkflow _ _) as [w |]; [| done].
    destruct (findApproverLevel _ _ _) as [lvl |] eqn:Hlvl;
      [| injection Hstep as <-; by (simpl; split; [left |])].
    apply (findApproverLevel_next _ _ _ _ _ _ Hst Hmd Hc) in Hlvl as ->.
    destruct (last _); [| injection Hstep as <-; by (simpl; split; [left |])].
    destruct (_ <? _); [| done].
    injection Hstep as <-. split.
    + destruct (partialApproval_level env now id (pComments payload) actor
                  approver requestUser lr
                  (sortLevels (approvalLevels w)) (c + 1) st) as [-> | ->];
        auto.
    + intros l' lr'. apply partialApproval_answer.
  - apply Hfin.
    unfold approveAtLevel in Hstep.
    repeat case_match; simplify_eq; try done.
    simpl. by rewrite Hmd.
Qed.

Lemma historyOf_save id lr st :
  historyOf id (saveLeaveRequest id lr st)
  = default [] (metadata lr ≫= approvalHistory).
Proof. unfold historyOf. by rewrite metadataOf_save. Qed.

Lemma historyOf_balance id k b st :
  historyOf id (saveLeaveBalance k b st) = historyOf id st.
Proof. done. Qed.

Lemma historyOf_stored id lr st :
  leaveRequests st !! id = Some lr →
  historyOf id st = default [] (metadata lr ≫= approvalHistory).
Proof. intros Hlr. unfold historyOf, metadataOf. by rewrite Hlr. Qed.

Lemma appended_none actor now n h : appended actor now n h h.
Proof.
  exists []. rewrite app_nil_r. split; [done |]. split; [simpl; lia |].
  intros e He. by apply elem_of_nil in He.
Qed.

Lemma appended_one actor approver now comments lvl n h :
  appended actor now (S n) h
    (h ++ [historyEntry lvl actor approver now comments]).
Proof.
  eexists. split; [done |]. split; [simpl; lia |].
  intros e He. apply list_elem_of_singleton in He as ->. done.
Qed.

Lemma appended_trans actor now n m h1 h2 h3 :
  appended actor now n h1 h2 → appended actor now m h2 h3 →
  appended actor now (n + m) h1 h3.
Proof.
  intros (a1 & -> & Hl1 & H1) (a2 & -> & Hl2 & H2).
  exists (a1 ++ a2)%list. rewrite app_assoc. split; [done |].
  split; [rewrite length_app; lia |].
  intros e He. apply elem_of_app in He as [He | He]; auto.
Qed.

Lemma finalizeStatus_history now id s comments approverId approver lr st :
  appended approverId now 1
    (default [] (metadata lr ≫= approvalHistory))
    (historyOf id
       (finalizeStatus now id s comments approverId approver lr st).2).
Proof.
  unfold finalizeStatus.
  repeat case_match; simpl;
    rewrite ?historyOf_balance, historyOf_save; simpl; simplify_eq;
    first [ apply appended_none
          | match goal with
            | H : approvalHistory _ = _ |- _ => rewrite H
            end; simpl;
            first [ apply appended_one | apply appended_none ] ].
Qed.

Lemma partialApproval_history env now id comments approverId approver
    requestUser lr sorted lvl st :
  leaveRequests st !! id = Some lr →
  appended approverId now 1 (historyOf id st)
    (historyOf id
       (partialApproval env now id comments approverId approver requestUser
          lr sorted lvl st).2).
Proof.
  intros Hlr. rewrite (historyOf_stored _ _ _ Hlr).
  unfold partialApproval.
  destruct (nonEmpty _).
  { simpl. rewrite (historyOf_stored _ _ _ Hlr). apply appended_none. }
  match goal with
  | |- context [saveLeaveRequest id ?r st] =>
      set (st' := saveLeaveRequest id r st);
      assert (Hh : historyOf id st'
                   = (default [] (metadata lr ≫= approvalHistory)
                      ++ [historyEntry lvl approverId approver now comments])%list)
  end.
  { subst st'. rewrite historyOf_save. simpl.
    destruct (metadata lr) as [md |]; simpl; [| done].
    by destruct (requestUserRole md). }
  match goal with
  | |- appended _ _ _ _ (historyOf id ?out.2) =>
      assert (Hout : out.2 = st') by (repeat case_match; done)
  end.
  rewrite Hout, Hh. apply appended_one.
Qed.

Lemma update_history env now id payload approverId st :
  appended approverId now 2 (historyOf id st)
    (historyOf id
       (updateLeaveRequestStatus env now id payload approverId st).2).
Proof.
  unfold updateLeaveRequestStatus.
  destruct (truthy _); [| apply appended_none].
  destruct (parseStatus _) as [target |]; [| apply appended_none].
  destruct (leaveRequests st !! id) as [lr |] eqn:Hlr; [| apply appended_none].
  case_bool_decide; [apply appended_none |].
  destruct (_ && _ && _); [apply appended_none |].
  destruct (users st !! approverId) as [approver |]; [| apply appended_none].
  destruct (users st !! userId lr) as [requestUser |]; [| apply appended_none].
  destruct (negb _ && negb _); [apply appended_none |].
  assert (Hfin : ∀ lr0 n,
             appended approverId now n (historyOf id st)
               (default [] (metadata lr0 ≫= approvalHistory)) →
             appended approverId now (n + 1) (historyOf id st)
               (historyOf id
                  (finalizeStatus now id target (pComments payload) approverId
                     approver lr0 st).2)).
  { intros lr0 n H0. eapply appended_trans; [exact H0 |].
    apply finalizeStatus_history. }
  assert (Hlr0 : appended approverId now 1 (historyOf id st)
                   (default [] (metadata lr ≫= approvalHistory))).
  { rewrite (historyOf_stored _ _ _ Hlr). apply appended_none. }
  case_bool_decide; [| apply (Hfin lr 1%nat Hlr0)].
  destruct (approveAtLevel _ _ _ _ _ _ _ _ _) as [r | lr0] eqn:Hstep.
  - unfold approveAtLevel in Hstep.
    repeat case_match; simplify_eq; try apply appended_none.
    eapply (appended_trans _ _ 1 1); [| apply appended_none].
    by apply partialApproval_history.
  - apply (Hfin lr0 1%nat).
    unfold approveAtLevel in Hstep.
    repeat case_match; simplify_eq; try done.
    rewrite (historyOf_stored _ _ _ Hlr). simpl.
    destruct (metadata lr) as [md |]; simpl;
      [apply appended_one | apply (appended_one _ _ _ _ _ 0 [])].
Qed.

(** The approval history of a request is only ever appended to. A status
    update adds at most two entries at the end of the history, each with
    the acting user as approver and the time of the call; a
    cancellation, the rejection of a deletion and a deletion that is
    parked for approval leave the history as it was. *)
Theorem approval_history_is_only_appended_to
    env now id payload comments actor actorRole st :
  appended actor now 2 (historyOf id st)
    (historyOf id (updateLeaveRequestStatus env now id payload actor st).2)
  ∧ historyOf id (cancelLeaveRequest now id actor st).2 = historyOf id st
  ∧ historyOf id (rejectDeleteLeaveRequest now id comments actor st).2
    = historyOf id st
  ∧ ∀ lr', body (deleteLeaveRequest now id actor actorRole st).1
           = DeletionPending lr' →
           historyOf id (deleteLeaveRequest now id actor actorRole st).2
           = historyOf id st.
Proof.
  split; [apply update_history |]. split; [| split].
  - unfold cancelLeaveRequest.
    destruct (leaveRequests st !! id) as [lr |] eqn:Hlr; [| done].
    repeat case_match; simpl;
      rewrite ?historyOf_save, ?(historyOf_stored _ _ _ Hlr); done.
  - unfold rejectDeleteLeaveRequest.
    destruct (leaveRequests st !! id) as [lr |] eqn:Hlr; [| done].
    repeat case_match; simpl;
      rewrite ?historyOf_save, ?(historyOf_stored _ _ _ Hlr); try done;
      simpl; by destruct (metadata lr).
  - intros lr'. unfold deleteLeaveRequest.
    destruct (leaveRequests st !! id) as [lr |] eqn:Hlr; [| done].
    repeat case_match; simpl; try done; intros _;
      rewrite ?historyOf_save, ?(historyOf_stored _ _ _ Hlr); try done;
      simpl; by destruct (metadata lr).
Qed.

(** ** Deleting a request *)

Lemma awaitsDeletionApproval_spec actor actorRole lr st :
  awaitsDeletionApproval actor actorRole lr st ↔
  (bool_decide (status lr = APPROVED)
   || bool_decide (status lr = PARTIALLY_APPROVED))
  && bool_decide (userId lr = actor)
  && negb (bool_decide (actorRole = SUPER_ADMIN) || bool_decide (actorRole = HR))
  && match List.find (coversDays (numberOfDays lr)) (activeWorkflows st) with
     | Some applicableWorkflow =>
         (1 <? length (approvalLevels applicableWorkflow))%nat
     | None => false
     end = true.
Proof.
  unfold awaitsDeletionApproval.
  rewrite !andb_true_iff, orb_true_iff, negb_true_iff, orb_false_iff,
    !bool_decide_eq_true, !bool_decide_eq_false.
  split.
  - intros (Hs & Ho & Ha & Hh & w & -> & Hlen).
    repeat split; try done. by apply Nat.ltb_lt.
  - intros (((Hs & Ho) & Ha & Hh) & Hw).
    repeat split; try done.
    destruct (List.find _ _) as [w |]; [| done].
    exists w. split; [done |]. by apply Nat.ltb_lt.
Qed.

(** [deleteLeaveRequest] by the owner or by a super administrator or HR
    answers 200. It parks the request as [pending_deletion], recording
    who asked, when and the status the request had, and leaves the
    balances alone, exactly when the owner, being neither super
    administrator nor HR, deletes an approved or partially approved
    request whose covering active workflow has more than one level. In
    every other case the row is removed; the balances are then untouched
    unless the request was approved or partially approved. *)
Theorem deletion_is_parked_or_carried_out
    now id actor actorRole st lr :
  leaveRequests st !! id = Some lr →
  userId lr = actor ∨ actorRole = SUPER_ADMIN ∨ actorRole = HR →
  let out := deleteLeaveRequest now id actor actorRole st in
  code out.1 = 200
  ∧ (awaitsDeletionApproval actor actorRole lr st →
     ∃ lr', body out.1 = DeletionPending lr'
            ∧ leaveRequests out.2 !! id = Some lr'
            ∧ status lr' = PENDING_DELETION ∧ sameRequest lr' lr
            ∧ metadata lr' ≫= originalStatus = Some (status lr)
            ∧ metadata lr' ≫= deletionRequestedBy = Some actor
            ∧ metadata lr' ≫= deletionRequestedAt = Some now
            ∧ leaveBalances out.2 = leaveBalances st)
  ∧ (¬ awaitsDeletionApproval actor actorRole lr st →
     body out.1 = DeletedOk
     ∧ leaveRequests out.2 !! id = None
     ∧ (status lr ≠ APPROVED → status lr ≠ PARTIALLY_APPROVED →
        leaveBalances out.2 = leaveBalances st)).
Proof.
  intros Hlr Hmay. simpl.
  unfold deleteLeaveRequest. rewrite Hlr.
  destruct (negb (bool_decide (userId lr = actor)) && _) eqn:Hdenied.
  { exfalso. apply andb_true_iff in Hdenied as [Ho Ha].
    apply negb_true_iff in Ho, Ha.
    apply bool_decide_eq_false in Ho. apply orb_false_iff in Ha as [Ha Hh].
    apply bool_decide_eq_false in Ha, Hh. tauto. }
  destruct (_ && _ && _ && _) eqn:Hneeds.
  - simpl. split; [done |].
    split; [| intros Hnot; by apply awaitsDeletionApproval_spec in Hneeds].
    intros _. eexists. split; [done |].
    rewrite lookup_insert_eq. split; [done |].
    by repeat split.
  - simpl. split; [done |].
    split; [intros Hyes; apply awaitsDeletionApproval_spec in Hyes;
            congruence |].
    intros _. split; [done |]. split.
    + destruct (_ || _); simpl; rewrite ?revertBalance_requests;
        apply lookup_delete_eq.
    + intros H1 H2. by rewrite !bool_decide_eq_false_2 by done.
Qed.

Lemma revertBalance_save id lr lr' st :
  sameRequest lr' lr →
  revertBalance lr' (saveLeaveRequest id lr' st)
  = saveLeaveRequest id lr' (revertBalance lr st).
Proof.
  intros (Hu & Ht & Hs & _ & Hn). unfold revertBalance.
  rewrite Hu, Ht, Hs, Hn. simpl.
  by destruct (leaveBalances st !! _).
Qed.

Lemma remove_save id lr st :
  removeLeaveRequest id (saveLeaveRequest id lr st) = removeLeaveRequest id st.
Proof. unfold removeLeaveRequest. simpl. by rewrite delete_insert_eq. Qed.

(** When the deletion of a request has been parked and an authorised
    approver then rejects it, the request has its former status again,
    with the same user, type, dates, days and approval history, and the
    balances are what they were before the deletion was asked for. *)
Theorem rejected_deletion_restores_the_request
    now later id comments actor actorRole approverId approver requestUser
    st lr :
  leaveRequests st !! id = Some lr →
  awaitsDeletionApproval actor actorRole lr st →
  users st !! approverId = Some approver →
  users st !! userId lr = Some requestUser →
  mayDecideDeletion approverId approver requestUser = true →
  let parked := deleteLeaveRequest now id actor actorRole st in
  let restored :=
    rejectDeleteLeaveRequest later id comments approverId parked.2 in
  code restored.1 = 200
  ∧ (∃ lr', leaveRequests restored.2 !! id = Some lr'
            ∧ status lr' = status lr ∧ sameRequest lr' lr
            ∧ metadata lr' ≫= deletionRejectedBy = Some approverId)
  ∧ historyOf id restored.2 = historyOf id st
  ∧ leaveBalances restored.2 = leaveBalances st.
Proof.
  intros Hlr Hwait Happ Hreq Hmay. simpl.
  pose proof (proj1 (awaitsDeletionApproval_spec _ _ _ _) Hwait) as Hneeds.
  destruct Hwait as (_ & Hown & _).
  unfold deleteLeaveRequest. rewrite Hlr.
  rewrite (bool_decide_eq_true_2 (userId lr = actor)) by done. simpl.
  rewrite (bool_decide_eq_true_2 (userId lr = actor)) in Hneeds by done.
  rewrite Hneeds. simpl.
  unfold rejectDeleteLeaveRequest. simpl.
  rewrite lookup_insert_eq. simpl. rewrite Happ, Hreq, Hmay. simpl.
  split; [done |]. split.
  - eexists. rewrite lookup_insert_eq. split; [done |]. by repeat split.
  - split; [| done].
    rewrite historyOf_save, (historyOf_stored _ _ _ Hlr). simpl.
    by destruct (metadata lr).
Qed.

(** When the deletion of a request has been parked and an authorised
    approver then approves it, the store is the one that an immediate
    deletion would have left: the row is gone and the used days of the
    start-date year are reverted, not below zero. *)
Theorem approved_deletion_equals_immediate_deletion
    now later id comments actor actorRole approverId approver requestUser
    admin st lr :
  leaveRequests st !! id = Some lr →
  awaitsDeletionApproval actor actorRole lr st →
  users st !! approverId = Some approver →
  users st !! userId lr = Some requestUser →
  mayDecideDeletion approverId approver requestUser = true →
  let parked := deleteLeaveRequest now id actor actorRole st in
  let approved := approveDeleteLeaveRequest id comments approverId parked.2 in
  let immediate := deleteLeaveRequest later id admin HR st in
  code approved.1 = 200
  ∧ body immediate.1 = DeletedOk
  ∧ approved.2 = immediate.2
  ∧ approved.2 = removeLeaveRequest id (revertBalance lr st).
Proof.
  intros Hlr Hwait Happ Hreq Hmay. simpl.
  pose proof (proj1 (awaitsDeletionApproval_spec _ _ _ _) Hwait) as Hneeds.
  destruct Hwait as (Hst & Hown & _).
  assert (Hap : bool_decide (status lr = APPROVED)
                || bool_decide (status lr = PARTIALLY_APPROVED) = true).
  { apply orb_true_iff. rewrite !bool_decide_eq_true. done. }
  assert (Himm : deleteLeaveRequest later id admin HR st
                 = respond 200 DeletedOk
                     (removeLeaveRequest id (revertBalance lr st))).
  { unfold deleteLeaveRequest. rewrite Hlr, Hap.
    rewrite (bool_decide_eq_true_2 (HR = HR)) by done.
    rewrite (bool_decide_eq_false_2 (HR = SUPER_ADMIN)) by done.
    simpl. by rewrite !andb_false_r. }
  rewrite Himm. simpl.
  unfold deleteLeaveRequest. rewrite Hlr.
  rewrite (bool_decide_eq_true_2 (userId lr = actor)) by done. simpl.
  rewrite (bool_decide_eq_true_2 (userId lr = actor)) in Hneeds by done.
  rewrite Hneeds. simpl.
  unfold approveDeleteLeaveRequest. simpl.
  rewrite lookup_insert_eq. simpl. rewrite Happ, Hreq, Hmay. simpl.
  assert (Hwas : wasApproved (Some (status lr)) = true).
  { unfold wasApproved. apply orb_true_iff.
    rewrite !bool_decide_eq_true. destruct Hst as [-> | ->]; auto. }
  rewrite Hwas.
  rewrite (revertBalance_save id lr) by by repeat split.
  rewrite remove_save. done.
Qed.

(** ** Creating a request *)

Lemma anyDayWithin_spec fuel cur end_ rs re :
  (Z.to_nat ((end_ - cur) / msPerDay + 1) <= fuel)%nat →
  anyDayWithin fuel cur end_ rs re = true ↔
  ∃ k, 0 <= k ∧ cur + k * msPerDay <= end_
       ∧ rs <= cur + k * msPerDay <= re.
Proof.
  assert (Hms : 0 < msPerDay) by (unfold msPerDay; lia).
  revert cur. induction fuel as [| f IH]; intros cur Hfuel.
  - simpl. split; [done |]. intros (k & Hk & Hend & _). exfalso.
    assert (0 <= (end_ - cur) / msPerDay) by (apply Z.div_pos; nia).
    lia.
  - cbn [anyDayWithin].
    destruct (Z.leb_spec cur end_) as [Hle | Hgt].
    + destruct (Z.leb_spec rs cur) as [Hrs | Hrs];
        destruct (Z.leb_spec cur re) as [Hre | Hre]; simpl.
      1: { split; [| done]. intros _. exists 0. lia. }
      all: rewrite IH;
        [ split;
          [ intros (k & Hk & Hend & Hin); exists (k + 1); lia
          | intros (k & Hk & Hend & Hin);
            assert (k ≠ 0) by (intros ->; lia);
            exists (k - 1); lia ]
        | replace (end_ - (cur + msPerDay))
            with ((end_ - cur) + (-1) * msPerDay) by lia;
          rewrite Z.div_add by lia;
          assert (0 <= (end_ - cur) / msPerDay) by (apply Z.div_pos; lia);
          lia ].
    + split; [done |]. intros (k & Hk & Hend & _). nia.
Qed.

(** The loop that looks for a day of the new request inside an existing
    one answers yes exactly when one of the instants [start],
    [start] + 1 day, [start] + 2 days, ... not after [end_] lies between
    the midnights of the existing request's first and last day; the turns
    allotted to it always suffice. *)
Theorem conflict_check_walks_the_days start end_ r :
  conflictsWith start end_ r = true ↔
  ∃ k, 0 <= k ∧ start + k * msPerDay <= end_
       ∧ setHoursZero (startDate r) <= start + k * msPerDay
         <= setHoursZero (endDate r).
Proof. unfold conflictsWith, daysSpanned. by apply anyDayWithin_spec. Qed.


Lemma sorted_filter {A} (R : A → A → Prop) (p : A → bool) (l : list A) :
  StronglySorted R l → StronglySorted R (List.filter p l).
Proof.
  induction 1 as [| a t Hs IH Hall]; simpl; [constructor |].
  destruct (p a); [| done].
  constructor; [done |].
  apply Forall_forall. intros x Hx.
  apply list_elem_of_In, filter_In in Hx as [Hx _].
  rewrite Forall_forall in Hall. by apply Hall, list_elem_of_In.
Qed.

Lemma sorted_levels (l : list Level) :
  StronglySorted levelLe l → StronglySorted Z.le (level <$> l).
Proof.
  induction 1 as [| a t Hs IH Hall]; [constructor |].
  rewrite fmap_cons. constructor; [done |].
  apply Forall_fmap. eapply Forall_impl; [exact Hall |]. done.
Qed.

(** The required levels written at creation are level numbers of the
    workflow, in ascending order; and a level number of the workflow is
    left out only if some level with that number has the name of the
    requester's role among its [roleIds]. *)
Theorem required_levels_are_ascending_workflow_levels user ls :
  StronglySorted Z.le (requiredLevelsFor user ls)
  ∧ (∀ n, n ∈ requiredLevelsFor user ls → n ∈ level <$> ls)
  ∧ ∀ n, n ∈ level <$> ls → n ∉ requiredLevelsFor user ls →
      ∃ d, d ∈ ls ∧ level d = n
           ∧ includes (roleIds d) (roleName (role user)) = true.
Proof.
  unfold requiredLevelsFor. split; [| split].
  - apply sorted_filter, sorted_levels, sortLevels_sorted.
  - intros n Hn. apply list_elem_of_In, filter_In in Hn as [Hn _].
    apply list_elem_of_In in Hn. by rewrite sortLevels_perm in Hn.
  - intros n Hn Hout.
    destruct (List.find (λ l, bool_decide (level l = n)) (sortLevels ls))
      as [d |] eqn:Hfind.
    + apply find_some in Hfind as Hd. destruct Hd as [Hd Hlevel].
      apply bool_decide_eq_true in Hlevel.
      apply list_elem_of_In in Hd. rewrite sortLevels_perm in Hd.
      exists d. split; [done |]. split; [done |].
      destruct (includes _ _) eqn:Hinc; [done |].
      exfalso. apply Hout. apply list_elem_of_In, filter_In.
      split; [| by rewrite Hfind, Hinc].
      apply list_elem_of_In. by rewrite sortLevels_perm.
    + exfalso. apply Hout. apply list_elem_of_In, filter_In.
      split; [| by rewrite Hfind].
      apply list_elem_of_In. by rewrite sortLevels_perm.
Qed.

(** ** Reading the requested status *)

Lemma lowerAscii_idem c : lowerAscii (lowerAscii c) = lowerAscii c.
Proof. destruct c as [[] [] [] [] [] [] [] []]; reflexivity. Qed.

Lemma toLowerCase_idem s : toLowerCase (toLowerCase s) = toLowerCase s.
Proof.
  induction s as [| c t IH]; [done |].
  simpl. by rewrite lowerAscii_idem, IH.
Qed.

Lemma truthy_toLowerCase s :
  truthy (Some (toLowerCase s)) = toLowerCase <$> truthy (Some s).
Proof. destruct s; simpl; done. Qed.


(** ** Rejecting a request *)

(** When an authorised approver rejects a pending or partially approved
    request, the answer is 200; the request is stored as [rejected] with
    the approver and the time of the decision, its user, type, dates,
    days and metadata as before; no balance changes; and an approval
    attempted afterwards, by anyone, is answered 400 and changes
    nothing. *)
Theorem rejection_is_recorded_and_closes_the_request
    env now later id payload payload' actor actor' st lr approver
    requestUser :
  asksFor payload REJECTED →
  leaveRequests st !! id = Some lr →
  status lr = PENDING ∨ status lr = PARTIALLY_APPROVED →
  users st !! actor = Some approver →
  users st !! userId lr = Some requestUser →
  isAuthorized (isApproverAuthorized env st actor (userId lr)) = true →
  let out := updateLeaveRequestStatus env now id payload actor st in
  code out.1 = 200
  ∧ (∃ lr', leaveRequests out.2 !! id = Some lr'
            ∧ status lr' = REJECTED ∧ sameRequest lr' lr
            ∧ metadata lr' = metadata lr
            ∧ approverId lr' = Some actor ∧ approvedAt lr' = Some now)
  ∧ leaveBalances out.2 = leaveBalances st
  ∧ (asksFor payload' APPROVED →
     updateLeaveRequestStatus env later id payload' actor' out.2
     = respond 400 OnlyPendingOrPartial out.2).
Proof.
  intros (text & Htext & Hparse) Hlr Hst Happ Hreq Hauth. simpl.
  assert (Hout : updateLeaveRequestStatus env now id payload actor st
                 = finalizeStatus now id REJECTED (pComments payload) actor
                     approver lr st).
  { unfold updateLeaveRequestStatus.
    rewrite Htext, Hparse, Hlr, Happ, Hreq, Hauth.
    by destruct Hst as [-> | ->]. }
  rewrite Hout, finalizeStatus_not_approved by done. simpl.
  split; [done |]. split; [| split; [done |]].
  - eexists. rewrite lookup_insert_eq. split; [done |]. by repeat split.
  - intros Hask.
    match goal with
    | |- context [saveLeaveRequest id ?r st] => set (lr' := r)
    end.
    rewrite (settled_takes_only_cancellation env later id payload' actor'
               (saveLeaveRequest id lr' st) lr' APPROVED); try done.
    simpl. by rewrite lookup_insert_eq.
Qed.

End LeaveRequestMoreFacts.

(** * The further properties at the example data *)

Module WorkflowServiceWitness.
Import ApprovalWorkflowService ApprovalWorkflowQueries InitApprovalWorkflows
       LeaveRequestController WorkflowCatalog ServiceSpec
       WorkflowCatalogFacts WorkflowServiceFacts Examples MoreExamples.

Lemma demoCatalog_invariant : catalogInvariant demoCatalog.
Proof.
  exact (reachable_invariant [] demoCatalog empty_catalog_invariant
           WorkflowCatalogWitness.demoCatalog_reachable).
Defined.

Lemma legacyCatalog_reachable : reachable [] legacyCatalog.
Proof.
  eapply (reach_create [] _ "wf-e" extendedWorkflow).
  - eapply (reach_create [] [] "wf-s" standardWorkflow).
    + apply reach_init.
    + apply not_elem_of_nil.
    + reflexivity.
  - apply (bool_decide_unpack _). vm_compute. exact I.
  - reflexivity.
Defined.

Lemma legacyCatalog_invariant : catalogInvariant legacyCatalog.
Proof.
  exact (reachable_invariant [] legacyCatalog empty_catalog_invariant
           legacyCatalog_reachable).
Defined.

Lemma shortLeave_only_is_fresh :
  "wf-2" ∉ (wfId <$> [createRow "wf-1" shortLeave]).
Proof. apply (bool_decide_unpack _). vm_compute. exact I. Defined.

(** Creating the long-leave workflow beside the short-leave one. *)
Lemma created_workflow_is_read_back_witness :
  (("wf-2" ∉ (wfId <$> [createRow "wf-1" shortLeave]))
   ∧ createApprovalWorkflow "wf-2" longLeave [createRow "wf-1" shortLeave]
     = Ok (createRow "wf-2" longLeave, demoCatalog))
  ∧ getApprovalWorkflowById "wf-2" demoCatalog
    = Ok (createRow "wf-2" longLeave)
  ∧ wfId (createRow "wf-2" longLeave) = "wf-2"
  ∧ wfName (createRow "wf-2" longLeave) = nName longLeave
  ∧ minDays (createRow "wf-2" longLeave) = nMinDays longLeave
  ∧ maxDays (createRow "wf-2" longLeave) = nMaxDays longLeave
  ∧ approvalLevels (createRow "wf-2" longLeave) = nApprovalLevels longLeave
  ∧ isActive (createRow "wf-2" longLeave) = default true (nIsActive longLeave)
  ∧ (∀ i, i ≠ "wf-2" →
          getApprovalWorkflowById i demoCatalog
          = getApprovalWorkflowById i [createRow "wf-1" shortLeave])
  ∧ findByName (nName longLeave) [createRow "wf-1" shortLeave] = None.
Proof.
  split; [split; [exact shortLeave_only_is_fresh | reflexivity] |].
  exact (created_workflow_is_read_back "wf-2" longLeave
           [createRow "wf-1" shortLeave] (createRow "wf-2" longLeave)
           demoCatalog shortLeave_only_is_fresh eq_refl).
Defined.

(** Deleting the short-leave workflow from the example catalog. *)
Lemma deleted_workflow_is_gone_witness :
  NoDup (wfId <$> demoCatalog)
  ∧ ("wf-1" ∉ (wfId <$> demoCatalog) →
     deleteApprovalWorkflow "wf-1" demoCatalog = Throw NotFound)
  ∧ ∀ ws', deleteApprovalWorkflow "wf-1" demoCatalog = Ok ws' →
      getApprovalWorkflowById "wf-1" ws' = Throw NotFound
      ∧ (∀ j, j ≠ "wf-1" →
              getApprovalWorkflowById j ws'
              = getApprovalWorkflowById j demoCatalog)
      ∧ length demoCatalog = S (length ws').
Proof.
  split; [exact (proj1 demoCatalog_invariant) |].
  exact (deleted_workflow_is_gone "wf-1" demoCatalog
           (proj1 demoCatalog_invariant)).
Defined.

(** Creating the long-leave workflow and deleting it again. *)
Lemma create_then_delete_restores_witness :
  (("wf-2" ∉ (wfId <$> [createRow "wf-1" shortLeave]))
   ∧ createApprovalWorkflow "wf-2" longLeave [createRow "wf-1" shortLeave]
     = Ok (createRow "wf-2" longLeave, demoCatalog))
  ∧ deleteApprovalWorkflow "wf-2" demoCatalog
    = Ok [createRow "wf-1" shortLeave].
Proof.
  split; [split; [exact shortLeave_only_is_fresh | reflexivity] |].
  exact (create_then_delete_restores "wf-2" longLeave
           [createRow "wf-1" shortLeave] (createRow "wf-2" longLeave)
           demoCatalog shortLeave_only_is_fresh eq_refl).
Defined.

(** An update of the long-leave workflow that supplies no column. *)
Lemma update_with_same_values_is_identity_witness :
  (NoDup (wfId <$> demoCatalog)
   ∧ findById "wf-2" demoCatalog = Some (createRow "wf-2" longLeave)
   ∧ merge (createRow "wf-2" longLeave) noChange = createRow "wf-2" longLeave)
  ∧ updateApprovalWorkflow "wf-2" noChange demoCatalog
    = Ok (createRow "wf-2" longLeave, demoCatalog).
Proof.
  split; [split; [exact (proj1 demoCatalog_invariant) | split; reflexivity] |].
  exact (update_with_same_values_is_identity "wf-2" noChange demoCatalog
           (createRow "wf-2" longLeave) (proj1 demoCatalog_invariant)
           eq_refl eq_refl).
Defined.

(** The workflow for three days in the example catalog. *)
Lemma workflow_for_duration_is_the_covering_one_witness :
  catalogInvariant demoCatalog
  ∧ (∀ w, getApprovalWorkflowForDuration 30 demoCatalog = Ok w ↔
          w ∈ demoCatalog ∧ isActive w = true ∧ minDays w <= 30 <= maxDays w)
  ∧ (getApprovalWorkflowForDuration 30 demoCatalog
     = Throw NoWorkflowForDuration ↔
     ∀ w, w ∈ demoCatalog → isActive w = true →
          ¬ (minDays w <= 30 <= maxDays w)).
Proof.
  split; [exact demoCatalog_invariant |].
  exact (workflow_for_duration_is_the_covering_one demoCatalog 30
           demoCatalog_invariant).
Defined.

(** The two lookups of the workflow for three days in the example
    store. *)
Lemma controller_and_service_pick_the_same_workflow_witness :
  catalogInvariant (approvalWorkflows demoStore)
  ∧ List.find (coversDays 30) (activeWorkflows demoStore)
    = match getApprovalWorkflowForDuration 30 (approvalWorkflows demoStore) with
      | Ok w => Some w
      | Throw _ => None
      end.
Proof.
  split; [exact demoCatalog_invariant |].
  exact (controller_and_service_pick_the_same_workflow demoStore 30
           demoCatalog_invariant).
Defined.

Lemma demoCatalog_ranges : ∀ w, w ∈ demoCatalog → minDays w <= maxDays w.
Proof.
  apply Forall_forall. apply (bool_decide_unpack _). vm_compute. exact I.
Defined.

(** The listing of the active workflows of the example catalog. *)
Lemma listing_is_ordered_and_disjoint_witness :
  (catalogInvariant demoCatalog
   ∧ ∀ w, w ∈ demoCatalog → minDays w <= maxDays w)
  ∧ getAllApprovalWorkflows (Some true) demoCatalog
    ≡ₚ List.filter (matchesFilter (Some true)) demoCatalog
  ∧ StronglySorted (λ a b, maxDays a < minDays b)
      (getAllApprovalWorkflows (Some true) demoCatalog).
Proof.
  split; [split; [exact demoCatalog_invariant | exact demoCatalog_ranges] |].
  exact (listing_is_ordered_and_disjoint (Some true) demoCatalog
           demoCatalog_invariant demoCatalog_ranges).
Defined.

(** The start-up refresh of a catalog in the legacy format. *)
Lemma startup_refresh_keeps_the_catalog_witness :
  catalogInvariant legacyCatalog
  ∧ outline <$> initApprovalWorkflows legacyCatalog = outline <$> legacyCatalog
  ∧ length (initApprovalWorkflows legacyCatalog) = length legacyCatalog
  ∧ catalogInvariant (initApprovalWorkflows legacyCatalog).
Proof.
  split; [exact legacyCatalog_invariant |].
  exact (startup_refresh_keeps_the_catalog legacyCatalog
           legacyCatalog_invariant).
Defined.

(** The start-up refresh run twice on that catalog. *)
Lemma startup_refresh_is_idempotent_witness :
  NoDup (wfId <$> legacyCatalog)
  ∧ initApprovalWorkflows (initApprovalWorkflows legacyCatalog)
    = initApprovalWorkflows legacyCatalog.
Proof.
  split; [exact (proj1 legacyCatalog_invariant) |].
  exact (startup_refresh_is_idempotent legacyCatalog
           (proj1 legacyCatalog_invariant)).
Defined.

End WorkflowServiceWitness.

Module LeaveRequestMoreWitness.
Import ApprovalWorkflowService LeaveRequestController LeaveSpec LeaveSpecMore
       LeaveRequestFacts LeaveRequestMoreFacts Examples MoreExamples.

Lemma asksFor_reject : asksFor reject REJECTED.
Proof. exists "rejected". split; reflexivity. Defined.

(** A rejection asked for the second request once it is approved. *)
Lemma settled_request_takes_only_cancellation_witness :
  let st := after 5 overlapTrace in
  let lr := stored "lr-B" st in
  (leaveRequests st !! "lr-B" = Some lr
   ∧ status lr ≠ PENDING ∧ status lr ≠ PARTIALLY_APPROVED
   ∧ asksFor reject REJECTED ∧ REJECTED ≠ CANCELLED)
  ∧ updateLeaveRequestStatus demoEnv feb2 "lr-B" reject "u-mgr" st
    = respond 400 (if bool_decide (status lr = REJECTED)
                   then AlreadyInStatus REJECTED
                   else OnlyPendingOrPartial) st.
Proof.
  intros st lr.
  assert (H1 : leaveRequests st !! "lr-B" = Some lr) by by vm_compute.
  assert (H2 : status lr ≠ PENDING) by by vm_compute.
  assert (H3 : status lr ≠ PARTIALLY_APPROVED) by by vm_compute.
  assert (H4 : REJECTED ≠ CANCELLED) by done.
  split; [exact (conj H1 (conj H2 (conj H3 (conj asksFor_reject H4)))) |].
  exact (settled_request_takes_only_cancellation demoEnv feb2 "lr-B" reject
           "u-mgr" st lr REJECTED H1 H2 H3 asksFor_reject H4).
Defined.

(** The employee's cancellation in January of the request approved in
    December, and what is tried a day later. *)
Lemma cancelled_request_stays_cancelled_witness :
  let st := after 2 newYearTrace in
  let st' := (cancelLeaveRequest (day 20455) "lr-N" "u-emp" st).2 in
  code (cancelLeaveRequest (day 20455) "lr-N" "u-emp" st).1 = 200
  ∧ (∃ lr lr', leaveRequests st !! "lr-N" = Some lr
               ∧ leaveRequests st' !! "lr-N" = Some lr'
               ∧ status lr' = CANCELLED ∧ sameRequest lr' lr
               ∧ metadata lr' = metadata lr)
  ∧ (code (updateLeaveRequestStatus demoEnv (day 20456) "lr-N" approve
             "u-emp" st').1 = 400
     ∧ (updateLeaveRequestStatus demoEnv (day 20456) "lr-N" approve
          "u-emp" st').2 = st')
  ∧ ((code (cancelLeaveRequest (day 20456) "lr-N" "u-emp" st').1 = 400
      ∨ code (cancelLeaveRequest (day 20456) "lr-N" "u-emp" st').1 = 403)
     ∧ (cancelLeaveRequest (day 20456) "lr-N" "u-emp" st').2 = st').
Proof.
  intros st st'.
  assert (H1 : code (cancelLeaveRequest (day 20455) "lr-N" "u-emp" st).1 = 200)
    by by vm_compute.
  split; [exact H1 |].
  exact (cancelled_request_stays_cancelled demoEnv (day 20455) (day 20456)
           "lr-N" "u-emp" "u-emp" approve st H1).
Defined.

(** The manager's approval of the second request, which the team lead
    has approved at level 1. *)
Lemma approval_level_advances_by_one_witness :
  let st := after 4 overlapTrace in
  let lr := stored "lr-B" st in
  let md := default emptyMetadata (metadata lr) in
  let out := updateLeaveRequestStatus demoEnv feb2 "lr-B" approve "u-mgr" st in
  (leaveRequests st !! "lr-B" = Some lr
   ∧ status lr = PARTIALLY_APPROVED
   ∧ metadata lr = Some md
   ∧ currentApprovalLevel md = Some 1)
  ∧ (metadataOf "lr-B" out.2 ≫= currentApprovalLevel = Some 1
     ∨ metadataOf "lr-B" out.2 ≫= currentApprovalLevel = Some (1 + 1))
  ∧ ∀ l lr', body out.1 = ApprovedAtLevel l lr' → l = 1 + 1.
Proof.
  intros st lr md out.
  assert (H1 : leaveRequests st !! "lr-B" = Some lr) by by vm_compute.
  assert (H2 : status lr = PARTIALLY_APPROVED) by by vm_compute.
  assert (H3 : metadata lr = Some md) by by vm_compute.
  assert (H4 : currentApprovalLevel md = Some 1) by by vm_compute.
  split; [exact (conj H1 (conj H2 (conj H3 H4))) |].
  exact (approval_level_advances_by_one demoEnv feb2 "lr-B" approve "u-mgr"
           st lr md 1 H1 H2 H3 H4).
Defined.

Lemma employee_awaits_deletion_approval :
  awaitsDeletionApproval "u-emp" EMPLOYEE
    (stored "lr-B" beforeLastApproval) beforeLastApproval.
Proof. apply awaitsDeletionApproval_spec. by vm_compute. Defined.

(** The employee asks to delete the approved second request. *)
Lemma deletion_is_parked_or_carried_out_witness :
  let st := beforeLastApproval in
  let lr := stored "lr-B" st in
  let out := deleteLeaveRequest feb2 "lr-B" "u-emp" EMPLOYEE st in
  (leaveRequests st !! "lr-B" = Some lr
   ∧ (userId lr = "u-emp" ∨ EMPLOYEE = SUPER_ADMIN ∨ EMPLOYEE = HR))
  ∧ code out.1 = 200
  ∧ (awaitsDeletionApproval "u-emp" EMPLOYEE lr st →
     ∃ lr', body out.1 = DeletionPending lr'
            ∧ leaveRequests out.2 !! "lr-B" = Some lr'
            ∧ status lr' = PENDING_DELETION ∧ sameRequest lr' lr
            ∧ metadata lr' ≫= originalStatus = Some (status lr)
            ∧ metadata lr' ≫= deletionRequestedBy = Some "u-emp"
            ∧ metadata lr' ≫= deletionRequestedAt = Some feb2
            ∧ leaveBalances out.2 = leaveBalances st)
  ∧ (¬ awaitsDeletionApproval "u-emp" EMPLOYEE lr st →
     body out.1 = DeletedOk
     ∧ leaveRequests out.2 !! "lr-B" = None
     ∧ (status lr ≠ APPROVED → status lr ≠ PARTIALLY_APPROVED →
        leaveBalances out.2 = leaveBalances st)).
Proof.
  intros st lr out.
  assert (H1 : leaveRequests st !! "lr-B" = Some lr) by by vm_compute.
  assert (H2 : userId lr = "u-emp" ∨ EMPLOYEE = SUPER_ADMIN ∨ EMPLOYEE = HR)
    by (left; by vm_compute).
  split; [exact (conj H1 H2) |].
  exact (deletion_is_parked_or_carried_out feb2 "lr-B" "u-emp" EMPLOYEE st lr
           H1 H2).
Defined.

(** The manager rejects the deletion that the employee asked for. *)
Lemma rejected_deletion_restores_the_request_witness :
  let st := beforeLastApproval in
  let lr := stored "lr-B" st in
  let parked := deleteLeaveRequest feb2 "lr-B" "u-emp" EMPLOYEE st in
  let restored :=
    rejectDeleteLeaveRequest (day 20487) "lr-B" None "u-mgr" parked.2 in
  (leaveRequests st !! "lr-B" = Some lr
   ∧ awaitsDeletionApproval "u-emp" EMPLOYEE lr st
   ∧ users st !! "u-mgr" = Some (userOf "u-mgr")
   ∧ users st !! userId lr = Some (userOf "u-emp")
   ∧ mayDecideDeletion "u-mgr" (userOf "u-mgr") (userOf "u-emp") = true)
  ∧ code restored.1 = 200
  ∧ (∃ lr', leaveRequests restored.2 !! "lr-B" = Some lr'
            ∧ status lr' = status lr ∧ sameRequest lr' lr
            ∧ metadata lr' ≫= deletionRejectedBy = Some "u-mgr")
  ∧ historyOf "lr-B" restored.2 = historyOf "lr-B" st
  ∧ leaveBalances restored.2 = leaveBalances st.
Proof.
  intros st lr parked restored.
  assert (H1 : leaveRequests st !! "lr-B" = Some lr) by by vm_compute.
  assert (H3 : users st !! "u-mgr" = Some (userOf "u-mgr")) by by vm_compute.
  assert (H4 : users st !! userId lr = Some (userOf "u-emp")) by by vm_compute.
  assert (H5 : mayDecideDeletion "u-mgr" (userOf "u-mgr") (userOf "u-emp")
               = true) by by vm_compute.
  split; [exact (conj H1 (conj employee_awaits_deletion_approval
                           (conj H3 (conj H4 H5)))) |].
  exact (rejected_deletion_restores_the_request feb2 (day 20487) "lr-B" None
           "u-emp" EMPLOYEE "u-mgr" (userOf "u-mgr") (userOf "u-emp") st lr
           H1 employee_awaits_deletion_approval H3 H4 H5).
Defined.

(** The manager approves the deletion that the employee asked for; the
    HR officer's own deletion of the request would leave the same
    store. *)
Lemma approved_deletion_equals_immediate_deletion_witness :
  let st := beforeLastApproval in
  let lr := stored "lr-B" st in
  let parked := deleteLeaveRequest feb2 "lr-B" "u-emp" EMPLOYEE st in
  let approved := approveDeleteLeaveRequest "lr-B" None "u-mgr" parked.2 in
  let immediate := deleteLeaveRequest (day 20487) "lr-B" "u-hr" HR st in
  (leaveRequests st !! "lr-B" = Some lr
   ∧ awaitsDeletionApproval "u-emp" EMPLOYEE lr st
   ∧ users st !! "u-mgr" = Some (userOf "u-mgr")
   ∧ users st !! userId lr = Some (userOf "u-emp")
   ∧ mayDecideDeletion "u-mgr" (userOf "u-mgr") (userOf "u-emp") = true)
  ∧ code approved.1 = 200
  ∧ body immediate.1 = DeletedOk
  ∧ approved.2 = immediate.2
  ∧ approved.2 = removeLeaveRequest "lr-B" (revertBalance lr st).
Proof.
  intros st lr parked approved immediate.
  assert (H1 : leaveRequests st !! "lr-B" = Some lr) by by vm_compute.
  assert (H3 : users st !! "u-mgr" = Some (userOf "u-mgr")) by by vm_compute.
  assert (H4 : users st !! userId lr = Some (userOf "u-emp")) by by vm_compute.
  assert (H5 : mayDecideDeletion "u-mgr" (userOf "u-mgr") (userOf "u-emp")
               = true) by by vm_compute.
  split; [exact (conj H1 (conj employee_awaits_deletion_approval
                           (conj H3 (conj H4 H5)))) |].
  exact (approved_deletion_equals_immediate_deletion feb2 (day 20487) "lr-B"
           None "u-emp" EMPLOYEE "u-mgr" (userOf "u-mgr") (userOf "u-emp")
           "u-hr" st lr H1 employee_awaits_deletion_approval H3 H4 H5).
Defined.

(** The team lead rejects the employee's first request while it is
    pending. *)
Lemma rejection_is_recorded_and_closes_the_request_witness :
  let st := after 1 overlapTrace in
  let lr := stored "lr-A" st in
  let out := updateLeaveRequestStatus demoEnv feb2 "lr-A" reject "u-tl" st in
  (asksFor reject REJECTED
   ∧ leaveRequests st !! "lr-A" = Some lr
   ∧ (status lr = PENDING ∨ status lr = PARTIALLY_APPROVED)
   ∧ users st !! "u-tl" = Some (userOf "u-tl")
   ∧ users st !! userId lr = Some (userOf "u-emp")
   ∧ isAuthorized (isApproverAuthorized demoEnv st "u-tl" (userId lr)) = true)
  ∧ code out.1 = 200
  ∧ (∃ lr', leaveRequests out.2 !! "lr-A" = Some lr'
            ∧ status lr' = REJECTED ∧ sameRequest lr' lr
            ∧ metadata lr' = metadata lr
            ∧ approverId lr' = Some "u-tl" ∧ approvedAt lr' = Some feb2)
  ∧ leaveBalances out.2 = leaveBalances st
  ∧ (asksFor approve APPROVED →
     updateLeaveRequestStatus demoEnv (day 20487) "lr-A" approve "u-mgr" out.2
     = respond 400 OnlyPendingOrPartial out.2).
Proof.
  intros st lr out.
  assert (H1 : leaveRequests st !! "lr-A" = Some lr) by by vm_compute.
  assert (H2 : status lr = PENDING ∨ status lr = PARTIALLY_APPROVED)
    by (left; by vm_compute).
  assert (H3 : users st !! "u-tl" = Some (userOf "u-tl")) by by vm_compute.
  assert (H4 : users st !! userId lr = Some (userOf "u-emp")) by by vm_compute.
  assert (H5 : isAuthorized
                 (isApproverAuthorized demoEnv st "u-tl" (userId lr)) = true)
    by by vm_compute.
  split; [exact (conj asksFor_reject (conj H1 (conj H2 (conj H3 (conj H4 H5))))) |].
  exact (rejection_is_recorded_and_closes_the_request demoEnv feb2 (day 20487)
           "lr-A" reject approve "u-tl" "u-mgr" st lr (userOf "u-tl")
           (userOf "u-emp") asksFor_reject H1 H2 H3 H4 H5).
Defined.

Lemma extendedLeave_levels_distinct :
  NoDup (level <$> nApprovalLevels extendedLeave).
Proof. apply (bool_decide_unpack _). vm_compute. exact I. Defined.

(** The required levels of a manager's request under the extended
    workflow, whose second level lists the role name [manager]. *)
Lemma requiredLevelsFor_skips_own_role_witness :
  NoDup (level <$> nApprovalLevels extendedLeave)
  ∧ requiredLevelsFor (userOf "u-mgr") (nApprovalLevels extendedLeave)
    = level <$> List.filter
                  (λ l, negb (includes (roleIds l)
                                (roleName (role (userOf "u-mgr")))))
                  (sortLevels (nApprovalLevels extendedLeave)).
Proof.
  split; [exact extendedLeave_levels_distinct |].
  exact (requiredLevelsFor_skips_own_role (userOf "u-mgr")
           (nApprovalLevels extendedLeave) extendedLeave_levels_distinct).
Defined.

End LeaveRequestMoreWitness.
